(** * psychonaut-station/api: the BYOND topic client, the response cache
      and the /v1 handlers

    A shallow embedding of the Go sources:
    - package [byond]  ([Topic], the binary query protocol client),
    - package [api]    helpers ([CachedResponse], [ShouldRefreshResponse],
      [Confidential], [WriteHeaderResponse], [url_to_int], ...),
    - package [api]    handlers ([StatusCb], [PlayerLeaderboardCb],
      [BanCheckCb], [InitV1]).

    Conventions.  A Go [string] is a Rocq [string] (both are sequences of
    8-bit bytes), a [[]byte] is a [list byte], Go integers are [Z] with the
    wrap-around written out where the code converts, a [time.Time] is the
    number of nanoseconds since the zero time ([time.Time{}], January 1 of
    year 1), and a [time.Duration] is a signed 64-bit count of nanoseconds. *)

From Stdlib Require Import ZArith Zbitwise List String Ascii Strings.Byte Bool Lia.
From Stdlib Require QArith Qround DecimalString.
From stdpp Require Import base option list gmap strings.
Import ListNotations.

Local Open Scope string_scope.
Local Open Scope list_scope.
Local Open Scope Z_scope.

(** ** Bytes *)

Definition Z_of_byte (b : byte) : Z := Z.of_N (Byte.to_N b).

(** [byte(x)] on an integer: the low 8 bits. *)
Definition byte_of_Z (z : Z) : byte :=
  match Byte.of_N (Z.to_N (z mod 256)) with
  | Some b => b
  | None => x00
  end.

(** Equality of two byte strings, position by position. *)
Fixpoint forallb2 {A B} (f : A -> B -> bool) (l : list A) (k : list B) : bool :=
  match l, k with
  | [], [] => true
  | a :: l', b :: k' => f a b && forallb2 f l' k'
  | _, _ => false
  end.

(** [make([]byte, n)]: [n] zero bytes. *)
Definition make_bytes (n : nat) : list byte := replicate n x00.

(** ** Go's [string(int)] conversion

    [string(v)] on an integer yields the UTF-8 encoding of the code point
    [v] (runtime [intstring] and [encoderune]); values that are not valid
    code points yield the encoding of U+FFFD. *)

Definition runeError : Z := 0xFFFD.
Definition maxRune : Z := 0x10FFFF.
Definition surrogateMin : Z := 0xD800.
Definition surrogateMax : Z := 0xDFFF.

Definition encode3 (r : Z) : list byte :=
  [ byte_of_Z (Z.lor 0xE0 (Z.shiftr r 12));
    byte_of_Z (Z.lor 0x80 (Z.land (Z.shiftr r 6) 0x3F));
    byte_of_Z (Z.lor 0x80 (Z.land r 0x3F)) ].

Definition encoderune (r : Z) : list byte :=
  if (r <? 0) || (maxRune <? r) || ((surrogateMin <=? r) && (r <=? surrogateMax))
  then encode3 runeError
  else if r <=? 0x7F then [ byte_of_Z r ]
  else if r <=? 0x7FF then
    [ byte_of_Z (Z.lor 0xC0 (Z.shiftr r 6));
      byte_of_Z (Z.lor 0x80 (Z.land r 0x3F)) ]
  else if r <=? 0xFFFF then encode3 r
  else
    [ byte_of_Z (Z.lor 0xF0 (Z.shiftr r 18));
      byte_of_Z (Z.lor 0x80 (Z.land (Z.shiftr r 12) 0x3F));
      byte_of_Z (Z.lor 0x80 (Z.land (Z.shiftr r 6) 0x3F));
      byte_of_Z (Z.lor 0x80 (Z.land r 0x3F)) ].

(** ** Package byond *)

Module byond.

Definition TopicTypeNull : Z := 0x0.
Definition TopicTypeNumber : Z := 0x2A.
Definition TopicTypeString : Z := 0x6.

Definition BYOND_PACKET_HEADER_SIZE : nat := 4.

Record ByondPacketHeader := {
  PacketType : Z;
  DataSize : Z
}.

(** [binary.BigEndian.Uint16(b)]: [uint16(b[1]) | uint16(b[0])<<8].  The
    buffers it is applied to have at least two bytes. *)
Definition BigEndian_Uint16 (b : list byte) : Z :=
  match b with
  | b0 :: b1 :: _ => Z.lor (Z_of_byte b1) (Z.shiftl (Z_of_byte b0) 8)
  | _ => 0
  end.

(** *** The connection

    What the remote end delivers after the request has been written: a
    sequence of deliveries, each a run of bytes that arrives together;
    after the last one the remote end closes the connection.  A remote end
    that neither sends nor closes (a read that blocks for ever) is outside
    the model. *)
Definition Stream := list (list byte).

(** One call of [conn.Read(buf)] with [len(buf) = n]: at most [n] bytes of
    the delivery at the head of the stream are copied; what does not fit
    stays for the next call.  A zero-length buffer returns at once, and a
    closed connection copies nothing.  The result is the bytes copied and
    the rest of the stream. *)
Fixpoint conn_Read (n : nat) (s : Stream) : list byte * Stream :=
  match n with
  | O => ([], s)
  | _ =>
    match s with
    | [] => ([], [])
    | [] :: rest => conn_Read n rest
    | chunk :: rest =>
        if (length chunk <=? n)%nat then (chunk, rest)
        else (take n chunk, drop n chunk :: rest)
    end
  end.

(** [buf := make([]byte, n); conn.Read(buf)]: the return value of [Read]
    (the number of bytes copied) is dropped by the caller, the buffer
    keeps its zeroes past the bytes copied. *)
Definition read_into_fresh (n : nat) (s : Stream) : list byte * Stream :=
  let '(got, rest) := conn_Read n s in
  (got ++ make_bytes (n - length got), rest).

Inductive error := DialError (msg : string).

(** The remote end of a connection: the deliveries it answers a written
    request with. *)
Record Conn := { respond : list byte -> Stream }.

(** What [net.DialTimeout("tcp", address, 100ms)] returns: a connection
    and an error, either of which can be nil. *)
Record DialResult := { dial_conn : option Conn; dial_err : option error }.

Definition Net := string -> DialResult.

(** The request packet [Topic] builds in [packetData]: the Go literals
    ["\x00\x83"], ["\x00" + string(len(data)+6)], five ["\x00"], the
    command and a final ["\x00"], written one after the other. *)
Definition packetData (data : string) : list byte :=
  [x00; x83]
  ++ ([x00] ++ encoderune (Z.of_nat (String.length data) + 6))
  ++ [x00; x00; x00; x00; x00]
  ++ list_byte_of_string data
  ++ [x00].

(** The exchange on an established connection, after [conn.Write]: the
    header read, the body read, and the classification.  [s] is what the
    remote end delivers. *)
Definition Topic_exchange (s : Stream) : option error * Z * option (list byte) :=
  let '(responseHeaderData, s1) := read_into_fresh BYOND_PACKET_HEADER_SIZE s in
  let responseHeader :=
    {| PacketType := BigEndian_Uint16 (drop 0 responseHeaderData);
       DataSize := BigEndian_Uint16 (drop 2 responseHeaderData) |} in
  let '(responseData, _) := read_into_fresh (Z.to_nat (DataSize responseHeader)) s1 in
  let responseDataType :=
    if (2 <? length responseData)%nat
    then match responseData with b :: _ => Z_of_byte b | [] => TopicTypeNull end
    else TopicTypeNull in
  if responseDataType =? TopicTypeNull
  then (None, responseDataType, None)
  else (None, responseDataType, Some (drop 1 responseData)).

(** [Topic(address, data)] returns [(error, int, []byte)]; a nil error
    and a nil slice are [None]. *)
Definition Topic (net : Net) (address data : string)
  : option error * Z * option (list byte) :=
  let packet := packetData data in
  let d := net address in
  match dial_conn d, dial_err d with
  | Some conn, None => Topic_exchange (respond conn packet)
  | _, err => (err, TopicTypeNull, None)
  end.

(** *** The wire format as the specification states it

    These two definitions follow the specification, not the code. *)

(** The request frame of the specification:
    [[0x00 0x83][0x00][LEN = payload_len + 6][0x00 x 5][payload][0x00]]
    with the length in a single byte. *)
Definition spec_request_frame (payload : list byte) : list byte :=
  [x00; x83] ++ [x00] ++ [byte_of_Z (Z.of_nat (length payload) + 6)]
  ++ replicate 5 x00 ++ payload ++ [x00].

(** A reference parser of request frames: the two-byte type [0x00 0x83],
    a two-byte big-endian length, five zero bytes, then [length - 6]
    payload bytes and the final NUL ([length] counts the five zero
    bytes, the payload and the NUL). *)
Definition reference_parse (frame : list byte) : option (list byte) :=
  let magic := take 2 frame in
  let len := BigEndian_Uint16 (take 2 (drop 2 frame)) in
  let pad := take 5 (drop 4 frame) in
  let body := drop 9 frame in
  if forallb2 Byte.eqb magic [x00; x83]
     && forallb2 Byte.eqb pad (replicate 5 x00)
     && (Z.of_nat (length body) =? len - 5)
     && forallb2 Byte.eqb (drop (length body - 1) body) [x00]
  then Some (take (Z.to_nat (len - 6)) body)
  else None.

(** *** Response frames, as a remote server sends them

    The four-byte header (type and body size, both big-endian 16-bit)
    followed by the body. *)
Definition response_header (packet_type size : Z) : list byte :=
  [ byte_of_Z (Z.shiftr packet_type 8); byte_of_Z packet_type;
    byte_of_Z (Z.shiftr size 8); byte_of_Z size ].

Definition response_frame (packet_type : Z) (body : list byte) : list byte :=
  response_header packet_type (Z.of_nat (length body)) ++ body.

End byond.

(** ** Package time (the part the cache uses) *)

Module time.

Definition Nanosecond : Z := 1.
Definition Second : Z := 1000000000.
Definition Hour : Z := 3600 * Second.

Definition minDuration : Z := - 2 ^ 63.
Definition maxDuration : Z := 2 ^ 63 - 1.

(** [time.Time{}], the zero time. *)
Definition zero : Z := 0.

(** The Unix epoch, in nanoseconds after the zero time
    (62135596800 seconds). *)
Definition unixEpoch : Z := 62135596800 * Second.

(** [t.Sub(u)]: the duration [t - u], or the largest (smallest) duration
    when the difference does not fit. *)
Definition Sub (t u : Z) : Z :=
  if maxDuration <? t - u then maxDuration
  else if t - u <? minDuration then minDuration
  else t - u.

(** [time.Since(t)] is [time.Now().Sub(t)]; [now] is the clock reading. *)
Definition Since (now t : Z) : Z := Sub now t.

End time.

(** ** Package strconv: [Atoi] on a 64-bit platform *)

Module strconv.

Definition is_digit (c : ascii) : bool :=
  let n := N_of_ascii c in (48 <=? n)%N && (n <=? 57)%N.

Definition digit_value (c : ascii) : Z := Z.of_N (N_of_ascii c) - 48.

(** The loop of the fast path of [Atoi]: [n = n*10 + int(ch)] for every
    byte, leaving with a syntax error ([None]) at the first byte that is
    not a decimal digit. *)
Fixpoint digits_from (acc : Z) (s : string) : option Z :=
  match s with
  | EmptyString => Some acc
  | String c rest =>
      if is_digit c then digits_from (acc * 10 + digit_value c) rest else None
  end.

(** The value of a run of decimal digits, [None] when the run is empty
    or holds another character. *)
Definition parse_digits (s : string) : option Z :=
  match s with
  | EmptyString => None
  | _ => digits_from 0 s
  end.

Inductive NumError := ErrSyntax | ErrRange.

(** Whether [s[0]] is ['-']. *)
Definition negative (s : string) : bool :=
  match s with
  | String c _ => Ascii.eqb c "-"
  | EmptyString => false
  end.

(** [s] after its leading sign, if it has one: [s = s[1:]] under
    [s[0] == '-' || s[0] == '+']. *)
Definition unsigned (s : string) : string :=
  match s with
  | String c rest => if Ascii.eqb c "-" || Ascii.eqb c "+" then rest else s
  | EmptyString => s
  end.

Definition maxUint64 : Z := 2 ^ 64 - 1.

(** The loop of [ParseUint(s, 10, 64)], from the accumulator [n] on.  The
    bytes are taken in order: one that is not a decimal digit ends the
    loop with [0] and a syntax error; a digit at which [n*10] or
    [n*10 + d] passes [maxUint64] ends it at once with [maxUint64] and a
    range error, whatever bytes follow. *)
Fixpoint ParseUint_loop (n : Z) (s : string) : Z * option NumError :=
  match s with
  | EmptyString => (n, None)
  | String c rest =>
      if negb (is_digit c) then (0, Some ErrSyntax)
      else if n >=? maxUint64 / 10 + 1 then (maxUint64, Some ErrRange)
      else
        let n1 := n * 10 + digit_value c in
        if maxUint64 <? n1 then (maxUint64, Some ErrRange)
        else ParseUint_loop n1 rest
  end.

(** [ParseUint(s, 10, 64)] *)
Definition ParseUint (s : string) : Z * option NumError :=
  match s with
  | EmptyString => (0, Some ErrSyntax)
  | _ => ParseUint_loop 0 s
  end.

(** [ParseInt(s, 10, 0)]: the sign is picked off, the rest goes through
    [ParseUint]; a syntax error gives [0], and a magnitude that does not
    fit (a range error of [ParseUint] included) gives the nearest bound
    and a range error. *)
Definition ParseInt (s : string) : Z * option NumError :=
  match s with
  | EmptyString => (0, Some ErrSyntax)
  | _ =>
      let neg := negative s in
      let '(un, err) := ParseUint (unsigned s) in
      match err with
      | Some ErrSyntax => (0, Some ErrSyntax)
      | _ =>
          let cutoff := 2 ^ 63 in
          if negb neg && (un >=? cutoff) then (cutoff - 1, Some ErrRange)
          else if neg && (cutoff <? un) then (- cutoff, Some ErrRange)
          else (if neg then - un else un, None)
      end
  end.

(** [strconv.Atoi(s)].  A string of 1 to 18 bytes takes the fast path:
    the sign is picked off and the digits are added up, with a syntax
    error for an empty rest or a byte that is not a digit.  Every other
    string goes through [ParseInt]. *)
Definition Atoi (s : string) : Z * option NumError :=
  let sLen := String.length s in
  if (0 <? sLen)%nat && (sLen <? 19)%nat then
    match parse_digits (unsigned s) with
    | None => (0, Some ErrSyntax)
    | Some n => (if negative s then - n else n, None)
    end
  else ParseInt s.

End strconv.

(** [int32(v)]: the low 32 bits, read as a signed number. *)
Definition int32 (v : Z) : Z := (v + 2 ^ 31) mod 2 ^ 32 - 2 ^ 31.

(** ** Package net/url: [Values], [ParseQuery] *)

Module url.

(** [url.Values] is [map[string][]string]. *)
Abbreviation Values := (gmap string (list string)).

Definition Get (v : Values) (key : string) : string :=
  match v !! key with
  | Some (x :: _) => x
  | _ => ""
  end.

Definition Has (v : Values) (key : string) : bool :=
  match v !! key with
  | Some _ => true
  | None => false
  end.

Definition ishex (c : ascii) : bool :=
  let n := N_of_ascii c in
  ((48 <=? n) && (n <=? 57) || (97 <=? n) && (n <=? 102)
   || (65 <=? n) && (n <=? 70))%N.

Definition unhex (c : ascii) : N :=
  let n := N_of_ascii c in
  (if (48 <=? n) && (n <=? 57) then n - 48
   else if (97 <=? n) && (n <=? 102) then n - 97 + 10
   else if (65 <=? n) && (n <=? 70) then n - 65 + 10
   else 0)%N.

(** [QueryUnescape]: [%XX] becomes the byte [XX], [+] becomes a space;
    a [%] that is not followed by two hexadecimal digits is an error. *)
Fixpoint QueryUnescape (s : string) : option string :=
  match s with
  | EmptyString => Some EmptyString
  | String "%" rest =>
      match rest with
      | String a (String b rest') =>
          if ishex a && ishex b
          then String (ascii_of_N (unhex a * 16 + unhex b)) <$> QueryUnescape rest'
          else None
      | _ => None
      end
  | String "+" rest => String " " <$> QueryUnescape rest
  | String c rest => String c <$> QueryUnescape rest
  end.

(** [strings.Cut(s, sep)] for a one-byte separator: the text before and
    after the first [sep] (all of [s] and the empty string when there is
    none). *)
Fixpoint Cut (sep : ascii) (s : string) : string * string :=
  match s with
  | EmptyString => (EmptyString, EmptyString)
  | String c rest =>
      if Ascii.eqb c sep then (EmptyString, rest)
      else let '(before, after) := Cut sep rest in (String c before, after)
  end.

Fixpoint Contains (c : ascii) (s : string) : bool :=
  match s with
  | EmptyString => false
  | String d rest => Ascii.eqb d c || Contains c rest
  end.

(** The pieces that the loop of [parseQuery] cuts off one after the other
    with [strings.Cut(query, "&")]. *)
Fixpoint pieces (cur : string -> string) (s : string) : list string :=
  match s with
  | EmptyString => [cur EmptyString]
  | String c rest =>
      if Ascii.eqb c "&" then cur EmptyString :: pieces (fun x => x) rest
      else pieces (fun x => cur (String c x)) rest
  end.

(** One turn of the loop of [parseQuery] on the piece [key]: pieces with
    a semicolon, empty pieces and pieces that do not unescape are
    skipped; otherwise the value is appended to the key's list. *)
Definition parseQuery_step (m : Values) (key : string) : Values :=
  if Contains ";" key then m
  else if String.eqb key "" then m
  else
    let '(key, value) := Cut "=" key in
    match QueryUnescape key with
    | None => m
    | Some key =>
        match QueryUnescape value with
        | None => m
        | Some value => <[ key := default [] (m !! key) ++ [value] ]> m
        end
    end.

(** [ParseQuery(query)], the error dropped (its callers here all ignore
    it). *)
Definition ParseQuery (query : string) : Values :=
  fold_left parseQuery_step (pieces (fun x => x) query) ∅.

End url.

(** ** Package config *)

Module config.

Record ServerInstance := {
  Name : string;
  Address : string;
  ConnectionAddress : string;
  ErrorMessage : string
}.

(** Of [Config], the fields the handlers read: the shared secret and the
    server list (the listen address and the database credentials are
    used at start-up only). *)
Record Config := {
  Secret : string;
  Servers : list ServerInstance
}.

End config.

(** ** Package db *)

Module db.

(** The fields are nullable columns: Go pointers, nil as [None]. *)
Record RoleTime := {
  ByondKey : option string;
  Minutes : option Z
}.

Record Ban := {
  ID : option Z;
  Date : option string;
  RoundID : option Z;
  Role : option string;
  ExpirationDate : option string;
  Reason : option string;
  BannedKey : option string;
  AdminKey : option string;
  Edits : option string;
  UnbanDate : option string;
  UnbanKey : option string
}.

(** The database as the handlers see it: what each accessor returns for
    its argument.  A nil slice is the empty list. *)
Record Database := {
  GetTopMinutes : string -> list RoleTime;
  GetBanByID : Z -> Ban * bool;
  GetBan : string -> list Ban * bool
}.

Inductive Query :=
| QGetTopMinutes (job : string)
| QGetBanByID (id : Z)
| QGetBan (ckey : string).

End db.

(** ** Package api *)

Module api.

Definition ResponseFail : Z := 0.
Definition ResponseSuccess : Z := 1.
Definition ResponseDenied : Z := 2.
Definition ResponseBadAuth : Z := 3.

Record CachedResponse (T : Type) := {
  Cooldown : Z;
  LastAccess : Z;
  Var : T
}.
Arguments Cooldown {T} _.
Arguments LastAccess {T} _.
Arguments Var {T} _.

(** [ShouldRefreshResponse(response)]; [now] is the reading of the clock
    that [time.Since] takes. *)
Definition ShouldRefreshResponse {T} (now : Z) (response : CachedResponse T) : bool :=
  time.Since now (LastAccess response) >=? Cooldown response.

Definition Init {T} (w : CachedResponse T) (cooldown : Z) : CachedResponse T :=
  {| Cooldown := cooldown; LastAccess := time.zero; Var := Var w |}.

(** The two field assignments of a refresh. *)
Definition set_LastAccess {T} (w : CachedResponse T) (t : Z) : CachedResponse T :=
  {| Cooldown := Cooldown w; LastAccess := t; Var := Var w |}.

Definition set_Var {T} (w : CachedResponse T) (v : T) : CachedResponse T :=
  {| Cooldown := Cooldown w; LastAccess := LastAccess w; Var := v |}.

Definition url_to_int (u : url.Values) (v : string) : Z :=
  let '(val, _) := strconv.Atoi (url.Get u v) in
  int32 val.

Definition to_int (v : string) : Z :=
  let '(val, _) := strconv.Atoi v in
  int32 val.

(** An incoming request: the value of its [token] header (empty when the
    header is absent) and the raw query string of its URL. *)
Record Request := {
  Header_token : string;
  RawQuery : string
}.

(** [r.URL.Query()] *)
Definition Query (r : Request) : url.Values := url.ParseQuery (RawQuery r).

(** Floating point is kept abstract: the type of [float32] values, its
    zero, [ParseFloat32 s] for [float32(val)] where
    [val, _ := strconv.ParseFloat(s, 32)], and [f32_finite x] for
    [!math.IsInf(x, 0) && !math.IsNaN(x)], the test [encoding/json]
    makes before it writes a float. *)
Class Float32 := {
  float32 : Type;
  f32_zero : float32;
  ParseFloat32 : string -> float32;
  f32_finite : float32 -> bool
}.

Section Handlers.
Context `{Float32}.

Definition url_to_f32 (u : url.Values) (v : string) : float32 :=
  ParseFloat32 (url.Get u v).

Definition to_f32 (v : string) : float32 := ParseFloat32 v.

(** Direct representation of status topic *)
Record ServerStatus := {
  Name : string;
  ServerStatus_ : Z;
  ErrorMessage : string;
  RoundID : Z;
  Hub : bool;
  Players : Z;
  Admins : Z;
  Map : string;
  SecurityLevel : string;
  RoundDuration : Z;
  GameState : Z;
  TimeDilation : float32;
  TimeDilationAvg : float32;
  TimeDilationSlow : float32;
  TimeDilationFast : float32;
  ShuttleMode : string;
  ShuttleTime : Z;
  ConnectionInfo : string
}.

(** The bodies the handlers put in a [GenericHeader[T]]. *)
Inductive ResponseBody :=
| BodyInt (n : Z)
| BodyServers (l : list ServerStatus)
| BodyRoleTimes (l : list db.RoleTime)
| BodyBan (b : db.Ban)
| BodyBans (l : list db.Ban).

(** Generic response header *)
Record GenericHeader := {
  Status : Z;
  Reason : string;
  Body : ResponseBody
}.

(** What a handler does that is visible from outside, in order: stores
    to the two package-level caches (with the entry as it is after the
    store), topic queries, database lookups, and envelopes written to
    the response. *)
Inductive Event :=
| EvServerResponseW (c : CachedResponse (list ServerStatus))
| EvPlayTimeLeaderboardW (c : CachedResponse (list db.RoleTime))
| EvTopic (address data : string)
| EvDb (q : db.Query)
| EvWriteJson (h : GenericHeader).

(** The state the handlers run in: the two caches, the number of clock
    readings taken so far, and the events so far (oldest first). *)
Record World := {
  serverResponseW : CachedResponse (list ServerStatus);
  playTimeLeaderboardW : CachedResponse (list db.RoleTime);
  clock_reads : nat;
  trace : list Event
}.

(** The surroundings: the loaded configuration, the network, the
    database, and the clock ([clock k] is the [k]-th reading). *)
Record Env := {
  GetConfig : config.Config;
  net : byond.Net;
  database : db.Database;
  clock : nat -> Z
}.

Definition M (A : Type) : Type := World -> A * World.

#[local] Instance M_ret : MRet M := fun A a w => (a, w).
#[local] Instance M_bind : MBind M :=
  fun A B f m w => let '(a, w') := m w in f a w'.

Definition emit (e : Event) : M unit := fun w =>
  (tt, {| serverResponseW := serverResponseW w;
          playTimeLeaderboardW := playTimeLeaderboardW w;
          clock_reads := clock_reads w;
          trace := trace w ++ [e] |}).

(** [time.Now()] *)
Definition time_Now (env : Env) : M Z := fun w =>
  (clock env (clock_reads w),
   {| serverResponseW := serverResponseW w;
      playTimeLeaderboardW := playTimeLeaderboardW w;
      clock_reads := S (clock_reads w);
      trace := trace w |}).

Definition load_serverResponseW : M (CachedResponse (list ServerStatus)) :=
  fun w => (serverResponseW w, w).

Definition store_serverResponseW (c : CachedResponse (list ServerStatus)) : M unit :=
  fun w =>
  (tt, {| serverResponseW := c;
          playTimeLeaderboardW := playTimeLeaderboardW w;
          clock_reads := clock_reads w;
          trace := trace w ++ [EvServerResponseW c] |}).

Definition load_playTimeLeaderboardW : M (CachedResponse (list db.RoleTime)) :=
  fun w => (playTimeLeaderboardW w, w).

Definition store_playTimeLeaderboardW (c : CachedResponse (list db.RoleTime)) : M unit :=
  fun w =>
  (tt, {| serverResponseW := serverResponseW w;
          playTimeLeaderboardW := c;
          clock_reads := clock_reads w;
          trace := trace w ++ [EvPlayTimeLeaderboardW c] |}).

(** [for _, x := range l { body }] *)
Fixpoint for_range {A} (l : list A) (body : A -> M unit) : M unit :=
  match l with
  | [] => mret tt
  | x :: l' => body x;; for_range l' body
  end.

Definition byond_Topic (env : Env) (address data : string)
  : M (option byond.error * Z * option (list byte)) :=
  emit (EvTopic address data);;
  mret (byond.Topic (net env) address data).

Definition db_GetTopMinutes (env : Env) (job : string) : M (list db.RoleTime) :=
  emit (EvDb (db.QGetTopMinutes job));;
  mret (db.GetTopMinutes (database env) job).

Definition db_GetBanByID (env : Env) (id : Z) : M (db.Ban * bool) :=
  emit (EvDb (db.QGetBanByID id));;
  mret (db.GetBanByID (database env) id).

Definition db_GetBan (env : Env) (ckey : string) : M (list db.Ban * bool) :=
  emit (EvDb (db.QGetBan ckey));;
  mret (db.GetBan (database env) ckey).

(** Whether [encoding/json] encodes the value.  Of what the handlers
    write (integers, booleans, strings, nil pointers, structs and slices
    of these) only a float can be refused: an infinity or a NaN is an
    [UnsupportedValueError]. *)
Definition ServerStatus_encodable (status : ServerStatus) : bool :=
  f32_finite (TimeDilation status) && f32_finite (TimeDilationAvg status)
  && f32_finite (TimeDilationSlow status) && f32_finite (TimeDilationFast status).

Definition encodable (body : ResponseBody) : bool :=
  match body with
  | BodyServers l => forallb ServerStatus_encodable l
  | _ => true
  end.

(** [json.NewEncoder(w).Encode(v)]: the value is encoded in full before
    anything is written, so a value that cannot be encoded writes
    nothing; the error is dropped. *)
Definition WriteJson (v : GenericHeader) : M unit :=
  if encodable (Body v) then emit (EvWriteJson v) else mret tt.

Definition WriteHeaderResponseCustom (status : Z) (reason : string)
    (body : ResponseBody) : M unit :=
  let header := {| Status := status; Reason := reason; Body := body |} in
  WriteJson header.

Definition WriteHeaderResponse (status : Z) (body : ResponseBody) : M unit :=
  if status =? ResponseFail then WriteHeaderResponseCustom status "fail" (BodyInt 0)
  else if status =? ResponseSuccess then WriteHeaderResponseCustom status "success" body
  else if status =? ResponseDenied then WriteHeaderResponseCustom status "denied" (BodyInt 0)
  else if status =? ResponseBadAuth then WriteHeaderResponseCustom status "bad auth" (BodyInt 0)
  else mret tt.

Definition Confidential (env : Env) (r : Request) : M bool :=
  let token := Header_token r in
  if negb (String.eqb token (config.Secret (GetConfig env))) then
    WriteHeaderResponse ResponseBadAuth (BodyInt 0);;
    mret false
  else mret true.

(** [string(data)] for the slice [Topic] returned. *)
Definition string_of_bytes (data : option (list byte)) : string :=
  string_of_list_byte (default [] data).

(** The record [StatusCb] starts from for a server: "Base server info". *)
Definition base_status (server : config.ServerInstance) : ServerStatus :=
  {| Name := config.Name server;
     ServerStatus_ := 0;
     ErrorMessage := config.ErrorMessage server;
     RoundID := 0; Hub := false; Players := 0; Admins := 0;
     Map := ""; SecurityLevel := ""; RoundDuration := 0; GameState := 0;
     TimeDilation := f32_zero; TimeDilationAvg := f32_zero;
     TimeDilationSlow := f32_zero; TimeDilationFast := f32_zero;
     ShuttleMode := ""; ShuttleTime := 0;
     ConnectionInfo := config.ConnectionAddress server |}.

(** The record after the assignments under "Online server info". *)
Definition online_status (status : ServerStatus) (u : url.Values) : ServerStatus :=
  {| Name := Name status;
     ServerStatus_ := 1;
     ErrorMessage := ErrorMessage status;
     RoundID := url_to_int u "round_id";
     Hub := url_to_int u "hub" =? 1;
     Players := url_to_int u "players";
     Admins := url_to_int u "admins";
     Map := url.Get u "map_name";
     SecurityLevel := url.Get u "security_level";
     RoundDuration := url_to_int u "round_duration";
     GameState := url_to_int u "gamestate";
     TimeDilation := url_to_f32 u "time_dilation_current";
     TimeDilationAvg := url_to_f32 u "time_dilation_avg";
     TimeDilationSlow := url_to_f32 u "time_dilation_avg_slow";
     TimeDilationFast := url_to_f32 u "time_dilation_avg_fast";
     ShuttleMode := url.Get u "shuttle_mode";
     ShuttleTime := url_to_int u "shuttle_time";
     ConnectionInfo := ConnectionInfo status |}.

(** [serverResponseW.Var = append(serverResponseW.Var, status)] *)
Definition append_serverResponseW (status : ServerStatus) : M unit :=
  c ← load_serverResponseW;
  store_serverResponseW (set_Var c (Var c ++ [status])).

(** The body of the loop of [StatusCb] over [cfg.Servers]. *)
Definition StatusCb_server (env : Env) (server : config.ServerInstance) : M unit :=
  '(err, dataType, data) ← byond_Topic env (config.Address server) "?status";
  let status := base_status server in
  if bool_decide (err ≠ None) || negb (dataType =? byond.TopicTypeString) then
    append_serverResponseW status
  else
    let u := url.ParseQuery (string_of_bytes data) in
    append_serverResponseW (online_status status u).

Definition StatusCb (env : Env) (r : Request) : M unit :=
  response ← load_serverResponseW;
  now ← time_Now env;
  (if ShouldRefreshResponse now response then
     t ← time_Now env;
     c ← load_serverResponseW;
     store_serverResponseW (set_LastAccess c t);;
     c ← load_serverResponseW;
     store_serverResponseW (set_Var c []);;
     let cfg := GetConfig env in
     for_range (config.Servers cfg) (StatusCb_server env)
   else mret tt);;
  c ← load_serverResponseW;
  WriteHeaderResponse ResponseSuccess (BodyServers (Var c)).

(** *** [StatusCb], statement by statement

    The handlers of concurrent requests run as goroutines on the same
    package-level caches, with no lock.  A request in [StatusCb] is at
    one of these points; a step runs the statement at that point on the
    shared state and moves on.  One turn of the loop (the query, the
    record and its append) is taken as one step. *)
Inductive StatusCb_pc :=
| PcCheck
| PcSetLastAccess
| PcSetVar
| PcLoop (rest : list config.ServerInstance)
| PcWrite
| PcDone.

Definition StatusCb_step (env : Env) (pc : StatusCb_pc) : M StatusCb_pc :=
  match pc with
  | PcCheck =>
      response ← load_serverResponseW;
      now ← time_Now env;
      mret (if ShouldRefreshResponse now response then PcSetLastAccess else PcWrite)
  | PcSetLastAccess =>
      t ← time_Now env;
      c ← load_serverResponseW;
      store_serverResponseW (set_LastAccess c t);;
      mret PcSetVar
  | PcSetVar =>
      c ← load_serverResponseW;
      store_serverResponseW (set_Var c []);;
      mret (PcLoop (config.Servers (GetConfig env)))
  | PcLoop [] => mret PcWrite
  | PcLoop (server :: rest) =>
      StatusCb_server env server;;
      mret (PcLoop rest)
  | PcWrite =>
      c ← load_serverResponseW;
      WriteHeaderResponse ResponseSuccess (BodyServers (Var c));;
      mret PcDone
  | PcDone => mret PcDone
  end.

(** [n] steps of one request, with no step of another in between. *)
Fixpoint StatusCb_steps (env : Env) (n : nat) (pc : StatusCb_pc) : M StatusCb_pc :=
  match n with
  | O => mret pc
  | S n' => pc' ← StatusCb_step env pc; StatusCb_steps env n' pc'
  end.

(** Two requests in [StatusCb] at once: the schedule tells, step after
    step, which of the two moves ([true] for the first). *)
Fixpoint StatusCb_interleaved (env : Env) (schedule : list bool)
    (pcs : StatusCb_pc * StatusCb_pc) : M (StatusCb_pc * StatusCb_pc) :=
  match schedule with
  | [] => mret pcs
  | first :: schedule' =>
      pcs' ← (if first : bool
              then pc ← StatusCb_step env pcs.1; mret (pc, pcs.2)
              else pc ← StatusCb_step env pcs.2; mret (pcs.1, pc));
      StatusCb_interleaved env schedule' pcs'
  end.

(** [playTimeLeaderboardW.Var = append(playTimeLeaderboardW.Var, v)] *)
Definition append_playTimeLeaderboardW (v : db.RoleTime) : M unit :=
  c ← load_playTimeLeaderboardW;
  store_playTimeLeaderboardW (set_Var c (Var c ++ [v])).

Definition copy_RoleTime (v : db.RoleTime) : db.RoleTime :=
  {| db.ByondKey := db.ByondKey v; db.Minutes := db.Minutes v |}.

Definition PlayerLeaderboardCb (env : Env) (r : Request) : M unit :=
  let job := url.Get (Query r) "job" in
  if (0 <? String.length job)%nat then
    ok ← Confidential env r;
    if negb ok then mret tt
    else
      data ← db_GetTopMinutes env job;
      let playTimes :=
        fold_left (fun playTimes v => playTimes ++ [copy_RoleTime v]) data [] in
      WriteHeaderResponse ResponseSuccess (BodyRoleTimes playTimes)
  else
    response ← load_playTimeLeaderboardW;
    now ← time_Now env;
    (if ShouldRefreshResponse now response then
       t ← time_Now env;
       c ← load_playTimeLeaderboardW;
       store_playTimeLeaderboardW (set_LastAccess c t);;
       c ← load_playTimeLeaderboardW;
       store_playTimeLeaderboardW (set_Var c []);;
       data ← db_GetTopMinutes env "Living";
       for_range data (fun v => append_playTimeLeaderboardW (copy_RoleTime v))
     else mret tt);;
    c ← load_playTimeLeaderboardW;
    WriteHeaderResponse ResponseSuccess (BodyRoleTimes (Var c)).

Definition BanCheckCb (env : Env) (r : Request) : M unit :=
  ok ← Confidential env r;
  if negb ok then mret tt
  else
    let q := Query r in
    let status := ResponseFail in
    if url.Has q "id" then
      let banID := url_to_int q "id" in
      '(ban, success) ← db_GetBanByID env banID;
      let status := if success : bool then ResponseSuccess else status in
      WriteHeaderResponse status (BodyBan ban)
    else if url.Has q "ckey" then
      let ckey := url.Get q "ckey" in
      '(ban, success) ← db_GetBan env ckey;
      let status := if success : bool then ResponseSuccess else status in
      WriteHeaderResponse status (BodyBans ban)
    else mret tt.

(** The two [Init] calls of [InitV1] (the route table is not modelled). *)
Definition InitV1 : M unit :=
  c ← load_serverResponseW;
  store_serverResponseW (Init c (5 * time.Second));;
  c ← load_playTimeLeaderboardW;
  store_playTimeLeaderboardW (Init c (1 * time.Hour)).

(** The state at program start: Go's zero values. *)
Definition start : World :=
  {| serverResponseW := {| Cooldown := 0; LastAccess := time.zero; Var := [] |};
     playTimeLeaderboardW := {| Cooldown := 0; LastAccess := time.zero; Var := [] |};
     clock_reads := 0;
     trace := [] |}.

(** Running a handler: the state it leaves. *)
Definition run (h : M unit) (w : World) : World := snd (h w).

(** *** Descriptions of runs, used in the statements *)

(** The world a handler leaves: the caches [srv] and [top], [reads] more
    clock readings and the events [evs] added to those of [w]. *)
Definition after (w : World) (srv : CachedResponse (list ServerStatus))
    (top : CachedResponse (list db.RoleTime)) (reads : nat) (evs : list Event)
  : World :=
  {| serverResponseW := srv;
     playTimeLeaderboardW := top;
     clock_reads := clock_reads w + reads;
     trace := trace w ++ evs |}.

(** The record the loop of [StatusCb] appends for [server]. *)
Definition server_status (env : Env) (server : config.ServerInstance) : ServerStatus :=
  let '(err, dataType, data) :=
    byond.Topic (net env) (config.Address server) "?status" in
  if bool_decide (err ≠ None) || negb (dataType =? byond.TopicTypeString)
  then base_status server
  else online_status (base_status server) (url.ParseQuery (string_of_bytes data)).

(** The events of the loop of [StatusCb] started on the entry [c]: for
    the server at position [i], the topic query and then the store of
    the entry whose list has grown by the records of the servers up to
    [i]. *)
Definition StatusCb_loop_events (env : Env) (c : CachedResponse (list ServerStatus))
    (servers : list config.ServerInstance) : list Event :=
  mjoin (imap (fun i server =>
                 [ EvTopic (config.Address server) "?status";
                   EvServerResponseW
                     (set_Var c (Var c ++ take (S i) (map (server_status env) servers))) ])
              servers).

(** The events of the loop of [PlayerLeaderboardCb] over the rows [data],
    started on the entry [c]: one store per row. *)
Definition PlayerLeaderboardCb_loop_events (c : CachedResponse (list db.RoleTime))
    (data : list db.RoleTime) : list Event :=
  imap (fun i _ =>
          EvPlayTimeLeaderboardW
            (set_Var c (Var c ++ take (S i) (map copy_RoleTime data))))
       data.

Definition success (body : ResponseBody) : GenericHeader :=
  {| Status := ResponseSuccess; Reason := "success"; Body := body |}.

Definition bad_auth : GenericHeader :=
  {| Status := ResponseBadAuth; Reason := "bad auth"; Body := BodyInt 0 |}.

(** The event of [WriteJson] on the envelope [h]: none when the
    envelope cannot be encoded. *)
Definition WriteJson_events (h : GenericHeader) : list Event :=
  if encodable (Body h) then [EvWriteJson h] else [].

(** The successive states of [serverResponseW] that a trace goes through. *)
Definition serverResponseW_stores (tr : list Event)
  : list (CachedResponse (list ServerStatus)) :=
  omap (fun e => match e with EvServerResponseW c => Some c | _ => None end) tr.

(** The database lookups of a trace. *)
Definition lookups (tr : list Event) : list db.Query :=
  omap (fun e => match e with EvDb q => Some q | _ => None end) tr.

(** The topic queries of a trace: address and command. *)
Definition topics (tr : list Event) : list (string * string) :=
  omap (fun e => match e with
                 | EvTopic address data => Some (address, data)
                 | _ => None
                 end) tr.

Definition fail : GenericHeader :=
  {| Status := ResponseFail; Reason := "fail"; Body := BodyInt 0 |}.

(** The events a run adds to those of the state it started in. *)
Definition added (w w' : World) : list Event :=
  drop (length (trace w)) (trace w').

(** The envelopes written in a trace. *)
Definition written (tr : list Event) : list GenericHeader :=
  omap (fun e => match e with EvWriteJson h => Some h | _ => None end) tr.

End Handlers.
End api.

(** ** The status page script

    The functions of the script that compute text: the shuttle and game
    state names and the clock format.  Strings are kept as the bytes of
    the source file.  Numbers are kept exact: an integer is a [Z], and
    the quotients under [Math.floor] are rationals.  The script computes
    with double-precision numbers, and these definitions stand for it on
    32-bit integers only, which is what the API sends ([shuttle_time]
    and [gamestate] are [int32]): there the script's division, remainder
    and floor give these same results.  On larger numbers the two part:
    from 2^53 on a double no longer holds every integer and a quotient
    is rounded, and from 10^21 on the script writes a number with an
    exponent. *)

Module web.

Definition SHUTTLE_IDLE : string := "idle".
Definition SHUTTLE_IGNITING : string := "igniting".
Definition SHUTTLE_RECALL : string := "recalled".
Definition SHUTTLE_CALL : string := "called".
Definition SHUTTLE_DOCKED : string := "docked".
Definition SHUTTLE_STRANDED : string := "stranded".
Definition SHUTTLE_DISABLED : string := "disabled".
Definition SHUTTLE_ESCAPE : string := "escape".
Definition SHUTTLE_ENDGAME : string := "endgame: game over".
Definition SHUTTLE_RECHARGING : string := "recharging".
Definition SHUTTLE_PREARRIVAL : string := "landing".

Definition GetShuttleMode (mode : string) : string :=
  if String.eqb mode SHUTTLE_IGNITING then "IGN"
  else if String.eqb mode SHUTTLE_RECALL then "RCL"
  else if String.eqb mode SHUTTLE_CALL then "ETA"
  else if String.eqb mode SHUTTLE_DOCKED then "ETD"
  else if String.eqb mode SHUTTLE_ESCAPE then "ESC"
  else if String.eqb mode SHUTTLE_STRANDED then "ERR"
  else if String.eqb mode SHUTTLE_RECHARGING then "RCH"
  else if String.eqb mode SHUTTLE_PREARRIVAL then "LDN"
  else if String.eqb mode SHUTTLE_DISABLED then "DIS"
  else if String.eqb mode "endgame: game over" then "END"
  else "".

Definition GAME_STATE_STARTUP : Z := 0.
Definition GAME_STATE_PREGAME : Z := 1.
Definition GAME_STATE_SETTING_UP : Z := 2.
Definition GAME_STATE_PLAYING : Z := 3.
Definition GAME_STATE_FINISHED : Z := 4.

Definition GetGameState (state : Z) : string :=
  if state =? GAME_STATE_STARTUP then "Yükleniyor"
  else if state =? GAME_STATE_PREGAME then "Lobi"
  else if state =? GAME_STATE_SETTING_UP then "Başlıyor"
  else if state =? GAME_STATE_PLAYING then "Devam ediyor"
  else if state =? GAME_STATE_FINISHED then "Bitti"
  else "".

(** [n + ''] for an integer: its decimal digits, with a minus sign when
    it is negative (the script's text for every integer of magnitude
    below 10^21 that a double holds). *)
Definition number_to_string (n : Z) : string :=
  DecimalString.NilZero.string_of_int (Z.to_int n).

(** [new Array(k).join(z)]: [k] empty slots joined with [z]. *)
Definition Array_join (k : nat) (z : string) : string :=
  String.concat z (repeat "" k).

(** [pad(n, width, z)]; an argument that is left out is [None]. *)
Definition pad (n : Z) (width : nat) (z : option string) : string :=
  let z := match z with
           | Some (String c rest) => String c rest
           | _ => "0"
           end in
  let n := number_to_string n in
  if (width <=? String.length n)%nat then n
  else Array_join (width - String.length n + 1) z +:+ n.

(** [a / b] on two integers. *)
Definition divide (a b : Z) : QArith_base.Q :=
  QArith_base.Qdiv (QArith_base.inject_Z a) (QArith_base.inject_Z b).

(** The integer part of a number, towards zero. *)
Definition truncate (q : QArith_base.Q) : Z :=
  if QArith_base.Qle_bool (QArith_base.inject_Z 0) q
  then Qround.Qfloor q else Qround.Qceiling q.

(** [a % b] for an integer [b]: the remainder has the sign of [a]. *)
Definition remainder (a : QArith_base.Q) (b : Z) : QArith_base.Q :=
  QArith_base.Qminus a
    (QArith_base.Qmult (QArith_base.inject_Z b)
       (QArith_base.inject_Z
          (truncate (QArith_base.Qdiv a (QArith_base.inject_Z b))))).

Definition Math_floor (q : QArith_base.Q) : Z := Qround.Qfloor q.

(** [secondsToTime(seconds)], for a 32-bit integer. *)
Definition secondsToTime (seconds : Z) : string :=
  let output := "" in
  let output :=
    if seconds >=? 86400
    then output +:+ number_to_string (Math_floor (divide seconds 86400)) +:+ ":"
    else output in
  let output :=
    if seconds >=? 3600
    then output +:+ pad (Z.rem (Math_floor (divide seconds 3600)) 24) 2 None +:+ ":"
    else output in
  output +:+ (pad (Math_floor (remainder (divide seconds 60) 60)) 2 None
              +:+ ":"
              +:+ pad (Z.rem (Math_floor (QArith_base.inject_Z seconds)) 60) 2 None).

Definition GetShuttleTime (time_left : Z) (mode : string) : string :=
  if String.eqb mode SHUTTLE_STRANDED || String.eqb mode SHUTTLE_DISABLED
  then "--:--"
  else secondsToTime time_left.

End web.

(** ** Concrete inputs used in the examples below *)

Module examples.

(** [strings.Repeat("a", n)] *)
Definition repeat_a (n : nat) : string := string_of_list_ascii (repeat "a"%char n).

(** A command of 122 bytes. *)
Definition long_command : string := repeat_a 122.

(** The answer ["abc"] of a remote server: packet type [0x0083], a body
    of four bytes, the first of which is the string tag [0x06]. *)
Definition abc_response : list byte :=
  byond.response_frame 0x83 [x06; x61; x62; x63].

(** The same answer with its header arriving in two deliveries. *)
Definition abc_response_split : byond.Stream :=
  [take 2 abc_response; drop 2 abc_response].


(** A network on which every dial succeeds and the remote end answers
    with the deliveries [s]. *)
Definition answering (s : byond.Stream) : byond.Net := fun _ =>
  {| byond.dial_conn := Some {| byond.respond := fun _ => s |};
     byond.dial_err := None |}.

(** A network on which nothing listens: every dial fails. *)
Definition refusing : byond.Net := fun _ =>
  {| byond.dial_conn := None;
     byond.dial_err := Some (byond.DialError "connection refused") |}.

(** A stand-in for [float32] in the examples: a value is kept as the
    text it was parsed from, zero is the empty text, and the values that
    are not finite are the texts [inf], [+inf], [-inf] and [nan], which
    [ParseFloat] reads as the infinities and NaN. *)
Definition text_float32 : api.Float32 :=
  {| api.float32 := string; api.f32_zero := ""; api.ParseFloat32 := fun s => s;
     api.f32_finite := fun s =>
       negb (String.eqb s "inf" || String.eqb s "+inf" || String.eqb s "-inf"
             || String.eqb s "nan") |}.

#[local] Existing Instance text_float32.

Definition server_A : config.ServerInstance :=
  {| config.Name := "A";
     config.Address := "127.0.0.1:9999";
     config.ConnectionAddress := "byond://a.example:9999";
     config.ErrorMessage := "Server is down" |}.

Definition the_config : config.Config :=
  {| config.Secret := "s3cret"; config.Servers := [server_A] |}.

Definition server_B : config.ServerInstance :=
  {| config.Name := "B";
     config.Address := "127.0.0.1:7777";
     config.ConnectionAddress := "byond://b.example:7777";
     config.ErrorMessage := "Server B is down" |}.

Definition server_C : config.ServerInstance :=
  {| config.Name := "C";
     config.Address := "127.0.0.1:5555";
     config.ConnectionAddress := "byond://c.example:5555";
     config.ErrorMessage := "Server C is down" |}.

(** Three servers: A, B and C, in this order. *)
Definition config_ABC : config.Config :=
  {| config.Secret := "s3cret"; config.Servers := [server_A; server_B; server_C] |}.

Definition no_ban : db.Ban :=
  {| db.ID := None; db.Date := None; db.RoundID := None; db.Role := None;
     db.ExpirationDate := None; db.Reason := None; db.BannedKey := None;
     db.AdminKey := None; db.Edits := None; db.UnbanDate := None;
     db.UnbanKey := None |}.

(** A database with two rows of play time for every job and no bans. *)
Definition the_database : db.Database :=
  {| db.GetTopMinutes := fun _ =>
       [ {| db.ByondKey := Some "alice"; db.Minutes := Some 120 |};
         {| db.ByondKey := Some "bob"; db.Minutes := Some 45 |} ];
     db.GetBanByID := fun _ => (no_ban, false);
     db.GetBan := fun _ => ([], false) |}.

(** A clock that starts ten seconds into the Unix era and advances by a
    nanosecond per reading. *)
Definition the_clock (k : nat) : Z := time.unixEpoch + 10 * time.Second + Z.of_nat k.

(** The surroundings with the network [network]. *)
Definition env_with (network : byond.Net) : api.Env :=
  {| api.GetConfig := the_config;
     api.net := network;
     api.database := the_database;
     api.clock := the_clock |}.

(** Nothing listens on the address of server A. *)
Definition env_down : api.Env := env_with refusing.

(** A remote server that answers the status query with [payload]. *)
Definition status_answer (payload : string) : byond.Stream :=
  [byond.response_frame 0x83 (x06 :: list_byte_of_string payload)].

Definition request (token query : string) : api.Request :=
  {| api.Header_token := token; api.RawQuery := query |}.

(** The state after [InitV1], before the first request. *)
Definition initial : api.World :=
  {| api.serverResponseW := api.Init (api.serverResponseW api.start) (5 * time.Second);
     api.playTimeLeaderboardW :=
       api.Init (api.playTimeLeaderboardW api.start) (1 * time.Hour);
     api.clock_reads := 0;
     api.trace := [] |}.

(** A record from an earlier, complete refresh. *)
Definition old_record : api.ServerStatus :=
  api.online_status (api.base_status server_A)
    (url.ParseQuery "round_id=5&players=10&map_name=Box").

(** A state in which the status cache holds the complete result of a
    refresh made at the Unix epoch, more than five seconds ago. *)
Definition warm : api.World :=
  {| api.serverResponseW :=
       {| api.Cooldown := 5 * time.Second; api.LastAccess := time.unixEpoch;
          api.Var := [old_record] |};
     api.playTimeLeaderboardW :=
       api.Init (api.playTimeLeaderboardW api.start) (1 * time.Hour);
     api.clock_reads := 0;
     api.trace := [] |}.

(** The state a second request finds when it arrives while the first is
    in its refresh and the cache entry is [c]: the first request has
    read the clock twice. *)
Definition arriving_at (c : api.CachedResponse (list api.ServerStatus)) : api.World :=
  {| api.serverResponseW := c;
     api.playTimeLeaderboardW := api.playTimeLeaderboardW warm;
     api.clock_reads := 2;
     api.trace := [] |}.

(** The state after a status request and a leaderboard request have
    been served from [warm]: both caches are fresh. *)
Definition settled : api.World :=
  api.run (api.PlayerLeaderboardCb env_down (request "" ""))
    (api.run (api.StatusCb env_down (request "" "")) warm).

(** A server A that answers the status query with [payload]. *)
Definition env_answering (payload : string) : api.Env :=
  env_with (answering (status_answer payload)).

(** A network on which nothing listens on the address of A, the server
    at the address of B answers the status query with a string, and the
    server at the address of C answers it with a number. *)
Definition mixed : byond.Net := fun address =>
  if String.eqb address (config.Address server_B)
  then answering (status_answer "round_id=7&players=3&map_name=Meta") address
  else if String.eqb address (config.Address server_C)
  then answering [byond.response_frame 0x83 [x2a; x00; x00; x80; x3f]] address
  else refusing address.

Definition env_ABC : api.Env :=
  {| api.GetConfig := config_ABC;
     api.net := mixed;
     api.database := the_database;
     api.clock := the_clock |}.

(** Two requests refresh at once, with [n] servers configured: both
    pass the staleness check before either sets the last access, both
    empty the list, and then they query the servers in turn. *)
Definition both_refresh (n : nat) : list bool :=
  [ true; false ]                      (* both find the entry stale *)
  ++ [ true; true ]                    (* the first sets the time stamp, empties the list *)
  ++ [ false; false ]                  (* so does the second *)
  ++ concat (repeat [true; false] n)   (* server by server, each appends its record *)
  ++ [ true; true; false; false ].     (* each leaves its loop and writes the list *)

End examples.

(** Unfolding the state-passing operations of the handlers. *)
Ltac run_m :=
  unfold api.run, mbind, api.M_bind, mret, api.M_ret,
    api.load_serverResponseW, api.store_serverResponseW,
    api.load_playTimeLeaderboardW, api.store_playTimeLeaderboardW,
    api.time_Now, api.emit, api.WriteJson; cbn.

(** * Properties *)

(** ** Bytes and runes *)

Lemma Z_of_byte_of_Z (z : Z) : 0 <= z < 256 -> Z_of_byte (byte_of_Z z) = z.
Proof.
  intros Hz. unfold Z_of_byte, byte_of_Z.
  rewrite Z.mod_small by lia.
  destruct (Byte.of_N (Z.to_N z)) as [b|] eqn:E.
  - apply Byte.to_of_N in E. rewrite E. lia.
  - apply Byte.of_N_None_iff in E. lia.
Qed.

Lemma Z_of_byte_range (b : byte) : 0 <= Z_of_byte b < 256.
Proof.
  unfold Z_of_byte. pose proof (Byte.to_N_bounded b). lia.
Qed.

Lemma byte_of_Z_of_byte (b : byte) : byte_of_Z (Z_of_byte b) = b.
Proof.
  unfold byte_of_Z. rewrite Z.mod_small by apply Z_of_byte_range.
  unfold Z_of_byte. rewrite N2Z.id, Byte.of_to_N. reflexivity.
Qed.

Lemma length_list_byte_of_string (s : string) :
  length (list_byte_of_string s) = String.length s.
Proof.
  induction s as [|c s IH]; simpl; [reflexivity|].
  unfold list_byte_of_string in *. simpl. rewrite length_map in *. lia.
Qed.

Lemma encoderune_ascii (r : Z) : 0 <= r <= 127 -> encoderune r = [byte_of_Z r].
Proof.
  intros Hr. unfold encoderune, maxRune, surrogateMin, surrogateMax.
  destruct (Z.ltb_spec r 0); [lia|].
  destruct (Z.ltb_spec 0x10FFFF r); [lia|].
  destruct (Z.leb_spec 0xD800 r); [lia|].
  destruct (Z.leb_spec r 0x7F); [reflexivity|lia].
Qed.

Lemma encoderune_two_bytes (r : Z) :
  128 <= r <= 0x7FF -> length (encoderune r) = 2%nat.
Proof.
  intros Hr. unfold encoderune, maxRune, surrogateMin, surrogateMax.
  destruct (Z.ltb_spec r 0); [lia|].
  destruct (Z.ltb_spec 0x10FFFF r); [lia|].
  destruct (Z.leb_spec 0xD800 r); [lia|].
  destruct (Z.leb_spec r 0x7F); [lia|].
  destruct (Z.leb_spec r 0x7FF); [reflexivity|lia].
Qed.

Lemma forallb2_eqb_refl (l : list byte) : forallb2 Byte.eqb l l = true.
Proof.
  induction l as [|b l IH]; simpl; [reflexivity|].
  rewrite IH, andb_true_r. apply Byte.byte_dec_lb. reflexivity.
Qed.

(** ** The request frame *)

Lemma reference_parse_spec_frame (payload : list byte) :
  (length payload <= 249)%nat ->
  byond.reference_parse (byond.spec_request_frame payload) = Some payload.
Proof.
  intros Hlen. unfold byond.reference_parse, byond.spec_request_frame.
  cbn [app take drop replicate forallb2 byond.BigEndian_Uint16].
  rewrite Z_of_byte_of_Z by lia.
  change (Z_of_byte x00) with 0. rewrite Z.shiftl_0_l, Z.lor_0_r.
  change (Byte.eqb x00 x00) with true. change (Byte.eqb x83 x83) with true.
  cbn [andb]. rewrite take_0, !drop_0. cbn [forallb2 andb].
  rewrite length_app. cbn [length].
  destruct (Z.eqb_spec (Z.of_nat (length payload + 1)) (Z.of_nat (length payload) + 6 - 5));
    [|lia].
  replace (length payload + 1 - 1)%nat with (length payload) by lia.
  rewrite drop_app_length. cbn [forallb2 andb].
  change (Byte.eqb x00 x00) with true. cbn [andb].
  replace (Z.to_nat (Z.of_nat (length payload) + 6 - 6)) with (length payload) by lia.
  rewrite take_app_length. reflexivity.
Qed.

(** For every command of at most 121 bytes the packet [Topic] builds is,
    byte for byte, the frame of the specification
    [[0x00 0x83][0x00][len+6][0x00 x 5][payload][0x00]], and the reference
    parser recovers the command from it. *)
Lemma packetData_short_command (data : string) :
  (String.length data <= 121)%nat ->
  byond.packetData data = byond.spec_request_frame (list_byte_of_string data)
  /\ byond.reference_parse (byond.packetData data) = Some (list_byte_of_string data).
Proof.
  intros Hlen.
  assert (Hframe : byond.packetData data
                   = byond.spec_request_frame (list_byte_of_string data)).
  { unfold byond.packetData, byond.spec_request_frame.
    rewrite encoderune_ascii by lia.
    rewrite length_list_byte_of_string. reflexivity. }
  split; [exact Hframe|].
  rewrite Hframe. apply reference_parse_spec_frame.
  rewrite length_list_byte_of_string. lia.
Qed.

(** The one command the handlers send. *)
Lemma packetData_status :
  byond.packetData "?status"
    = byond.spec_request_frame (list_byte_of_string "?status")
  /\ byond.reference_parse (byond.packetData "?status")
     = Some (list_byte_of_string "?status").
Proof.
  apply (packetData_short_command "?status"). simpl. lia.
Qed.

(** Past 121 bytes (and up to 2041) the length takes two bytes and the
    packet is one byte longer than the frame of the specification. *)
Lemma packetData_long_command_length (data : string) :
  (122 <= String.length data <= 2041)%nat ->
  length (byond.packetData data)
  = S (length (byond.spec_request_frame (list_byte_of_string data))).
Proof.
  intros Hlen. unfold byond.packetData, byond.spec_request_frame.
  rewrite !length_app, encoderune_two_bytes by lia.
  reflexivity.
Qed.

(** C3 (the code at the failing input).  For a command of 122 bytes the
    length 128 is written with [string(128)], the two bytes [0xC2 0x80]
    of the UTF-8 encoding of U+0080, where the frame of the
    specification has the single byte [0x80]: the packet is one byte
    longer than the frame, the 16-bit length a receiver reads at offset
    2 is 194 instead of 128, and the reference parser does not recover
    the command.  A command of 121 bytes, one byte shorter, is still
    framed as specified. *)
Theorem Topic_packet_122_bytes :
  String.length examples.long_command = 122%nat
  /\ take 5 (byond.packetData examples.long_command) = [x00; x83; x00; xc2; x80]
  /\ take 4 (byond.spec_request_frame (list_byte_of_string examples.long_command))
     = [x00; x83; x00; x80]
  /\ length (byond.packetData examples.long_command)
     = S (length (byond.spec_request_frame
                    (list_byte_of_string examples.long_command)))
  /\ byond.BigEndian_Uint16 (drop 2 (byond.packetData examples.long_command)) = 194
  /\ byond.BigEndian_Uint16
       (drop 2 (byond.spec_request_frame
                  (list_byte_of_string examples.long_command))) = 128
  /\ byond.packetData examples.long_command
     <> byond.spec_request_frame (list_byte_of_string examples.long_command)
  /\ byond.reference_parse (byond.packetData examples.long_command)
     <> Some (list_byte_of_string examples.long_command)
  /\ byond.packetData (examples.repeat_a 121)
     = byond.spec_request_frame (list_byte_of_string (examples.repeat_a 121)).
Proof.
  repeat split; try (vm_compute; reflexivity).
  - intros E. apply (f_equal length) in E. vm_compute in E. discriminate E.
  - vm_compute. discriminate.
Qed.

(** ** Reading the response *)

Lemma conn_Read_length (n : nat) (s : byond.Stream) :
  (length (byond.conn_Read n s).1 <= n)%nat.
Proof.
  induction s as [|chunk s IH]; destruct n as [|n]; simpl; try lia.
  destruct chunk as [|b chunk]; [exact IH|].
  destruct (Nat.leb_spec (length (b :: chunk)) (S n)) as [Hle|Hgt]; simpl.
  - simpl in Hle. lia.
  - rewrite length_take. lia.
Qed.

Lemma read_into_fresh_length (n : nat) (s : byond.Stream) :
  length (byond.read_into_fresh n s).1 = n.
Proof.
  unfold byond.read_into_fresh.
  pose proof (conn_Read_length n s) as Hle.
  destruct (byond.conn_Read n s) as [got rest]. simpl in *.
  rewrite length_app. unfold make_bytes. rewrite length_replicate. lia.
Qed.

(** A delivery that starts with the [n] bytes wanted: they are read, and
    what follows them stays in the stream. *)
Lemma read_into_fresh_prefix (want rest : list byte) (more : byond.Stream) :
  want <> [] ->
  byond.read_into_fresh (length want) ((want ++ rest) :: more)
  = (want, match rest with [] => more | _ => rest :: more end).
Proof.
  intros Hne. unfold byond.read_into_fresh.
  destruct want as [|b want]; [congruence|].
  cbn [byond.conn_Read length app].
  destruct rest as [|r rest].
  - rewrite app_nil_r.
    destruct (Nat.leb_spec (S (length want)) (S (length want))); [|lia].
    rewrite Nat.sub_diag. cbn. rewrite app_nil_r. reflexivity.
  - change (S (length (want ++ r :: rest))) with (length ((b :: want) ++ r :: rest)).
    destruct (Nat.leb_spec (length ((b :: want) ++ r :: rest)) (S (length want)))
      as [Hle|Hgt].
    + rewrite length_app in Hle. simpl in Hle. lia.
    + change (S (length want)) with (length (b :: want)).
      change (b :: want ++ r :: rest) with ((b :: want) ++ r :: rest).
      rewrite take_app_length, drop_app_length, Nat.sub_diag.
      cbn. rewrite app_nil_r. reflexivity.
Qed.

Lemma Z_of_byte_of_Z_mod (z : Z) : Z_of_byte (byte_of_Z z) = z mod 256.
Proof.
  rewrite <- (Z_of_byte_of_Z (z mod 256)) by (apply Z.mod_pos_bound; lia).
  unfold byte_of_Z. rewrite Z.mod_mod by lia. reflexivity.
Qed.

Lemma BigEndian_Uint16_bytes (z : Z) (rest : list byte) :
  0 <= z < 65536 ->
  byond.BigEndian_Uint16 (byte_of_Z (Z.shiftr z 8) :: byte_of_Z z :: rest) = z.
Proof.
  intros Hz. unfold byond.BigEndian_Uint16.
  rewrite !Z_of_byte_of_Z_mod.
  rewrite Z.shiftr_div_pow2 by lia. change (2 ^ 8) with 256.
  rewrite (Z.mod_small (z / 256)).
  2:{ split; [apply Z.div_pos; lia | apply Z.div_lt_upper_bound; lia]. }
  apply Z.bits_inj'. intros i Hi.
  rewrite Z.lor_spec.
  destruct (Z.lt_ge_cases i 8) as [Hlo|Hhi].
  - rewrite Z.shiftl_spec_low by lia. rewrite orb_false_r.
    change 256 with (2 ^ 8). apply Z.mod_pow2_bits_low. lia.
  - rewrite Z.shiftl_spec by lia.
    change 256 with (2 ^ 8).
    rewrite Z.mod_pow2_bits_high by lia. simpl.
    rewrite Z.div_pow2_bits by lia. f_equal. lia.
Qed.







(** C2 (the code at the failing input).  The answer ["abc"] delivered in
    one piece is returned as a string; the same bytes with the header
    split over two deliveries are returned as null: the header read gets
    two bytes, the size is taken from the zeroes left in the buffer, and
    no body is read. *)
Theorem Topic_exchange_split_header :
  concat examples.abc_response_split = examples.abc_response
  /\ byond.Topic_exchange [examples.abc_response]
     = (None, byond.TopicTypeString, Some [x61; x62; x63])
  /\ byond.Topic_exchange examples.abc_response_split
     = (None, byond.TopicTypeNull, None).
Proof.
  repeat split.
Qed.

(** ** The response cache *)

Lemma Sub_in_range (t u : Z) :
  time.minDuration <= t - u <= time.maxDuration -> time.Sub t u = t - u.
Proof.
  intros Hr. unfold time.Sub.
  destruct (Z.ltb_spec time.maxDuration (t - u)); [lia|].
  destruct (Z.ltb_spec (t - u) time.minDuration); [lia|reflexivity].
Qed.

Lemma Sub_saturates (t u : Z) :
  time.maxDuration < t - u -> time.Sub t u = time.maxDuration.
Proof.
  intros Hr. unfold time.Sub.
  destruct (Z.ltb_spec time.maxDuration (t - u)); [reflexivity|lia].
Qed.

Lemma Sub_saturates_low (t u : Z) :
  t - u < time.minDuration -> time.Sub t u = time.minDuration.
Proof.
  intros Hr. unfold time.Sub.
  destruct (Z.ltb_spec time.maxDuration (t - u)).
  - unfold time.minDuration, time.maxDuration in *. lia.
  - destruct (Z.ltb_spec (t - u) time.minDuration); [reflexivity|lia].
Qed.

Lemma ShouldRefreshResponse_iff {T} (e : api.CachedResponse T) (now : Z) :
  api.Cooldown e <= time.maxDuration ->
  time.minDuration < api.Cooldown e \/ time.minDuration <= now - api.LastAccess e ->
  api.ShouldRefreshResponse now e = true <-> now - api.LastAccess e >= api.Cooldown e.
Proof.
  intros Hc Hd. unfold api.ShouldRefreshResponse, time.Since.
  rewrite Z.geb_le.
  destruct (Z.le_gt_cases (now - api.LastAccess e) time.maxDuration) as [Hle|Hgt].
  - destruct (Z.le_gt_cases time.minDuration (now - api.LastAccess e)) as [Hge|Hlt].
    + rewrite Sub_in_range by lia. lia.
    + rewrite Sub_saturates_low by lia. lia.
  - rewrite Sub_saturates by lia. lia.
Qed.

(** C4.  The staleness check is true exactly when now minus the last
    access is at least the cooldown, for every entry whose cooldown is a
    64-bit duration, but for the one case in which [time.Since]
    saturates from below against the smallest duration (the cooldown is
    -2^63 ns and the last access lies more than 2^63 ns after now).
    After [Init] the last access is the zero time and the entry is stale
    at any time of the Unix era; after a refresh at [now] it is not
    stale at [now] when the cooldown is positive, and at a later time it
    is stale exactly when the cooldown has elapsed. *)
Theorem ShouldRefreshResponse_lifecycle {T} (e : api.CachedResponse T)
    (cooldown now later : Z) :
  time.minDuration <= api.Cooldown e <= time.maxDuration ->
  time.minDuration < api.Cooldown e
  \/ time.minDuration <= now - api.LastAccess e ->
  time.minDuration <= cooldown <= time.maxDuration ->
  time.unixEpoch <= now <= later ->
  (api.ShouldRefreshResponse now e = true
     <-> now - api.LastAccess e >= api.Cooldown e)
  /\ api.LastAccess (api.Init e cooldown) = time.zero
  /\ api.ShouldRefreshResponse now (api.Init e cooldown) = true
  /\ (0 < cooldown ->
      api.ShouldRefreshResponse now
        (api.set_LastAccess (api.Init e cooldown) now) = false)
  /\ (api.ShouldRefreshResponse later
        (api.set_LastAccess (api.Init e cooldown) now) = true
      <-> later - now >= cooldown).
Proof.
  intros He Hd Hc Hnow.
  assert (Hepoch : time.maxDuration < time.unixEpoch) by (vm_compute; reflexivity).
  assert (Hrange : forall la, la <= later ->
            time.minDuration < cooldown \/ time.minDuration <= later - la).
  { intros la Hla. right. unfold time.minDuration. lia. }
  split; [|split; [|split; [|split]]].
  - apply ShouldRefreshResponse_iff; [lia | exact Hd].
  - reflexivity.
  - apply (ShouldRefreshResponse_iff (api.Init e cooldown) now); cbn.
    + lia.
    + right. unfold time.minDuration, time.zero, time.unixEpoch, time.Second in *. lia.
    + unfold time.maxDuration, time.zero in *. lia.
  - intros Hpos.
    destruct (api.ShouldRefreshResponse now
                (api.set_LastAccess (api.Init e cooldown) now)) eqn:E; [|reflexivity].
    apply (ShouldRefreshResponse_iff
             (api.set_LastAccess (api.Init e cooldown) now) now) in E; cbn in *.
    + lia.
    + lia.
    + right. unfold time.minDuration. lia.
  - apply (ShouldRefreshResponse_iff
             (api.set_LastAccess (api.Init e cooldown) now) later); cbn.
    + lia.
    + apply Hrange. lia.
Qed.

Lemma ShouldRefreshResponse_lifecycle_witness :
  let e := {| api.Cooldown := 5 * time.Second; api.LastAccess := time.zero;
              api.Var := tt |} in
  api.ShouldRefreshResponse time.unixEpoch e = true
  /\ api.ShouldRefreshResponse time.unixEpoch
       (api.set_LastAccess (api.Init e time.Hour) time.unixEpoch) = false
  /\ (api.ShouldRefreshResponse (time.unixEpoch + time.Hour)
        (api.set_LastAccess (api.Init e time.Hour) time.unixEpoch) = true
      <-> time.unixEpoch + time.Hour - time.unixEpoch >= time.Hour).
Proof.
  intros e.
  assert (H : time.minDuration <= api.Cooldown e <= time.maxDuration
              /\ (time.minDuration < api.Cooldown e
                  \/ time.minDuration <= time.unixEpoch - api.LastAccess e)
              /\ time.minDuration <= time.Hour <= time.maxDuration
              /\ time.unixEpoch <= time.unixEpoch <= time.unixEpoch + time.Hour).
  { split; [|split; [left|]]; repeat split; vm_compute; (discriminate || reflexivity). }
  destruct H as (H1 & H2 & H3 & H4).
  destruct (ShouldRefreshResponse_lifecycle e time.Hour time.unixEpoch
              (time.unixEpoch + time.Hour) H1 H2 H3 H4)
    as (_ & _ & _ & Hfresh & Hlater).
  split; [reflexivity|split].
  - apply Hfresh. reflexivity.
  - exact Hlater.
Defined.

(** ** Running the handlers *)

Section Runs.
Context `{F : api.Float32}.
Variable env : api.Env.

Lemma after_nothing (w : api.World) :
  api.after w (api.serverResponseW w) (api.playTimeLeaderboardW w) 0 [] = w.
Proof.
  destruct w. unfold api.after. cbn. rewrite Nat.add_0_r, app_nil_r. reflexivity.
Qed.

Lemma WriteHeaderResponse_success (body : api.ResponseBody) (w : api.World) :
  api.WriteHeaderResponse api.ResponseSuccess body w
  = (tt, api.after w (api.serverResponseW w) (api.playTimeLeaderboardW w) 0
           (api.WriteJson_events (api.success body))).
Proof.
  unfold api.WriteHeaderResponse, api.WriteHeaderResponseCustom, api.WriteJson,
    api.WriteJson_events, api.success.
  cbn. destruct (api.encodable body).
  - unfold api.after. rewrite Nat.add_0_r. reflexivity.
  - rewrite after_nothing. reflexivity.
Qed.

Lemma WriteHeaderResponse_bad_auth (body : api.ResponseBody) (w : api.World) :
  api.WriteHeaderResponse api.ResponseBadAuth body w
  = (tt, api.after w (api.serverResponseW w) (api.playTimeLeaderboardW w) 0
           [api.EvWriteJson api.bad_auth]).
Proof.
  unfold api.after. rewrite Nat.add_0_r. reflexivity.
Qed.

Lemma StatusCb_server_run (server : config.ServerInstance) (w : api.World) :
  api.StatusCb_server env server w
  = (tt,
     let c := api.set_Var (api.serverResponseW w)
                (api.Var (api.serverResponseW w) ++ [api.server_status env server]) in
     api.after w c (api.playTimeLeaderboardW w) 0
       [api.EvTopic (config.Address server) "?status"; api.EvServerResponseW c]).
Proof.
  unfold api.StatusCb_server, api.server_status, api.byond_Topic,
    api.append_serverResponseW, api.after.
  run_m.
  destruct (byond.Topic (api.net env) (config.Address server) "?status")
    as [[err dataType] data].
  destruct (bool_decide (err ≠ None) || negb (dataType =? byond.TopicTypeString));
    cbn; rewrite Nat.add_0_r, <- app_assoc; reflexivity.
Qed.

Lemma set_Var_set_Var {T} (c : api.CachedResponse T) (v v' : T) :
  api.set_Var (api.set_Var c v) v' = api.set_Var c v'.
Proof. reflexivity. Qed.

Lemma after_after (w : api.World) srv top n evs srv' top' n' evs' :
  api.after (api.after w srv top n evs) srv' top' n' evs'
  = api.after w srv' top' (n + n') (evs ++ evs').
Proof.
  unfold api.after. cbn. rewrite Nat.add_assoc, app_assoc. reflexivity.
Qed.

Lemma set_Var_same {T} (c : api.CachedResponse T) : api.set_Var c (api.Var c) = c.
Proof. destruct c. reflexivity. Qed.

Lemma StatusCb_loop_events_cons (c : api.CachedResponse (list api.ServerStatus))
    (server : config.ServerInstance) (servers : list config.ServerInstance) :
  api.StatusCb_loop_events env c (server :: servers)
  = let c' := api.set_Var c (api.Var c ++ [api.server_status env server]) in
    [api.EvTopic (config.Address server) "?status"; api.EvServerResponseW c']
    ++ api.StatusCb_loop_events env c' servers.
Proof.
  unfold api.StatusCb_loop_events. cbn [imap map mjoin list_join take app].
  cbn zeta. f_equal. f_equal. f_equal.
  apply imap_ext. intros i x _. cbn.
  rewrite <- app_assoc. reflexivity.
Qed.

Lemma for_range_StatusCb_server (servers : list config.ServerInstance) :
  forall w,
  api.for_range servers (api.StatusCb_server env) w
  = (tt,
     let c := api.serverResponseW w in
     api.after w
       (api.set_Var c (api.Var c ++ map (api.server_status env) servers))
       (api.playTimeLeaderboardW w) 0
       (api.StatusCb_loop_events env c servers)).
Proof.
  induction servers as [|server servers IH]; intros w.
  - cbn. rewrite app_nil_r, set_Var_same, after_nothing. reflexivity.
  - cbn [api.for_range]. unfold mbind, api.M_bind.
    rewrite StatusCb_server_run. cbn zeta. rewrite IH. cbn zeta.
    rewrite after_after, StatusCb_loop_events_cons. cbn zeta.
    cbn [api.serverResponseW api.playTimeLeaderboardW api.after].
    rewrite set_Var_set_Var. cbn [api.Var api.set_Var map].
    rewrite <- app_assoc. reflexivity.
Qed.

(** [StatusCb] on a stale cache: the complete run. *)
Lemma StatusCb_refresh_run (r : api.Request) (w : api.World) :
  api.ShouldRefreshResponse (api.clock env (api.clock_reads w))
    (api.serverResponseW w) = true ->
  api.run (api.StatusCb env r) w
  = let c1 := api.set_LastAccess (api.serverResponseW w)
                (api.clock env (S (api.clock_reads w))) in
    let c2 := api.set_Var c1 [] in
    let servers := config.Servers (api.GetConfig env) in
    let final := map (api.server_status env) servers in
    api.after w (api.set_Var c1 final) (api.playTimeLeaderboardW w) 2
      ([api.EvServerResponseW c1; api.EvServerResponseW c2]
       ++ api.StatusCb_loop_events env c2 servers
       ++ api.WriteJson_events (api.success (api.BodyServers final))).
Proof.
  intros Hstale. unfold api.StatusCb, api.run.
  unfold mbind, api.M_bind, api.load_serverResponseW, api.time_Now at 1.
  cbn [api.clock_reads api.serverResponseW]. rewrite Hstale.
  unfold api.time_Now, api.store_serverResponseW. cbn -[api.WriteHeaderResponse].
  rewrite for_range_StatusCb_server. cbn -[api.WriteHeaderResponse].
  rewrite WriteHeaderResponse_success.
  unfold api.after. cbn. f_equal; [lia|].
  rewrite <- !app_assoc. reflexivity.
Qed.

(** [StatusCb] on a cache that is not stale: the cached list is written
    and nothing else happens. *)
Lemma StatusCb_cached_run (r : api.Request) (w : api.World) :
  api.ShouldRefreshResponse (api.clock env (api.clock_reads w))
    (api.serverResponseW w) = false ->
  api.run (api.StatusCb env r) w
  = api.after w (api.serverResponseW w) (api.playTimeLeaderboardW w) 1
      (api.WriteJson_events
         (api.success (api.BodyServers (api.Var (api.serverResponseW w))))).
Proof.
  intros Hfresh. unfold api.StatusCb, api.run.
  unfold mbind, api.M_bind, api.load_serverResponseW, api.time_Now.
  cbn [api.clock_reads api.serverResponseW]. rewrite Hfresh.
  cbn -[api.WriteHeaderResponse].
  rewrite WriteHeaderResponse_success.
  unfold api.after. cbn. f_equal. lia.
Qed.

Lemma Confidential_run (r : api.Request) (w : api.World) :
  api.Confidential env r w
  = if String.eqb (api.Header_token r) (config.Secret (api.GetConfig env))
    then (true, w)
    else (false,
          api.after w (api.serverResponseW w) (api.playTimeLeaderboardW w) 0
            [api.EvWriteJson api.bad_auth]).
Proof.
  unfold api.Confidential.
  destruct (String.eqb (api.Header_token r) (config.Secret (api.GetConfig env)));
    cbn [negb]; [reflexivity|].
  unfold mbind, api.M_bind. rewrite WriteHeaderResponse_bad_auth. reflexivity.
Qed.

Lemma fold_left_copy (data acc : list db.RoleTime) :
  fold_left (fun playTimes v => playTimes ++ [api.copy_RoleTime v]) data acc
  = acc ++ map api.copy_RoleTime data.
Proof.
  revert acc. induction data as [|v data IH]; intros acc; cbn.
  - rewrite app_nil_r. reflexivity.
  - rewrite IH, <- app_assoc. reflexivity.
Qed.

Lemma job_nonempty (job : string) :
  (0 <? String.length job)%nat = negb (String.eqb job "").
Proof. destruct job; reflexivity. Qed.

Lemma PlayerLeaderboardCb_loop_events_cons
    (c : api.CachedResponse (list db.RoleTime)) (v : db.RoleTime)
    (data : list db.RoleTime) :
  api.PlayerLeaderboardCb_loop_events c (v :: data)
  = let c' := api.set_Var c (api.Var c ++ [api.copy_RoleTime v]) in
    api.EvPlayTimeLeaderboardW c' :: api.PlayerLeaderboardCb_loop_events c' data.
Proof.
  unfold api.PlayerLeaderboardCb_loop_events. cbn [imap map take app].
  cbn zeta. f_equal.
  apply imap_ext. intros i x _. cbn.
  rewrite <- app_assoc. reflexivity.
Qed.

Lemma append_playTimeLeaderboardW_run (v : db.RoleTime) (w : api.World) :
  api.append_playTimeLeaderboardW v w
  = (tt,
     let c := api.set_Var (api.playTimeLeaderboardW w)
                (api.Var (api.playTimeLeaderboardW w) ++ [v]) in
     api.after w (api.serverResponseW w) c 0 [api.EvPlayTimeLeaderboardW c]).
Proof.
  unfold api.append_playTimeLeaderboardW, api.after. run_m.
  rewrite Nat.add_0_r. reflexivity.
Qed.

Lemma for_range_append_playTimeLeaderboardW (data : list db.RoleTime) :
  forall w,
  api.for_range data (fun v => api.append_playTimeLeaderboardW (api.copy_RoleTime v)) w
  = (tt,
     let c := api.playTimeLeaderboardW w in
     api.after w (api.serverResponseW w)
       (api.set_Var c (api.Var c ++ map api.copy_RoleTime data)) 0
       (api.PlayerLeaderboardCb_loop_events c data)).
Proof.
  induction data as [|v data IH]; intros w.
  - cbn. rewrite app_nil_r, set_Var_same, after_nothing. reflexivity.
  - cbn [api.for_range]. unfold mbind, api.M_bind.
    rewrite append_playTimeLeaderboardW_run. cbn zeta. rewrite IH. cbn zeta.
    rewrite after_after, PlayerLeaderboardCb_loop_events_cons. cbn zeta.
    cbn [api.serverResponseW api.playTimeLeaderboardW api.after].
    rewrite set_Var_set_Var. cbn [api.Var api.set_Var map].
    rewrite <- app_assoc. reflexivity.
Qed.

(** [PlayerLeaderboardCb] with a job and the right token. *)
Lemma PlayerLeaderboardCb_job_run (r : api.Request) (w : api.World) :
  url.Get (api.Query r) "job" <> "" ->
  api.Header_token r = config.Secret (api.GetConfig env) ->
  api.run (api.PlayerLeaderboardCb env r) w
  = let job := url.Get (api.Query r) "job" in
    api.after w (api.serverResponseW w) (api.playTimeLeaderboardW w) 0
      [ api.EvDb (db.QGetTopMinutes job);
        api.EvWriteJson
          (api.success
             (api.BodyRoleTimes
                (map api.copy_RoleTime (db.GetTopMinutes (api.database env) job)))) ].
Proof.
  intros Hjob Htoken. unfold api.PlayerLeaderboardCb, api.run.
  rewrite job_nonempty.
  destruct (String.eqb_spec (url.Get (api.Query r) "job") "") as [E|_]; [congruence|].
  cbn [negb]. unfold mbind, api.M_bind. rewrite Confidential_run.
  rewrite Htoken, String.eqb_refl. cbn [negb].
  unfold api.db_GetTopMinutes. run_m.
  rewrite fold_left_copy. cbn.
  unfold api.after, api.success. cbn. rewrite Nat.add_0_r, <- app_assoc. reflexivity.
Qed.

(** [PlayerLeaderboardCb] with a job and a wrong token. *)
Lemma PlayerLeaderboardCb_denied_run (r : api.Request) (w : api.World) :
  url.Get (api.Query r) "job" <> "" ->
  api.Header_token r <> config.Secret (api.GetConfig env) ->
  api.run (api.PlayerLeaderboardCb env r) w
  = api.after w (api.serverResponseW w) (api.playTimeLeaderboardW w) 0
      [api.EvWriteJson api.bad_auth].
Proof.
  intros Hjob Htoken. unfold api.PlayerLeaderboardCb, api.run.
  rewrite job_nonempty.
  destruct (String.eqb_spec (url.Get (api.Query r) "job") "") as [E|_]; [congruence|].
  cbn [negb]. unfold mbind, api.M_bind. rewrite Confidential_run.
  destruct (String.eqb_spec (api.Header_token r) (config.Secret (api.GetConfig env)));
    [congruence|].
  reflexivity.
Qed.

(** [PlayerLeaderboardCb] without a job, on a cache that is not stale. *)
Lemma PlayerLeaderboardCb_cached_run (r : api.Request) (w : api.World) :
  url.Get (api.Query r) "job" = "" ->
  api.ShouldRefreshResponse (api.clock env (api.clock_reads w))
    (api.playTimeLeaderboardW w) = false ->
  api.run (api.PlayerLeaderboardCb env r) w
  = api.after w (api.serverResponseW w) (api.playTimeLeaderboardW w) 1
      [api.EvWriteJson
         (api.success (api.BodyRoleTimes (api.Var (api.playTimeLeaderboardW w))))].
Proof.
  intros Hjob Hfresh. unfold api.PlayerLeaderboardCb. rewrite Hjob. run_m.
  rewrite Hfresh. cbn. unfold api.after. f_equal. lia.
Qed.

(** [PlayerLeaderboardCb] without a job, on a stale cache. *)
Lemma PlayerLeaderboardCb_refresh_run (r : api.Request) (w : api.World) :
  url.Get (api.Query r) "job" = "" ->
  api.ShouldRefreshResponse (api.clock env (api.clock_reads w))
    (api.playTimeLeaderboardW w) = true ->
  api.run (api.PlayerLeaderboardCb env r) w
  = let c1 := api.set_LastAccess (api.playTimeLeaderboardW w)
                (api.clock env (S (api.clock_reads w))) in
    let c2 := api.set_Var c1 [] in
    let data := db.GetTopMinutes (api.database env) "Living" in
    let final := map api.copy_RoleTime data in
    api.after w (api.serverResponseW w) (api.set_Var c1 final) 2
      ([ api.EvPlayTimeLeaderboardW c1; api.EvPlayTimeLeaderboardW c2;
         api.EvDb (db.QGetTopMinutes "Living") ]
       ++ api.PlayerLeaderboardCb_loop_events c2 data
       ++ [api.EvWriteJson (api.success (api.BodyRoleTimes final))]).
Proof.
  intros Hjob Hstale. unfold api.PlayerLeaderboardCb. rewrite Hjob.
  unfold api.db_GetTopMinutes. run_m.
  rewrite Hstale. rewrite for_range_append_playTimeLeaderboardW. cbn.
  unfold api.after, api.success. cbn. f_equal; [lia|].
  rewrite <- !app_assoc. reflexivity.
Qed.

(** [BanCheckCb] with the right token and neither [id] nor [ckey]. *)
Lemma BanCheckCb_silent_run (r : api.Request) (w : api.World) :
  api.Header_token r = config.Secret (api.GetConfig env) ->
  url.Has (api.Query r) "id" = false ->
  url.Has (api.Query r) "ckey" = false ->
  api.run (api.BanCheckCb env r) w = w.
Proof.
  intros Htoken Hid Hckey. unfold api.BanCheckCb, api.run.
  unfold mbind, api.M_bind. rewrite Confidential_run.
  rewrite Htoken, String.eqb_refl. cbn [negb].
  rewrite Hid, Hckey. reflexivity.
Qed.

End Runs.

(** ** The refresh, step by step *)

Lemma serverResponseW_stores_loop `{F : api.Float32} (env : api.Env)
    (servers : list config.ServerInstance) :
  forall c,
  api.serverResponseW_stores (api.StatusCb_loop_events env c servers)
  = map (fun k => api.set_Var c
                    (api.Var c ++ take k (map (api.server_status env) servers)))
        (seq 1 (length servers)).
Proof.
  induction servers as [|server servers IH]; intros c; [reflexivity|].
  rewrite StatusCb_loop_events_cons. cbn zeta.
  cbn [app api.serverResponseW_stores omap list_omap].
  fold (api.serverResponseW_stores
          (api.StatusCb_loop_events env
             (api.set_Var c (api.Var c ++ [api.server_status env server])) servers)).
  rewrite IH. cbn [length seq map take].
  f_equal. rewrite <- (seq_shift (length servers) 1), map_map.
  apply map_ext. intros k. cbn. rewrite <- app_assoc. reflexivity.
Qed.

Lemma serverResponseW_stores_app `{F : api.Float32} (l k : list api.Event) :
  api.serverResponseW_stores (l ++ k)
  = api.serverResponseW_stores l ++ api.serverResponseW_stores k.
Proof. unfold api.serverResponseW_stores. apply omap_app. Qed.

Lemma lookups_app `{F : api.Float32} (l k : list api.Event) :
  api.lookups (l ++ k) = api.lookups l ++ api.lookups k.
Proof. unfold api.lookups. apply omap_app. Qed.

Lemma lookups_leaderboard_loop `{F : api.Float32}
    (data : list db.RoleTime) :
  forall c, api.lookups (api.PlayerLeaderboardCb_loop_events c data) = [].
Proof.
  induction data as [|v data IH]; intros c; [reflexivity|].
  rewrite PlayerLeaderboardCb_loop_events_cons. cbn zeta.
  cbn [api.lookups omap list_omap].
  apply IH.
Qed.

Lemma written_app `{F : api.Float32} (l k : list api.Event) :
  api.written (l ++ k) = api.written l ++ api.written k.
Proof. unfold api.written. apply omap_app. Qed.

Lemma written_leaderboard_loop `{F : api.Float32}
    (data : list db.RoleTime) :
  forall c, api.written (api.PlayerLeaderboardCb_loop_events c data) = [].
Proof.
  induction data as [|v data IH]; intros c; [reflexivity|].
  rewrite PlayerLeaderboardCb_loop_events_cons. cbn zeta.
  cbn [api.written omap list_omap].
  apply IH.
Qed.

Lemma written_WriteJson_events `{F : api.Float32} (h : api.GenericHeader) :
  api.written (api.WriteJson_events h)
  = if api.encodable (api.Body h) then [h] else [].
Proof.
  unfold api.WriteJson_events. destruct (api.encodable (api.Body h)); reflexivity.
Qed.

Lemma added_after `{F : api.Float32} (w : api.World) srv top n evs :
  api.added w (api.after w srv top n evs) = evs.
Proof. unfold api.added, api.after. cbn. apply drop_app_length. Qed.

(** C1 (as amended).  A request that finds the status cache stale stores
    the last access (the clock reading taken for it) first, then stores
    the empty list, and only then queries the servers, storing the list
    again after each answer with one more record; the cache entry
    therefore goes through the previous list with the new time stamp,
    the empty list, and every prefix of the new list in turn.  A request
    that finds the entry not stale changes nothing and is answered from
    the list the entry holds at that moment, which for an entry in the
    middle of a refresh is the previous list, the empty list or a prefix
    of the new one: the success envelope with that list is written, or
    nothing when the list cannot be encoded.  [PlayerLeaderboardCb]
    without a job does the same around its database lookup. *)
Theorem refresh_builds_in_place `{F : api.Float32}
    (env : api.Env) (r : api.Request) (w : api.World) :
  let now := api.clock env (S (api.clock_reads w)) in
  let servers := config.Servers (api.GetConfig env) in
  let final := map (api.server_status env) servers in
  let c1 := api.set_LastAccess (api.serverResponseW w) now in
  let rows := db.GetTopMinutes (api.database env) "Living" in
  let d1 := api.set_LastAccess (api.playTimeLeaderboardW w) now in
  let steps := c1 :: map (fun k => api.set_Var c1 (take k final))
                         (seq 0 (S (length servers))) in
  (* a request that finds the status cache stale *)
  (api.ShouldRefreshResponse (api.clock env (api.clock_reads w))
     (api.serverResponseW w) = true ->
   api.run (api.StatusCb env r) w
   = api.after w (api.set_Var c1 final) (api.playTimeLeaderboardW w) 2
       ([api.EvServerResponseW c1; api.EvServerResponseW (api.set_Var c1 [])]
        ++ api.StatusCb_loop_events env (api.set_Var c1 []) servers
        ++ api.WriteJson_events (api.success (api.BodyServers final)))
   /\ api.serverResponseW_stores (api.added w (api.run (api.StatusCb env r) w))
      = steps
   (* a request that arrives at one of the entries this refresh stores *)
   /\ (forall c r' w',
         In c steps ->
         api.serverResponseW w' = c ->
         api.ShouldRefreshResponse (api.clock env (api.clock_reads w')) c = false ->
         api.serverResponseW (api.run (api.StatusCb env r') w') = c
         /\ api.written (api.added w' (api.run (api.StatusCb env r') w'))
            = (if api.encodable (api.BodyServers (api.Var c))
               then [api.success (api.BodyServers (api.Var c))] else [])
         /\ (api.Var c = api.Var (api.serverResponseW w)
             \/ exists k, (k <= length servers)%nat /\ api.Var c = take k final)))
  (* a request that finds the status cache not stale *)
  /\ (api.ShouldRefreshResponse (api.clock env (api.clock_reads w))
        (api.serverResponseW w) = false ->
      api.run (api.StatusCb env r) w
      = api.after w (api.serverResponseW w) (api.playTimeLeaderboardW w) 1
          (api.WriteJson_events
             (api.success (api.BodyServers (api.Var (api.serverResponseW w))))))
  (* a request without a job that finds the leaderboard cache stale *)
  /\ (url.Get (api.Query r) "job" = "" ->
      api.ShouldRefreshResponse (api.clock env (api.clock_reads w))
        (api.playTimeLeaderboardW w) = true ->
      api.run (api.PlayerLeaderboardCb env r) w
      = api.after w (api.serverResponseW w)
          (api.set_Var d1 (map api.copy_RoleTime rows)) 2
          ([ api.EvPlayTimeLeaderboardW d1;
             api.EvPlayTimeLeaderboardW (api.set_Var d1 []);
             api.EvDb (db.QGetTopMinutes "Living") ]
           ++ api.PlayerLeaderboardCb_loop_events (api.set_Var d1 []) rows
           ++ [api.EvWriteJson
                 (api.success (api.BodyRoleTimes (map api.copy_RoleTime rows)))]))
  (* a request without a job that finds the leaderboard cache not stale *)
  /\ (url.Get (api.Query r) "job" = "" ->
      api.ShouldRefreshResponse (api.clock env (api.clock_reads w))
        (api.playTimeLeaderboardW w) = false ->
      api.run (api.PlayerLeaderboardCb env r) w
      = api.after w (api.serverResponseW w) (api.playTimeLeaderboardW w) 1
          [api.EvWriteJson
             (api.success
                (api.BodyRoleTimes (api.Var (api.playTimeLeaderboardW w))))]).
Proof.
  cbn zeta.
  split; [|split; [|split]].
  - intros Hs. split; [apply StatusCb_refresh_run; exact Hs|].
    split.
    { rewrite (StatusCb_refresh_run env r w Hs). cbn zeta.
      rewrite added_after.
      rewrite !serverResponseW_stores_app, serverResponseW_stores_loop.
      unfold api.WriteJson_events.
      destruct (api.encodable _);
        cbn [api.serverResponseW_stores omap list_omap app seq map take api.Body];
        rewrite app_nil_r; reflexivity. }
    intros c r' w' Hin Hc Hfresh. rewrite <- Hc in Hfresh.
    rewrite (StatusCb_cached_run env r' w' Hfresh), added_after.
    rewrite written_WriteJson_events, Hc.
    split; [reflexivity|]. split; [reflexivity|].
    destruct Hin as [<-|Hin]; [left; reflexivity|].
    right. apply in_map_iff in Hin as (k & <- & Hk).
    apply in_seq in Hk. exists k. split; [lia|reflexivity].
  - apply StatusCb_cached_run.
  - apply PlayerLeaderboardCb_refresh_run.
  - apply PlayerLeaderboardCb_cached_run.
Qed.

(** ** The status aggregator *)

Lemma server_status_Name `{F : api.Float32} (env : api.Env)
    (server : config.ServerInstance) :
  api.Name (api.server_status env server) = config.Name server.
Proof.
  unfold api.server_status.
  destruct (byond.Topic _ _ _) as [[err dataType] data].
  destruct (_ || _); reflexivity.
Qed.

(** *** One request on its own *)

Section Steps.
Context `{F : api.Float32}.
Variable env : api.Env.

Lemma StatusCb_steps_done (n : nat) (w : api.World) :
  api.StatusCb_steps env n api.PcDone w = (api.PcDone, w).
Proof.
  induction n as [|n IH]; [reflexivity|]. exact IH.
Qed.

Lemma StatusCb_steps_write (n : nat) (w : api.World) :
  api.StatusCb_steps env (S n) api.PcWrite w
  = (api.PcDone,
     (api.WriteHeaderResponse api.ResponseSuccess
        (api.BodyServers (api.Var (api.serverResponseW w))) w).2).
Proof.
  cbn [api.StatusCb_steps api.StatusCb_step].
  unfold mbind, api.M_bind, mret, api.M_ret, api.load_serverResponseW.
  destruct (api.WriteHeaderResponse _ _ w) as [[] w1]. cbn [snd].
  apply StatusCb_steps_done.
Qed.

Lemma StatusCb_steps_loop (rest : list config.ServerInstance) :
  forall n w,
  api.StatusCb_steps env (length rest + S n) (api.PcLoop rest) w
  = api.StatusCb_steps env n api.PcWrite
      (api.for_range rest (api.StatusCb_server env) w).2.
Proof.
  induction rest as [|server rest IH]; intros n w; [reflexivity|].
  cbn [length Nat.add api.StatusCb_steps api.StatusCb_step api.for_range].
  unfold mbind, api.M_bind, mret, api.M_ret.
  destruct (api.StatusCb_server env server w) as [[] w1].
  apply IH.
Qed.

Lemma StatusCb_steps_S (n : nat) (pc : api.StatusCb_pc) (w : api.World) :
  api.StatusCb_steps env (S n) pc w
  = api.StatusCb_steps env n (api.StatusCb_step env pc w).1 (api.StatusCb_step env pc w).2.
Proof.
  cbn [api.StatusCb_steps]. unfold mbind, api.M_bind.
  destruct (api.StatusCb_step env pc w). reflexivity.
Qed.

Lemma StatusCb_steps_alone (r : api.Request) (w : api.World) :
  api.StatusCb_steps env (length (config.Servers (api.GetConfig env)) + 5)
    api.PcCheck w
  = (api.PcDone, api.run (api.StatusCb env r) w).
Proof.
  replace (length (config.Servers (api.GetConfig env)) + 5)%nat
    with (S (S (S (length (config.Servers (api.GetConfig env)) + S 1)))) by lia.
  rewrite StatusCb_steps_S.
  unfold api.StatusCb, api.run.
  cbn [api.StatusCb_step].
  unfold mbind, api.M_bind, mret, api.M_ret, api.load_serverResponseW.
  destruct (api.time_Now env w) as [now w1] eqn:E1.
  destruct (api.ShouldRefreshResponse now (api.serverResponseW w)); cbn [fst snd].
  - rewrite StatusCb_steps_S. cbn [api.StatusCb_step].
    unfold mbind, api.M_bind, mret, api.M_ret, api.load_serverResponseW.
    destruct (api.time_Now env w1) as [t w2].
    destruct (api.store_serverResponseW _ w2) as [[] w3]. cbn [fst snd].
    rewrite StatusCb_steps_S. cbn [api.StatusCb_step].
    unfold mbind, api.M_bind, mret, api.M_ret, api.load_serverResponseW.
    destruct (api.store_serverResponseW _ w3) as [[] w4]. cbn [fst snd].
    rewrite StatusCb_steps_loop.
    destruct (api.for_range _ _ w4) as [[] w5]. cbn [snd].
    rewrite StatusCb_steps_write. reflexivity.
  - rewrite StatusCb_steps_write. reflexivity.
Qed.
End Steps.

(** C5 (as amended).  A request that finds the status cache stale and
    runs its statements with no statement of another request in between
    leaves in the cache exactly one record per configured server, in
    configuration order, whatever the servers answer; the record of a
    server whose query fails or is answered with another tag than string
    is the offline record with the configured error message. *)
Theorem StatusCb_one_record_per_server `{F : api.Float32}
    (env : api.Env) (r : api.Request) (w : api.World) :
  api.ShouldRefreshResponse (api.clock env (api.clock_reads w))
    (api.serverResponseW w) = true ->
  let servers := config.Servers (api.GetConfig env) in
  let alone := api.StatusCb_steps env (length servers + 5) api.PcCheck w in
  let result := api.Var (api.serverResponseW alone.2) in
  alone = (api.PcDone, api.run (api.StatusCb env r) w)
  /\ result = map (api.server_status env) servers
  /\ length result = length servers
  /\ map api.Name result = map config.Name servers
  /\ (forall i server, servers !! i = Some server ->
        result !! i = Some (api.server_status env server))
  /\ (forall server err dataType data,
        byond.Topic (api.net env) (config.Address server) "?status"
          = (err, dataType, data) ->
        err <> None \/ dataType <> byond.TopicTypeString ->
        api.server_status env server = api.base_status server
        /\ api.ServerStatus_ (api.server_status env server) = 0
        /\ api.ErrorMessage (api.server_status env server)
           = config.ErrorMessage server).
Proof.
  intros Hs servers alone result.
  assert (Halone : alone = (api.PcDone, api.run (api.StatusCb env r) w))
    by apply StatusCb_steps_alone.
  split; [exact Halone|].
  assert (Hresult : result = map (api.server_status env) servers).
  { unfold result. rewrite Halone. cbn [snd].
    rewrite (StatusCb_refresh_run env r w Hs). reflexivity. }
  rewrite Hresult. split; [reflexivity|].
  split; [apply length_map|].
  split.
  { rewrite map_map. apply map_ext. intros server. apply server_status_Name. }
  split.
  { intros i server Hi. rewrite list_lookup_fmap, Hi. reflexivity. }
  intros server err dataType data HTopic Hoff.
  assert (E : api.server_status env server = api.base_status server).
  { unfold api.server_status. rewrite HTopic.
    destruct Hoff as [Herr|Htag].
    - rewrite bool_decide_true by exact Herr. reflexivity.
    - destruct (Z.eqb_spec dataType byond.TopicTypeString); [congruence|].
      rewrite orb_true_r. reflexivity. }
  rewrite E. repeat split.
Qed.

(** ** Decoding the status payload *)


Lemma digit_value_range (c : ascii) :
  strconv.is_digit c = true -> 0 <= strconv.digit_value c <= 9.
Proof.
  unfold strconv.is_digit, strconv.digit_value. cbn zeta.
  intros H. apply andb_true_iff in H as [H1 H2].
  apply N.leb_le in H1, H2. lia.
Qed.

Lemma digits_from_bound (s : string) :
  forall acc v, 0 <= acc -> strconv.digits_from acc s = Some v ->
  0 <= v < (acc + 1) * 10 ^ Z.of_nat (String.length s).
Proof.
  induction s as [|c s IH]; intros acc v Hacc H; cbn [strconv.digits_from] in H.
  - injection H as <-. cbn. lia.
  - destruct (strconv.is_digit c) eqn:D; [|discriminate].
    pose proof (digit_value_range c D) as Hd.
    apply IH in H; [|lia].
    cbn [String.length]. rewrite Nat2Z.inj_succ, Z.pow_succ_r by lia.
    assert (0 < 10 ^ Z.of_nat (String.length s)) by (apply Z.pow_pos_nonneg; lia).
    nia.
Qed.

Lemma ParseUint_loop_nonneg (s : string) :
  forall n, 0 <= n -> 0 <= (strconv.ParseUint_loop n s).1.
Proof.
  induction s as [|c s IH]; intros n Hn; cbn [strconv.ParseUint_loop]; [exact Hn|].
  destruct (strconv.is_digit c) eqn:D; cbn [negb]; [|cbn; lia].
  pose proof (digit_value_range c D) as Hd.
  destruct (n >=? strconv.maxUint64 / 10 + 1); [cbn; unfold strconv.maxUint64; lia|].
  cbn zeta.
  destruct (strconv.maxUint64 <? n * 10 + strconv.digit_value c);
    [cbn; unfold strconv.maxUint64; lia|].
  apply IH. lia.
Qed.

Lemma ParseUint_nonneg (s : string) : 0 <= (strconv.ParseUint s).1.
Proof.
  unfold strconv.ParseUint. destruct s; [cbn; lia|].
  apply ParseUint_loop_nonneg. lia.
Qed.

(** What [ParseInt] returns: [0] with a syntax error, a bound of the
    64-bit range with a range error, or a number of that range. *)
Lemma ParseInt_cases (s : string) :
  strconv.ParseInt s = (0, Some strconv.ErrSyntax)
  \/ strconv.ParseInt s = (2 ^ 63 - 1, Some strconv.ErrRange)
  \/ strconv.ParseInt s = (- 2 ^ 63, Some strconv.ErrRange)
  \/ (exists n, strconv.ParseInt s = (n, None) /\ - 2 ^ 63 <= n <= 2 ^ 63 - 1).
Proof.
  unfold strconv.ParseInt. destruct s as [|c s]; [left; reflexivity|].
  pose proof (ParseUint_nonneg (strconv.unsigned (String c s))) as Hun.
  destruct (strconv.ParseUint (strconv.unsigned (String c s))) as [un err].
  cbn [fst] in Hun.
  assert (Hrest :
            (let cutoff := 2 ^ 63 in
             if negb (strconv.negative (String c s)) && (un >=? cutoff)
             then (cutoff - 1, Some strconv.ErrRange)
             else if strconv.negative (String c s) && (cutoff <? un)
                  then (- cutoff, Some strconv.ErrRange)
                  else (if strconv.negative (String c s) then - un else un, None))
            = (2 ^ 63 - 1, Some strconv.ErrRange)
            \/ (let cutoff := 2 ^ 63 in
                if negb (strconv.negative (String c s)) && (un >=? cutoff)
                then (cutoff - 1, Some strconv.ErrRange)
                else if strconv.negative (String c s) && (cutoff <? un)
                     then (- cutoff, Some strconv.ErrRange)
                     else (if strconv.negative (String c s) then - un else un, None))
               = (- 2 ^ 63, Some strconv.ErrRange)
            \/ exists n,
                (let cutoff := 2 ^ 63 in
                 if negb (strconv.negative (String c s)) && (un >=? cutoff)
                 then (cutoff - 1, Some strconv.ErrRange)
                 else if strconv.negative (String c s) && (cutoff <? un)
                      then (- cutoff, Some strconv.ErrRange)
                      else (if strconv.negative (String c s) then - un else un, None))
                = (n, None) /\ - 2 ^ 63 <= n <= 2 ^ 63 - 1).
  { cbn zeta. destruct (strconv.negative (String c s)); cbn [negb andb].
    - destruct (Z.ltb_spec (2 ^ 63) un); [right; left; reflexivity|].
      right. right. eexists. split; [reflexivity|lia].
    - destruct (Z.geb_spec un (2 ^ 63)); [left; reflexivity|].
      right. right. eexists. split; [reflexivity|lia]. }
  destruct err as [[|]|]; [left; reflexivity | right; exact Hrest | right; exact Hrest].
Qed.

(** What [Atoi] returns, likewise. *)
Lemma Atoi_cases (s : string) :
  strconv.Atoi s = (0, Some strconv.ErrSyntax)
  \/ strconv.Atoi s = (2 ^ 63 - 1, Some strconv.ErrRange)
  \/ strconv.Atoi s = (- 2 ^ 63, Some strconv.ErrRange)
  \/ (exists n, strconv.Atoi s = (n, None) /\ - 2 ^ 63 <= n <= 2 ^ 63 - 1).
Proof.
  unfold strconv.Atoi. cbn zeta.
  destruct (Nat.ltb_spec 0 (String.length s)) as [Hpos|_]; cbn [andb];
    [|apply ParseInt_cases].
  destruct (Nat.ltb_spec (String.length s) 19) as [Hshort|_]; [|apply ParseInt_cases].
  destruct (strconv.parse_digits (strconv.unsigned s)) as [n|] eqn:E;
    [|left; reflexivity].
  right. right. right.
  assert (Hbody : (String.length (strconv.unsigned s) <= 18)%nat).
  { destruct s as [|c s]; cbn in *; [lia|].
    destruct (Ascii.eqb c "-" || Ascii.eqb c "+"); cbn [String.length]; lia. }
  assert (Hn : 0 <= n < 10 ^ 18).
  { unfold strconv.parse_digits in E.
    assert (E' : strconv.digits_from 0 (strconv.unsigned s) = Some n)
      by (destruct (strconv.unsigned s); [discriminate|exact E]).
    apply digits_from_bound in E'; [|lia].
    assert (10 ^ Z.of_nat (String.length (strconv.unsigned s)) <= 10 ^ 18)
      by (apply Z.pow_le_mono_r; lia).
    lia. }
  eexists. split; [reflexivity|].
  destruct (strconv.negative s); lia.
Qed.

Lemma Atoi_syntax_error (s : string) :
  (strconv.Atoi s).2 = Some strconv.ErrSyntax -> (strconv.Atoi s).1 = 0.
Proof.
  destruct (Atoi_cases s) as [E|[E|[E|(n & E & _)]]]; rewrite E; cbn;
    (reflexivity || discriminate).
Qed.

Lemma Atoi_range_error (s : string) :
  (strconv.Atoi s).2 = Some strconv.ErrRange ->
  (strconv.Atoi s).1 = 2 ^ 63 - 1 \/ (strconv.Atoi s).1 = - 2 ^ 63.
Proof.
  destruct (Atoi_cases s) as [E|[E|[E|(n & E & _)]]]; rewrite E; cbn;
    intros H; (discriminate || (left; reflexivity) || (right; reflexivity)).
Qed.


Lemma to_int_syntax_error (v : string) :
  (strconv.Atoi v).2 = Some strconv.ErrSyntax -> api.to_int v = 0.
Proof.
  intros H. apply Atoi_syntax_error in H. unfold api.to_int.
  destruct (strconv.Atoi v) as [val err]. cbn in H. subst val. reflexivity.
Qed.

Lemma url_to_int_to_int (u : url.Values) (key : string) :
  api.url_to_int u key = api.to_int (url.Get u key).
Proof. reflexivity. Qed.

Lemma url_to_int_syntax_error (u : url.Values) (key : string) :
  (strconv.Atoi (url.Get u key)).2 = Some strconv.ErrSyntax ->
  api.url_to_int u key = 0.
Proof. rewrite url_to_int_to_int. apply to_int_syntax_error. Qed.

Lemma to_int_range_error (v : string) :
  (strconv.Atoi v).2 = Some strconv.ErrRange ->
  api.to_int v = -1 \/ api.to_int v = 0.
Proof.
  intros H. apply Atoi_range_error in H. unfold api.to_int.
  destruct (strconv.Atoi v) as [val err]. cbn in H.
  destruct H as [-> | ->]; [left|right]; reflexivity.
Qed.


(** ** The leaderboard and ban handlers *)

Lemma new_events `{F : api.Float32} (w : api.World) srv top n evs :
  drop (length (api.trace w)) (api.trace (api.after w srv top n evs)) = evs.
Proof. unfold api.after. cbn. apply drop_app_length. Qed.

(** C8 (as amended).  A leaderboard request with a job and the right
    token does one database lookup, for that job, writes its rows, and
    leaves both cache entries (value and last access) as they were.  A
    request without a job is answered with the value of the cache entry,
    whose cooldown [InitV1] sets to one hour, and does a database lookup
    (for "Living") exactly when the entry is stale. *)
Theorem PlayerLeaderboardCb_cache_policy `{F : api.Float32}
    (env : api.Env) (r_job r_plain : api.Request) (w : api.World) :
  url.Get (api.Query r_job) "job" <> "" ->
  api.Header_token r_job = config.Secret (api.GetConfig env) ->
  url.Get (api.Query r_plain) "job" = "" ->
  let job := url.Get (api.Query r_job) "job" in
  let plain := api.run (api.PlayerLeaderboardCb env r_plain) w in
  api.run (api.PlayerLeaderboardCb env r_job) w
  = api.after w (api.serverResponseW w) (api.playTimeLeaderboardW w) 0
      [ api.EvDb (db.QGetTopMinutes job);
        api.EvWriteJson
          (api.success
             (api.BodyRoleTimes
                (map api.copy_RoleTime (db.GetTopMinutes (api.database env) job)))) ]
  /\ api.Cooldown (api.playTimeLeaderboardW (api.run api.InitV1 w)) = 1 * time.Hour
  /\ api.lookups (drop (length (api.trace w)) (api.trace plain))
     = (if api.ShouldRefreshResponse (api.clock env (api.clock_reads w))
             (api.playTimeLeaderboardW w)
        then [db.QGetTopMinutes "Living"] else [])
  /\ api.written (drop (length (api.trace w)) (api.trace plain))
     = [api.success (api.BodyRoleTimes (api.Var (api.playTimeLeaderboardW plain)))]
  /\ api.serverResponseW plain = api.serverResponseW w.
Proof.
  intros Hjob Htoken Hplain job plain.
  split; [apply PlayerLeaderboardCb_job_run; assumption|].
  split; [reflexivity|].
  unfold plain.
  destruct (api.ShouldRefreshResponse (api.clock env (api.clock_reads w))
              (api.playTimeLeaderboardW w)) eqn:Hstale.
  - rewrite (PlayerLeaderboardCb_refresh_run env r_plain w Hplain Hstale). cbn zeta.
    rewrite new_events. cbn [api.playTimeLeaderboardW api.serverResponseW api.after].
    split; [|split; [|reflexivity]].
    + rewrite !lookups_app, lookups_leaderboard_loop. reflexivity.
    + rewrite !written_app, written_leaderboard_loop. reflexivity.
  - rewrite (PlayerLeaderboardCb_cached_run env r_plain w Hplain Hstale).
    rewrite new_events. repeat split.
Qed.

(** C9.  A leaderboard request with a job whose token is not the
    configured secret is answered with the bad-auth envelope and nothing
    else happens: no database lookup, no store to either cache.  A
    request without a job is served whatever its token: the run is the
    one of the same request with any other token, and it writes one
    envelope, the success with the rows the cache holds when the run
    ends, never the bad-auth envelope. *)
Theorem PlayerLeaderboardCb_token_check `{F : api.Float32}
    (env : api.Env) (r_job r_plain : api.Request) (token' : string)
    (w : api.World) :
  url.Get (api.Query r_job) "job" <> "" ->
  api.Header_token r_job <> config.Secret (api.GetConfig env) ->
  url.Get (api.Query r_plain) "job" = "" ->
  let denied := api.run (api.PlayerLeaderboardCb env r_job) w in
  let served := api.run (api.PlayerLeaderboardCb env r_plain) w in
  denied
  = api.after w (api.serverResponseW w) (api.playTimeLeaderboardW w) 0
      [api.EvWriteJson api.bad_auth]
  /\ api.lookups (drop (length (api.trace w)) (api.trace denied)) = []
  /\ api.serverResponseW denied = api.serverResponseW w
  /\ api.playTimeLeaderboardW denied = api.playTimeLeaderboardW w
  /\ api.run (api.PlayerLeaderboardCb env
                {| api.Header_token := token';
                   api.RawQuery := api.RawQuery r_plain |}) w
     = served
  /\ api.written (api.added w served)
     = [api.success (api.BodyRoleTimes (api.Var (api.playTimeLeaderboardW served)))]
  /\ api.Var (api.playTimeLeaderboardW served)
     = (if api.ShouldRefreshResponse (api.clock env (api.clock_reads w))
             (api.playTimeLeaderboardW w)
        then map api.copy_RoleTime (db.GetTopMinutes (api.database env) "Living")
        else api.Var (api.playTimeLeaderboardW w)).
Proof.
  intros Hjob Htoken Hplain denied served. unfold denied, served.
  rewrite (PlayerLeaderboardCb_denied_run env r_job w Hjob Htoken).
  rewrite new_events.
  split; [reflexivity|]. split; [reflexivity|].
  split; [reflexivity|]. split; [reflexivity|].
  set (r' := {| api.Header_token := token'; api.RawQuery := api.RawQuery r_plain |}).
  assert (Hplain' : url.Get (api.Query r') "job" = "") by exact Hplain.
  destruct (api.ShouldRefreshResponse (api.clock env (api.clock_reads w))
              (api.playTimeLeaderboardW w)) eqn:Hstale.
  - rewrite (PlayerLeaderboardCb_refresh_run env r' w Hplain' Hstale),
      (PlayerLeaderboardCb_refresh_run env r_plain w Hplain Hstale).
    cbn zeta. rewrite added_after.
    split; [reflexivity|]. split; [|reflexivity].
    rewrite !written_app, written_leaderboard_loop. reflexivity.
  - rewrite (PlayerLeaderboardCb_cached_run env r' w Hplain' Hstale),
      (PlayerLeaderboardCb_cached_run env r_plain w Hplain Hstale).
    rewrite added_after. repeat split.
Qed.

(** C10.  A ban request with the right token and neither an [id] nor a
    [ckey] parameter leaves the world as it found it: no database
    lookup, and no envelope written to the response. *)
Theorem BanCheckCb_without_id_or_ckey `{F : api.Float32}
    (env : api.Env) (r : api.Request) (w : api.World) :
  api.Header_token r = config.Secret (api.GetConfig env) ->
  url.Has (api.Query r) "id" = false ->
  url.Has (api.Query r) "ckey" = false ->
  let done := api.run (api.BanCheckCb env r) w in
  done = w
  /\ api.lookups (drop (length (api.trace w)) (api.trace done)) = []
  /\ api.written (drop (length (api.trace w)) (api.trace done)) = [].
Proof.
  intros Htoken Hid Hckey done. unfold done.
  rewrite (BanCheckCb_silent_run env r w Htoken Hid Hckey).
  rewrite drop_all. repeat split.
Qed.

(** * Further properties of the code *)

(** ** The topic client *)

Lemma BigEndian_Uint16_range (b : list byte) :
  0 <= byond.BigEndian_Uint16 b < 65536.
Proof.
  unfold byond.BigEndian_Uint16.
  destruct b as [|b0 [|b1 rest]]; try lia.
  pose proof (Z_of_byte_range b0) as H0.
  pose proof (Z_of_byte_range b1) as H1.
  rewrite Z.shiftl_mul_pow2 by lia. change (2 ^ 8) with 256.
  pose proof (Z.add_lor_land (Z_of_byte b1) (Z_of_byte b0 * 256)) as Hadd.
  assert (0 <= Z.land (Z_of_byte b1) (Z_of_byte b0 * 256))
    by (apply Z.land_nonneg; lia).
  assert (0 <= Z.lor (Z_of_byte b1) (Z_of_byte b0 * 256))
    by (apply Z.lor_nonneg; lia).
  lia.
Qed.

(** What [Topic] can return.  The tag is a byte; the payload is nil
    exactly when the tag is null; an error comes with the null tag and a
    nil payload; and a payload has between 2 and 65534 bytes. *)
Theorem Topic_result_shape (net : byond.Net) (address data : string) :
  let '(err, tag, payload) := byond.Topic net address data in
  0 <= tag <= 255
  /\ (payload = None <-> tag = byond.TopicTypeNull)
  /\ (err <> None -> tag = byond.TopicTypeNull /\ payload = None)
  /\ (forall p, payload = Some p ->
        err = None /\ 2 <= Z.of_nat (length p) <= 65534).
Proof.
  unfold byond.Topic.
  destruct (byond.dial_conn (net address)) as [conn|],
           (byond.dial_err (net address)) as [e|];
    try (cbn; repeat split; (lia || congruence || discriminate)).
  unfold byond.Topic_exchange.
  destruct (byond.read_into_fresh byond.BYOND_PACKET_HEADER_SIZE _)
    as [responseHeaderData s1].
  cbn [byond.DataSize].
  pose proof (BigEndian_Uint16_range (drop 2 responseHeaderData)) as Hsize.
  set (size := byond.BigEndian_Uint16 (drop 2 responseHeaderData)) in *.
  pose proof (read_into_fresh_length (Z.to_nat size) s1) as Hlen.
  destruct (byond.read_into_fresh (Z.to_nat size) s1) as [responseData s2].
  cbn [fst] in Hlen.
  destruct (Nat.ltb_spec 2 (length responseData)) as [Hlong|Hshort].
  2:{ cbn. repeat split; (lia || congruence || discriminate). }
  destruct responseData as [|b rest]; [cbn in Hlong; lia|].
  pose proof (Z_of_byte_range b) as Hb.
  destruct (Z.eqb_spec (Z_of_byte b) byond.TopicTypeNull) as [E|E].
  - rewrite E. cbn. repeat split; (lia || congruence || discriminate).
  - cbn [drop]. rewrite drop_0. cbn [length] in Hlen, Hlong.
    split; [lia|].
    split; [split; [discriminate | intros; congruence]|].
    split; [congruence|].
    intros p Hp. injection Hp as <-. split; [reflexivity|lia].
Qed.

Lemma conn_Read_silent (n : nat) (s : byond.Stream) :
  concat s = [] ->
  (byond.conn_Read n s).1 = [] /\ concat (byond.conn_Read n s).2 = [].
Proof.
  intros Hs. induction s as [|chunk s IH].
  - destruct n; split; reflexivity.
  - cbn in Hs. apply app_eq_nil in Hs as [-> Hs].
    destruct n as [|n]; [split; [reflexivity|exact Hs]|].
    cbn. apply IH. exact Hs.
Qed.

(** A remote end that accepts the connection and closes it without
    sending anything is not an error: [Topic] returns the null tag with
    a nil error and a nil payload. *)
Theorem Topic_silent_remote (net : byond.Net) (address data : string)
    (conn : byond.Conn) :
  byond.dial_conn (net address) = Some conn ->
  byond.dial_err (net address) = None ->
  concat (byond.respond conn (byond.packetData data)) = [] ->
  byond.Topic net address data = (None, byond.TopicTypeNull, None).
Proof.
  intros Hconn Herr Hsilent. unfold byond.Topic. rewrite Hconn, Herr.
  unfold byond.Topic_exchange, byond.read_into_fresh.
  destruct (conn_Read_silent byond.BYOND_PACKET_HEADER_SIZE _ Hsilent) as [Hgot Hrest].
  destruct (byond.conn_Read byond.BYOND_PACKET_HEADER_SIZE _) as [got s1].
  cbn [fst snd] in Hgot, Hrest. subst got. cbn.
  change (Z.lor 0 (Z.shiftl 0 8)) with 0. change (Z.to_nat 0) with 0%nat.
  destruct s1; reflexivity.
Qed.

(** When the header arrives whole and is followed, in the same delivery,
    by the bytes [part]: the body buffer holds the first [size] bytes of
    [part], filled up with zeroes to the declared size when [part] is
    shorter, and is classified as it stands. *)
Theorem Topic_exchange_zero_fill (ptype size : Z) (part : list byte)
    (more : byond.Stream) :
  0 <= size < 65536 ->
  part <> [] ->
  let n := Z.to_nat size in
  let responseData := take n part ++ make_bytes (n - length part) in
  length responseData = n
  /\ byond.Topic_exchange ((byond.response_header ptype size ++ part) :: more)
     = match responseData with
       | tag :: rest =>
           if (2 <? n)%nat && negb (Z_of_byte tag =? byond.TopicTypeNull)
           then (None, Z_of_byte tag, Some rest)
           else (None, byond.TopicTypeNull, None)
       | [] => (None, byond.TopicTypeNull, None)
       end.
Proof.
  intros Hsize Hpart n responseData.
  assert (Hlen : length responseData = n).
  { unfold responseData, make_bytes.
    rewrite length_app, length_take, length_replicate. lia. }
  split; [exact Hlen|].
  unfold byond.Topic_exchange.
  change byond.BYOND_PACKET_HEADER_SIZE
    with (length (byond.response_header ptype size)).
  rewrite read_into_fresh_prefix by discriminate.
  cbn [byond.DataSize]. unfold byond.response_header at 1. cbn [drop].
  rewrite BigEndian_Uint16_bytes by lia.
  fold n.
  assert (Hread : byond.read_into_fresh n
                    (match part with [] => more | _ => part :: more end)
                  = (responseData,
                     (byond.conn_Read n (part :: more)).2)).
  { destruct part as [|b part]; [congruence|].
    unfold byond.read_into_fresh, responseData.
    destruct n as [|n']; [reflexivity|].
    cbn [byond.conn_Read].
    destruct (Nat.leb_spec (length (b :: part)) (S n')) as [Hle|Hgt].
    - rewrite take_ge by exact Hle. reflexivity.
    - rewrite length_take.
      replace (S n' - length (b :: part))%nat with 0%nat by lia.
      replace (S n' - (S n' `min` length (b :: part)))%nat with 0%nat by lia.
      reflexivity. }
  rewrite Hread. rewrite Hlen.
  destruct responseData as [|tag rest]; [destruct (2 <? n)%nat; reflexivity|].
  destruct (2 <? n)%nat; cbn [andb]; [|reflexivity].
  destruct (Z.eqb_spec (Z_of_byte tag) byond.TopicTypeNull) as [E|E]; cbn [negb].
  - rewrite E. reflexivity.
  - reflexivity.
Qed.

Lemma encoderune_length (r : Z) :
  (1 <= length (encoderune r) <= 4)%nat
  /\ (length (encoderune r) = 1%nat <-> 0 <= r <= 127).
Proof.
  unfold encoderune, encode3, maxRune, surrogateMin, surrogateMax.
  destruct (Z.ltb_spec r 0); cbn [orb].
  { cbn. split; [lia|]. split; [discriminate|lia]. }
  destruct (Z.ltb_spec 0x10FFFF r); cbn [orb].
  { cbn. split; [lia|]. split; [discriminate|lia]. }
  destruct (Z.leb_spec 0xD800 r), (Z.leb_spec r 0xDFFF); cbn [andb];
    try (cbn; split; [lia|]; split; [discriminate|lia]).
  all: destruct (Z.leb_spec r 0x7F); [cbn; split; [lia|]; split; [lia|lia]|].
  all: destruct (Z.leb_spec r 0x7FF); [cbn; split; [lia|]; split; [discriminate|lia]|].
  all: destruct (Z.leb_spec r 0xFFFF); cbn; (split; [lia|]; split; [discriminate|lia]).
Qed.

(** The packet is ten bytes longer than the command exactly when the
    command has at most 121 bytes: from 122 bytes on the length is
    written in more than one byte, and the packet is up to thirteen
    bytes longer than the command. *)
Theorem packetData_length (data : string) :
  let len := String.length data in
  (len + 10 <= length (byond.packetData data) <= len + 13)%nat
  /\ (length (byond.packetData data) = (len + 10)%nat <-> (len <= 121)%nat).
Proof.
  cbn zeta. unfold byond.packetData.
  rewrite !length_app, length_list_byte_of_string. cbn [length].
  destruct (encoderune_length (Z.of_nat (String.length data) + 6)) as [Hrange Hone].
  split; [lia|]. split; intros H.
  - assert (length (encoderune (Z.of_nat (String.length data) + 6)) = 1%nat) by lia.
    apply Hone in H0. lia.
  - assert (length (encoderune (Z.of_nat (String.length data) + 6)) = 1%nat)
      by (apply Hone; lia).
    lia.
Qed.

(** ** The response cache, further *)

Lemma Sub_monotone (t t' u : Z) : t <= t' -> time.Sub t u <= time.Sub t' u.
Proof.
  intros Ht. unfold time.Sub, time.minDuration, time.maxDuration.
  destruct (Z.ltb_spec (2 ^ 63 - 1) (t - u)), (Z.ltb_spec (2 ^ 63 - 1) (t' - u));
    try lia;
    destruct (Z.ltb_spec (t - u) (- 2 ^ 63)), (Z.ltb_spec (t' - u) (- 2 ^ 63));
    lia.
Qed.

(** An entry that is stale stays stale as the clock advances, until its
    last access is set again: whatever the cooldown and the time stamps. *)
Theorem ShouldRefreshResponse_monotone {T} (e : api.CachedResponse T)
    (now later : Z) :
  now <= later ->
  api.ShouldRefreshResponse now e = true ->
  api.ShouldRefreshResponse later e = true.
Proof.
  intros Hle. unfold api.ShouldRefreshResponse, time.Since.
  rewrite !Z.geb_le. pose proof (Sub_monotone now later (api.LastAccess e) Hle). lia.
Qed.

(** With a cooldown of zero or less (as in an entry on which [Init] was
    never called) the entry is stale at every time from its last access
    on: each request refreshes. *)
Theorem ShouldRefreshResponse_no_cooldown {T} (e : api.CachedResponse T) (now : Z) :
  api.Cooldown e <= 0 ->
  api.LastAccess e <= now ->
  api.ShouldRefreshResponse now e = true.
Proof.
  intros Hc Hla. unfold api.ShouldRefreshResponse, time.Since.
  rewrite Z.geb_le.
  pose proof (Sub_monotone (api.LastAccess e) now (api.LastAccess e) Hla) as Hm.
  assert (Hz : time.Sub (api.LastAccess e) (api.LastAccess e) = 0).
  { rewrite Sub_in_range; unfold time.minDuration, time.maxDuration; lia. }
  lia.
Qed.

(** ** Reading integers from a query *)

Lemma int32_range (v : Z) : - 2 ^ 31 <= int32 v < 2 ^ 31.
Proof.
  unfold int32. pose proof (Z.mod_pos_bound (v + 2 ^ 31) (2 ^ 32)). lia.
Qed.

Lemma int32_congruent (v : Z) : (int32 v - v) mod 2 ^ 32 = 0.
Proof.
  unfold int32.
  rewrite (Z.mod_eq (v + 2 ^ 31) (2 ^ 32)) by lia.
  replace (v + 2 ^ 31 - 2 ^ 32 * ((v + 2 ^ 31) / 2 ^ 32) - 2 ^ 31 - v)
    with (- ((v + 2 ^ 31) / 2 ^ 32) * 2 ^ 32) by lia.
  apply Z.mod_mul. lia.
Qed.

Lemma Atoi_range (s : string) : - 2 ^ 63 <= (strconv.Atoi s).1 <= 2 ^ 63 - 1.
Proof.
  destruct (Atoi_cases s) as [E|[E|[E|(n & E & Hn)]]]; rewrite E; cbn; lia.
Qed.

Lemma url_to_int_range (u : url.Values) (key : string) :
  - 2 ^ 31 <= api.url_to_int u key < 2 ^ 31.
Proof.
  unfold api.url_to_int. destruct (strconv.Atoi (url.Get u key)) as [val err].
  apply int32_range.
Qed.

(** [url_to_int] is [to_int] of the first value of the key.  Its result
    is a 32-bit integer that differs from the number [Atoi] read by a
    multiple of 2^32: it is that number when the number fits in 32
    bits, and two numbers that are 2^32 apart give the same result. *)
Theorem url_to_int_wraps (u : url.Values) (key : string) :
  let n := (strconv.Atoi (url.Get u key)).1 in
  api.url_to_int u key = api.to_int (url.Get u key)
  /\ - 2 ^ 31 <= api.url_to_int u key < 2 ^ 31
  /\ (api.url_to_int u key - n) mod 2 ^ 32 = 0
  /\ (- 2 ^ 31 <= n < 2 ^ 31 -> api.url_to_int u key = n)
  /\ (forall s', (strconv.Atoi s').1 = n + 2 ^ 32 -> api.to_int s' = api.url_to_int u key).
Proof.
  cbn zeta. unfold api.url_to_int, api.to_int.
  destruct (strconv.Atoi (url.Get u key)) as [val err]. cbn [fst].
  split; [reflexivity|].
  split; [apply int32_range|].
  split; [apply int32_congruent|].
  split.
  - intros Hn. unfold int32. rewrite Z.mod_small by lia. lia.
  - intros s' Hs'. destruct (strconv.Atoi s') as [val' err']. cbn [fst] in Hs'.
    subst val'. unfold int32.
    replace (val + 2 ^ 32 + 2 ^ 31) with (val + 2 ^ 31 + 1 * 2 ^ 32) by lia.
    rewrite Z.mod_add by lia. reflexivity.
Qed.

(** ** The record of one server *)

(** Whatever the server answers, its record carries the configured
    name, error message and connection address (the error message also
    when the server is online); the status is 1 exactly when the query
    returned no error and the string tag, and 0 otherwise; and every
    integer field is a 32-bit integer. *)
Theorem server_status_fields `{F : api.Float32} (env : api.Env)
    (server : config.ServerInstance) :
  let status := api.server_status env server in
  let '(err, tag, _) :=
    byond.Topic (api.net env) (config.Address server) "?status" in
  api.Name status = config.Name server
  /\ api.ErrorMessage status = config.ErrorMessage server
  /\ api.ConnectionInfo status = config.ConnectionAddress server
  /\ (api.ServerStatus_ status = 1 <-> err = None /\ tag = byond.TopicTypeString)
  /\ (api.ServerStatus_ status = 0 <-> err <> None \/ tag <> byond.TopicTypeString)
  /\ Forall (fun field => - 2 ^ 31 <= field < 2 ^ 31)
       [ api.RoundID status; api.Players status; api.Admins status;
         api.RoundDuration status; api.GameState status; api.ShuttleTime status ].
Proof.
  cbn zeta. unfold api.server_status.
  destruct (byond.Topic (api.net env) (config.Address server) "?status")
    as [[err tag] data].
  assert (Hzero : - 2 ^ 31 <= 0 < 2 ^ 31) by lia.
  destruct err as [e|].
  - rewrite bool_decide_true by discriminate. cbn [orb].
    split; [reflexivity|]. split; [reflexivity|]. split; [reflexivity|].
    split; [split; [cbn; discriminate | intros [H _]; discriminate]|].
    split; [split; [intros _; left; discriminate | reflexivity]|].
    repeat (apply List.Forall_cons; [exact Hzero|]). apply List.Forall_nil.
  - rewrite bool_decide_false by (intros H; apply H; reflexivity). cbn [orb].
    destruct (Z.eqb_spec tag byond.TopicTypeString) as [E|E]; cbn [negb].
    + split; [reflexivity|]. split; [reflexivity|]. split; [reflexivity|].
      split; [split; [intros _; split; [reflexivity|exact E] | reflexivity]|].
      split; [split; [cbn; discriminate | intros [H|H]; congruence]|].
      repeat (apply List.Forall_cons; [apply url_to_int_range|]). apply List.Forall_nil.
    + split; [reflexivity|]. split; [reflexivity|]. split; [reflexivity|].
      split; [split; [cbn; discriminate | intros [_ H]; congruence]|].
      split; [split; [intros _; right; exact E | reflexivity]|].
      repeat (apply List.Forall_cons; [exact Hzero|]). apply List.Forall_nil.
Qed.

(** ** The handlers, further *)

Section MoreRuns.
Context `{F : api.Float32}.
Variable env : api.Env.

Lemma topics_app (l k : list api.Event) :
  api.topics (l ++ k) = api.topics l ++ api.topics k.
Proof. unfold api.topics. apply omap_app. Qed.

Lemma topics_StatusCb_loop (servers : list config.ServerInstance) :
  forall c,
  api.topics (api.StatusCb_loop_events env c servers)
  = map (fun server => (config.Address server, "?status")) servers.
Proof.
  induction servers as [|server servers IH]; intros c; [reflexivity|].
  rewrite StatusCb_loop_events_cons. cbn zeta.
  cbn [app api.topics omap list_omap map].
  f_equal. apply IH.
Qed.

Lemma written_StatusCb_loop (servers : list config.ServerInstance) :
  forall c, api.written (api.StatusCb_loop_events env c servers) = [].
Proof.
  induction servers as [|server servers IH]; intros c; [reflexivity|].
  rewrite StatusCb_loop_events_cons. cbn zeta.
  cbn [app api.written omap list_omap]. apply IH.
Qed.

Lemma lookups_StatusCb_loop (servers : list config.ServerInstance) :
  forall c, api.lookups (api.StatusCb_loop_events env c servers) = [].
Proof.
  induction servers as [|server servers IH]; intros c; [reflexivity|].
  rewrite StatusCb_loop_events_cons. cbn zeta.
  cbn [app api.lookups omap list_omap]. apply IH.
Qed.

Lemma topics_leaderboard_loop (data : list db.RoleTime) :
  forall c, api.topics (api.PlayerLeaderboardCb_loop_events c data) = [].
Proof.
  induction data as [|v data IH]; intros c; [reflexivity|].
  rewrite PlayerLeaderboardCb_loop_events_cons. cbn zeta.
  cbn [api.topics omap list_omap]. apply IH.
Qed.

Lemma copy_RoleTime_id (v : db.RoleTime) : api.copy_RoleTime v = v.
Proof. destruct v. reflexivity. Qed.

Lemma map_copy_RoleTime (data : list db.RoleTime) :
  map api.copy_RoleTime data = data.
Proof.
  induction data as [|v data IH]; [reflexivity|].
  cbn. rewrite copy_RoleTime_id, IH. reflexivity.
Qed.

Lemma InitV1_run (w : api.World) :
  api.run api.InitV1 w
  = let srv := api.Init (api.serverResponseW w) (5 * time.Second) in
    let top := api.Init (api.playTimeLeaderboardW w) (1 * time.Hour) in
    api.after w srv top 0
      [api.EvServerResponseW srv; api.EvPlayTimeLeaderboardW top].
Proof.
  unfold api.InitV1. run_m. unfold api.after. cbn.
  rewrite Nat.add_0_r, <- app_assoc. reflexivity.
Qed.

Lemma BanCheckCb_denied_run (r : api.Request) (w : api.World) :
  api.Header_token r <> config.Secret (api.GetConfig env) ->
  api.run (api.BanCheckCb env r) w
  = api.after w (api.serverResponseW w) (api.playTimeLeaderboardW w) 0
      [api.EvWriteJson api.bad_auth].
Proof.
  intros Htoken. unfold api.BanCheckCb, api.run.
  unfold mbind, api.M_bind. rewrite Confidential_run.
  destruct (String.eqb_spec (api.Header_token r) (config.Secret (api.GetConfig env)));
    [congruence|].
  reflexivity.
Qed.

Lemma BanCheckCb_id_run (r : api.Request) (w : api.World) :
  api.Header_token r = config.Secret (api.GetConfig env) ->
  url.Has (api.Query r) "id" = true ->
  api.run (api.BanCheckCb env r) w
  = let banID := api.url_to_int (api.Query r) "id" in
    let found := db.GetBanByID (api.database env) banID in
    api.after w (api.serverResponseW w) (api.playTimeLeaderboardW w) 0
      [ api.EvDb (db.QGetBanByID banID);
        api.EvWriteJson
          (if found.2 then api.success (api.BodyBan found.1) else api.fail) ].
Proof.
  intros Htoken Hid. unfold api.BanCheckCb, api.run.
  unfold mbind, api.M_bind. rewrite Confidential_run.
  rewrite Htoken, String.eqb_refl. cbn [negb]. rewrite Hid.
  unfold api.db_GetBanByID. run_m.
  destruct (db.GetBanByID (api.database env) (api.url_to_int (api.Query r) "id"))
    as [ban [|]]; cbn; unfold api.after; cbn;
    rewrite Nat.add_0_r, <- app_assoc; reflexivity.
Qed.

Lemma BanCheckCb_ckey_run (r : api.Request) (w : api.World) :
  api.Header_token r = config.Secret (api.GetConfig env) ->
  url.Has (api.Query r) "id" = false ->
  url.Has (api.Query r) "ckey" = true ->
  api.run (api.BanCheckCb env r) w
  = let ckey := url.Get (api.Query r) "ckey" in
    let found := db.GetBan (api.database env) ckey in
    api.after w (api.serverResponseW w) (api.playTimeLeaderboardW w) 0
      [ api.EvDb (db.QGetBan ckey);
        api.EvWriteJson
          (if found.2 then api.success (api.BodyBans found.1) else api.fail) ].
Proof.
  intros Htoken Hid Hckey. unfold api.BanCheckCb, api.run.
  unfold mbind, api.M_bind. rewrite Confidential_run.
  rewrite Htoken, String.eqb_refl. cbn [negb]. rewrite Hid, Hckey.
  unfold api.db_GetBan. run_m.
  destruct (db.GetBan (api.database env) (url.Get (api.Query r) "ckey"))
    as [ban [|]]; cbn; unfold api.after; cbn;
    rewrite Nat.add_0_r, <- app_assoc; reflexivity.
Qed.

End MoreRuns.

Lemma topics_WriteJson_events `{F : api.Float32} (h : api.GenericHeader) :
  api.topics (api.WriteJson_events h) = [].
Proof.
  unfold api.WriteJson_events. destruct (api.encodable (api.Body h)); reflexivity.
Qed.

Lemma lookups_WriteJson_events `{F : api.Float32} (h : api.GenericHeader) :
  api.lookups (api.WriteJson_events h) = [].
Proof.
  unfold api.WriteJson_events. destruct (api.encodable (api.Body h)); reflexivity.
Qed.

Lemma StatusCb_written `{F : api.Float32}
    (env : api.Env) (r : api.Request) (w : api.World) :
  let body :=
    api.BodyServers
      (api.Var (api.serverResponseW (api.run (api.StatusCb env r) w))) in
  api.written (api.added w (api.run (api.StatusCb env r) w))
  = if api.encodable body then [api.success body] else [].
Proof.
  cbn zeta.
  destruct (api.ShouldRefreshResponse (api.clock env (api.clock_reads w))
              (api.serverResponseW w)) eqn:Hstale.
  - rewrite (StatusCb_refresh_run env r w Hstale). cbn zeta.
    rewrite added_after.
    rewrite !written_app, written_StatusCb_loop, written_WriteJson_events.
    reflexivity.
  - rewrite (StatusCb_cached_run env r w Hstale). rewrite added_after.
    apply written_WriteJson_events.
Qed.

Lemma ServerStatus_encodable_iff `{F : api.Float32} (status : api.ServerStatus) :
  api.ServerStatus_encodable status = true
  <-> Forall (fun x => api.f32_finite x = true)
        [ api.TimeDilation status; api.TimeDilationAvg status;
          api.TimeDilationSlow status; api.TimeDilationFast status ].
Proof.
  unfold api.ServerStatus_encodable. rewrite !andb_true_iff. split.
  - intros [[[H1 H2] H3] H4].
    repeat (apply List.Forall_cons; [assumption|]). apply List.Forall_nil.
  - intros H. inversion H as [|? ? H1 Ha]; subst. inversion Ha as [|? ? H2 Hb]; subst.
    inversion Hb as [|? ? H3 Hc]; subst. inversion Hc as [|? ? H4 _]; subst.
    repeat split; assumption.
Qed.

(** Every run of [StatusCb] writes at most one envelope.  When every
    dilation in the list the cache holds at the end of the run is
    finite, it writes exactly one, a success whose body is that list
    (so it does when a refresh finds every server down: the dilations of
    an offline record are zero).  When one of them is an infinity or a
    NaN the list cannot be encoded and nothing is written.  The run
    makes no database lookup, leaves the leaderboard cache alone and
    keeps the cooldown of its own cache. *)
Theorem StatusCb_answers_once `{F : api.Float32}
    (env : api.Env) (r : api.Request) (w : api.World) :
  let w' := api.run (api.StatusCb env r) w in
  let list := api.Var (api.serverResponseW w') in
  api.written (api.added w w')
  = (if forallb api.ServerStatus_encodable list
     then [api.success (api.BodyServers list)] else [])
  /\ (forallb api.ServerStatus_encodable list = true
      <-> Forall (fun status =>
                    Forall (fun x => api.f32_finite x = true)
                      [ api.TimeDilation status; api.TimeDilationAvg status;
                        api.TimeDilationSlow status; api.TimeDilationFast status ])
            list)
  /\ (api.f32_finite api.f32_zero = true ->
      Forall (fun status => api.ServerStatus_ status = 0) list ->
      api.ShouldRefreshResponse (api.clock env (api.clock_reads w))
        (api.serverResponseW w) = true ->
      api.written (api.added w w') = [api.success (api.BodyServers list)])
  /\ api.lookups (api.added w w') = []
  /\ api.playTimeLeaderboardW w' = api.playTimeLeaderboardW w
  /\ api.Cooldown (api.serverResponseW w') = api.Cooldown (api.serverResponseW w).
Proof.
  cbn zeta.
  split; [apply (StatusCb_written env r w)|].
  split.
  { rewrite forallb_forall, List.Forall_forall.
    split; intros H status Hin; apply ServerStatus_encodable_iff, H, Hin. }
  split.
  { intros Hzero Hoff Hstale.
    pose proof (StatusCb_written env r w) as Hw. cbn zeta in Hw. rewrite Hw.
    cbn [api.encodable].
    rewrite (StatusCb_refresh_run env r w Hstale) in Hoff |- *. cbn zeta in Hoff |- *.
    cbn [api.serverResponseW api.after api.set_Var api.Var] in Hoff |- *.
    replace (forallb api.ServerStatus_encodable
               (map (api.server_status env) (config.Servers (api.GetConfig env))))
      with true; [reflexivity|].
    symmetry. apply forallb_forall. intros status Hin.
    rewrite List.Forall_forall in Hoff. specialize (Hoff status Hin).
    apply in_map_iff in Hin as (server & <- & _).
    unfold api.server_status in Hoff |- *.
    destruct (byond.Topic _ _ _) as [[err dataType] data].
    destruct (_ || _).
    - unfold api.ServerStatus_encodable. cbn. rewrite Hzero. reflexivity.
    - cbn in Hoff. discriminate. }
  destruct (api.ShouldRefreshResponse (api.clock env (api.clock_reads w))
              (api.serverResponseW w)) eqn:Hstale.
  - rewrite (StatusCb_refresh_run env r w Hstale). cbn zeta.
    rewrite added_after.
    rewrite !lookups_app, lookups_StatusCb_loop, lookups_WriteJson_events.
    repeat split.
  - rewrite (StatusCb_cached_run env r w Hstale). rewrite added_after.
    rewrite lookups_WriteJson_events. repeat split.
Qed.

(** The topic queries of a run of [StatusCb]: none when the cache is not
    stale; otherwise one per configured server, in configuration order,
    each with the command [?status] and each made whatever the earlier
    ones returned. *)
Theorem StatusCb_topics `{F : api.Float32}
    (env : api.Env) (r : api.Request) (w : api.World) :
  api.topics (api.added w (api.run (api.StatusCb env r) w))
  = if api.ShouldRefreshResponse (api.clock env (api.clock_reads w))
         (api.serverResponseW w)
    then map (fun server => (config.Address server, "?status"))
           (config.Servers (api.GetConfig env))
    else [].
Proof.
  destruct (api.ShouldRefreshResponse (api.clock env (api.clock_reads w))
              (api.serverResponseW w)) eqn:Hstale.
  - rewrite (StatusCb_refresh_run env r w Hstale). cbn zeta.
    rewrite added_after, !topics_app, topics_StatusCb_loop, topics_WriteJson_events.
    cbn. rewrite app_nil_r. reflexivity.
  - rewrite (StatusCb_cached_run env r w Hstale). rewrite added_after.
    apply topics_WriteJson_events.
Qed.

(** Two requests in a row.  When the first refreshes the cache and the
    second reads the clock less than the cooldown after the first set
    the last access, the second makes no topic query and is answered
    with the envelope the first was answered with. *)
Theorem StatusCb_second_request_cached `{F : api.Float32}
    (env : api.Env) (r1 r2 : api.Request) (w : api.World) :
  let set_at := api.clock env (S (api.clock_reads w)) in
  let read_at := api.clock env (S (S (api.clock_reads w))) in
  let w1 := api.run (api.StatusCb env r1) w in
  let w2 := api.run (api.StatusCb env r2) w1 in
  api.ShouldRefreshResponse (api.clock env (api.clock_reads w))
    (api.serverResponseW w) = true ->
  api.Cooldown (api.serverResponseW w) <= time.maxDuration ->
  0 <= read_at - set_at < api.Cooldown (api.serverResponseW w) ->
  api.topics (api.added w1 w2) = []
  /\ api.written (api.added w1 w2) = api.written (api.added w w1)
  /\ api.serverResponseW w2 = api.serverResponseW w1.
Proof.
  cbn zeta. intros Hstale Hmax Hsoon.
  assert (Hfresh :
            api.ShouldRefreshResponse
              (api.clock env (api.clock_reads (api.run (api.StatusCb env r1) w)))
              (api.serverResponseW (api.run (api.StatusCb env r1) w)) = false).
  { rewrite (StatusCb_refresh_run env r1 w Hstale). cbn zeta.
    unfold api.after. cbn [api.clock_reads api.serverResponseW].
    replace (api.clock_reads w + 2)%nat with (S (S (api.clock_reads w))) by lia.
    match goal with |- ?b = false => destruct b eqn:E; [|reflexivity] end.
    apply ShouldRefreshResponse_iff in E; cbn in *.
    - lia.
    - exact Hmax.
    - right. unfold time.minDuration. lia. }
  pose proof (StatusCb_written env r1 w) as Hfirst. cbn zeta in Hfirst.
  rewrite Hfirst.
  rewrite (StatusCb_cached_run env r2 _ Hfresh). rewrite added_after.
  split; [apply topics_WriteJson_events|]. split; [|reflexivity].
  apply written_WriteJson_events.
Qed.

(** Every run of [PlayerLeaderboardCb] writes exactly one envelope: the
    bad-auth envelope exactly when the request has a job and a wrong
    token, and otherwise a success with rows of play time.  It makes no
    topic query and at most one database lookup, leaves the status
    cache alone and keeps the cooldown of the leaderboard cache. *)
Theorem PlayerLeaderboardCb_answers_once `{F : api.Float32}
    (env : api.Env) (r : api.Request) (w : api.World) :
  let w' := api.run (api.PlayerLeaderboardCb env r) w in
  let denied := url.Get (api.Query r) "job" <> ""
                /\ api.Header_token r <> config.Secret (api.GetConfig env) in
  (api.written (api.added w w') = [api.bad_auth] <-> denied)
  /\ (~ denied ->
      exists rows, api.written (api.added w w')
                   = [api.success (api.BodyRoleTimes rows)])
  /\ api.topics (api.added w w') = []
  /\ (length (api.lookups (api.added w w')) <= 1)%nat
  /\ api.serverResponseW w' = api.serverResponseW w
  /\ api.Cooldown (api.playTimeLeaderboardW w')
     = api.Cooldown (api.playTimeLeaderboardW w).
Proof.
  cbn zeta.
  destruct (String.eqb_spec (url.Get (api.Query r) "job") "") as [Hjob|Hjob].
  - destruct (api.ShouldRefreshResponse (api.clock env (api.clock_reads w))
                (api.playTimeLeaderboardW w)) eqn:Hstale.
    + rewrite (PlayerLeaderboardCb_refresh_run env r w Hjob Hstale). cbn zeta.
      rewrite added_after.
      rewrite !written_app, !topics_app, !lookups_app,
        written_leaderboard_loop, topics_leaderboard_loop, lookups_leaderboard_loop.
      split; [split; [discriminate | intros [H _]; congruence]|].
      split; [intros _; eexists; reflexivity|].
      repeat split. cbn. lia.
    + rewrite (PlayerLeaderboardCb_cached_run env r w Hjob Hstale).
      rewrite added_after.
      split; [split; [discriminate | intros [H _]; congruence]|].
      split; [intros _; eexists; reflexivity|].
      repeat split. cbn. lia.
  - destruct (String.eqb_spec (api.Header_token r)
                (config.Secret (api.GetConfig env))) as [Htoken|Htoken].
    + rewrite (PlayerLeaderboardCb_job_run env r w Hjob Htoken). cbn zeta.
      rewrite added_after.
      split; [split; [discriminate | intros [_ H]; congruence]|].
      split; [intros _; eexists; reflexivity|].
      repeat split. cbn. lia.
    + rewrite (PlayerLeaderboardCb_denied_run env r w Hjob Htoken).
      rewrite added_after.
      split; [split; [intros _; split; assumption | reflexivity]|].
      split; [intros H; exfalso; apply H; split; assumption|].
      repeat split. cbn. lia.
Qed.

(** The rows of a database lookup reach the client as they are: when a
    run of [PlayerLeaderboardCb] looks up the play time of a job (the
    job of the request, or "Living" for the refresh of the cache), the
    envelope it writes is a success whose body is exactly the rows the
    database returned, in their order. *)
Theorem PlayerLeaderboardCb_rows_unchanged `{F : api.Float32}
    (env : api.Env) (r : api.Request) (w : api.World) (job : string) :
  let w' := api.run (api.PlayerLeaderboardCb env r) w in
  In (db.QGetTopMinutes job) (api.lookups (api.added w w')) ->
  api.written (api.added w w')
  = [api.success (api.BodyRoleTimes (db.GetTopMinutes (api.database env) job))]
  /\ (url.Get (api.Query r) "job" = "" ->
      job = "Living"
      /\ api.Var (api.playTimeLeaderboardW w')
         = db.GetTopMinutes (api.database env) "Living")
  /\ (url.Get (api.Query r) "job" <> "" -> job = url.Get (api.Query r) "job").
Proof.
  cbn zeta.
  destruct (String.eqb_spec (url.Get (api.Query r) "job") "") as [Hjob|Hjob].
  - destruct (api.ShouldRefreshResponse (api.clock env (api.clock_reads w))
                (api.playTimeLeaderboardW w)) eqn:Hstale.
    + rewrite (PlayerLeaderboardCb_refresh_run env r w Hjob Hstale). cbn zeta.
      rewrite added_after.
      rewrite !written_app, !lookups_app,
        written_leaderboard_loop, lookups_leaderboard_loop, map_copy_RoleTime.
      cbn. intros [E|[]]. injection E as <-.
      split; [reflexivity|]. split; [|congruence].
      intros _. split; reflexivity.
    + rewrite (PlayerLeaderboardCb_cached_run env r w Hjob Hstale).
      rewrite added_after. cbn. intros [].
  - destruct (String.eqb_spec (api.Header_token r)
                (config.Secret (api.GetConfig env))) as [Htoken|Htoken].
    + rewrite (PlayerLeaderboardCb_job_run env r w Hjob Htoken). cbn zeta.
      rewrite added_after, map_copy_RoleTime.
      cbn. intros [E|[]]. injection E as <-.
      split; [reflexivity|]. split; [congruence|]. reflexivity.
    + rewrite (PlayerLeaderboardCb_denied_run env r w Hjob Htoken).
      rewrite added_after. cbn. intros [].
Qed.

(** A run of [BanCheckCb] makes a database lookup exactly when the token
    is the configured secret and the query has an [id] or a [ckey] key;
    it never makes more than one, never a topic query, reads no clock
    and leaves both caches as they are. *)
Theorem BanCheckCb_lookup_iff `{F : api.Float32}
    (env : api.Env) (r : api.Request) (w : api.World) :
  let w' := api.run (api.BanCheckCb env r) w in
  (api.lookups (api.added w w') <> []
   <-> api.Header_token r = config.Secret (api.GetConfig env)
       /\ (url.Has (api.Query r) "id" = true \/ url.Has (api.Query r) "ckey" = true))
  /\ (length (api.lookups (api.added w w')) <= 1)%nat
  /\ api.topics (api.added w w') = []
  /\ api.serverResponseW w' = api.serverResponseW w
  /\ api.playTimeLeaderboardW w' = api.playTimeLeaderboardW w
  /\ api.clock_reads w' = api.clock_reads w.
Proof.
  cbn zeta.
  destruct (String.eqb_spec (api.Header_token r)
              (config.Secret (api.GetConfig env))) as [Htoken|Htoken].
  - destruct (url.Has (api.Query r) "id") eqn:Hid.
    + rewrite (BanCheckCb_id_run env r w Htoken Hid). cbn zeta.
      rewrite added_after. unfold api.after. cbn.
      split; [split; [intros _; split; [assumption|left; reflexivity] | discriminate]|].
      repeat split; lia.
    + destruct (url.Has (api.Query r) "ckey") eqn:Hckey.
      * rewrite (BanCheckCb_ckey_run env r w Htoken Hid Hckey). cbn zeta.
        rewrite added_after. unfold api.after. cbn.
        split; [split; [intros _; split; [assumption|right; reflexivity] | discriminate]|].
        repeat split; lia.
      * rewrite (BanCheckCb_silent_run env r w Htoken Hid Hckey).
        unfold api.added. rewrite drop_all. cbn.
        split; [split; [congruence | intros [_ [H|H]]; discriminate]|].
        repeat split; lia.
  - rewrite (BanCheckCb_denied_run env r w Htoken).
    rewrite added_after. unfold api.after. cbn.
    split; [split; [congruence | intros [H _]; congruence]|].
    repeat split; lia.
Qed.

(** A run of [BanCheckCb] writes at most one envelope, and none exactly
    when the token is the configured secret and the query has neither an
    [id] nor a [ckey] key; with a wrong token the one envelope is the
    bad-auth envelope. *)
Theorem BanCheckCb_written_iff `{F : api.Float32}
    (env : api.Env) (r : api.Request) (w : api.World) :
  let w' := api.run (api.BanCheckCb env r) w in
  (api.written (api.added w w') = []
   <-> api.Header_token r = config.Secret (api.GetConfig env)
       /\ url.Has (api.Query r) "id" = false
       /\ url.Has (api.Query r) "ckey" = false)
  /\ (length (api.written (api.added w w')) <= 1)%nat
  /\ (api.written (api.added w w') = [api.bad_auth]
      <-> api.Header_token r <> config.Secret (api.GetConfig env)).
Proof.
  cbn zeta.
  destruct (String.eqb_spec (api.Header_token r)
              (config.Secret (api.GetConfig env))) as [Htoken|Htoken].
  - destruct (url.Has (api.Query r) "id") eqn:Hid.
    + rewrite (BanCheckCb_id_run env r w Htoken Hid). cbn zeta.
      rewrite added_after. cbn.
      split; [split; [discriminate | intros (_ & H & _); discriminate]|].
      split; [lia|].
      split; [|congruence].
      destruct (db.GetBanByID _ _).2; discriminate.
    + destruct (url.Has (api.Query r) "ckey") eqn:Hckey.
      * rewrite (BanCheckCb_ckey_run env r w Htoken Hid Hckey). cbn zeta.
        rewrite added_after. cbn.
        split; [split; [discriminate | intros (_ & _ & H); discriminate]|].
        split; [lia|].
        split; [|congruence].
        destruct (db.GetBan _ _).2; discriminate.
      * rewrite (BanCheckCb_silent_run env r w Htoken Hid Hckey).
        unfold api.added. rewrite drop_all. cbn.
        split; [split; [intros _; repeat split; assumption | reflexivity]|].
        split; [lia|].
        split; [discriminate|congruence].
  - rewrite (BanCheckCb_denied_run env r w Htoken).
    rewrite added_after. cbn.
    split; [split; [discriminate | intros (H & _); congruence]|].
    split; [lia|].
    split; [intros _; exact Htoken | reflexivity].
Qed.

(** [BanCheckCb] with the right token and an [id] key: the ban with the
    number [url_to_int] reads from [id] is looked up, also when the
    query has a [ckey] key as well, and no lookup by key is made.  The
    number is 0 when [Atoi] reports a syntax error for the value, and -1
    or 0 (the 64-bit bounds cut to 32 bits) when it reports a range
    error.  A ban that is found is written in a success envelope; when
    none is found the fail envelope is written, with body 0. *)
Theorem BanCheckCb_id_first `{F : api.Float32}
    (env : api.Env) (r : api.Request) (w : api.World) :
  api.Header_token r = config.Secret (api.GetConfig env) ->
  url.Has (api.Query r) "id" = true ->
  let banID := api.url_to_int (api.Query r) "id" in
  let found := db.GetBanByID (api.database env) banID in
  let evs := api.added w (api.run (api.BanCheckCb env r) w) in
  api.lookups evs = [db.QGetBanByID banID]
  /\ api.written evs
     = [if found.2 then api.success (api.BodyBan found.1) else api.fail]
  /\ ((strconv.Atoi (url.Get (api.Query r) "id")).2 = Some strconv.ErrSyntax ->
      banID = 0)
  /\ ((strconv.Atoi (url.Get (api.Query r) "id")).2 = Some strconv.ErrRange ->
      banID = -1 \/ banID = 0).
Proof.
  intros Htoken Hid. cbn zeta.
  rewrite (BanCheckCb_id_run env r w Htoken Hid). cbn zeta.
  rewrite added_after.
  split; [reflexivity|]. split; [reflexivity|].
  split; [apply url_to_int_syntax_error|].
  rewrite url_to_int_to_int. apply to_int_range_error.
Qed.

(** [BanCheckCb] with the right token, no [id] key and a [ckey] key: the
    bans of the first value of [ckey] are looked up.  When the lookup
    succeeds the list of bans is written in a success envelope (also
    when it is empty); when it fails the fail envelope is written. *)
Theorem BanCheckCb_by_ckey `{F : api.Float32}
    (env : api.Env) (r : api.Request) (w : api.World) :
  api.Header_token r = config.Secret (api.GetConfig env) ->
  url.Has (api.Query r) "id" = false ->
  url.Has (api.Query r) "ckey" = true ->
  let ckey := url.Get (api.Query r) "ckey" in
  let found := db.GetBan (api.database env) ckey in
  let evs := api.added w (api.run (api.BanCheckCb env r) w) in
  api.lookups evs = [db.QGetBan ckey]
  /\ api.written evs
     = [if found.2 then api.success (api.BodyBans found.1) else api.fail].
Proof.
  intros Htoken Hid Hckey. cbn zeta.
  rewrite (BanCheckCb_ckey_run env r w Htoken Hid Hckey). cbn zeta.
  rewrite added_after.
  split; reflexivity.
Qed.

Lemma Init_stale {T} (c : api.CachedResponse T) (cooldown now : Z) :
  time.minDuration < cooldown <= time.maxDuration ->
  time.unixEpoch <= now ->
  api.ShouldRefreshResponse now (api.Init c cooldown) = true.
Proof.
  intros Hc Hnow.
  assert (Hepoch : time.maxDuration < time.unixEpoch) by (vm_compute; reflexivity).
  apply (ShouldRefreshResponse_iff (api.Init c cooldown) now); cbn.
  - lia.
  - left. lia.
  - unfold time.zero. lia.
Qed.

(** [InitV1] sets the cooldowns to five seconds and one hour and the
    last accesses to the zero time, and keeps the values the caches
    hold.  At any time of the Unix era the first status request after it
    queries every configured server, and the first leaderboard request
    without a job looks up "Living". *)
Theorem InitV1_first_requests `{F : api.Float32}
    (env : api.Env) (r : api.Request) (w : api.World) :
  time.unixEpoch <= api.clock env (api.clock_reads w) ->
  url.Get (api.Query r) "job" = "" ->
  let w0 := api.run api.InitV1 w in
  api.Cooldown (api.serverResponseW w0) = 5 * time.Second
  /\ api.Cooldown (api.playTimeLeaderboardW w0) = 1 * time.Hour
  /\ api.Var (api.serverResponseW w0) = api.Var (api.serverResponseW w)
  /\ api.Var (api.playTimeLeaderboardW w0) = api.Var (api.playTimeLeaderboardW w)
  /\ api.topics (api.added w0 (api.run (api.StatusCb env r) w0))
     = map (fun server => (config.Address server, "?status"))
         (config.Servers (api.GetConfig env))
  /\ api.lookups (api.added w0 (api.run (api.PlayerLeaderboardCb env r) w0))
     = [db.QGetTopMinutes "Living"].
Proof.
  intros Hnow Hjob. cbn zeta. rewrite InitV1_run. cbn zeta.
  split; [reflexivity|]. split; [reflexivity|].
  split; [reflexivity|]. split; [reflexivity|].
  set (srv := api.Init (api.serverResponseW w) (5 * time.Second)).
  set (top := api.Init (api.playTimeLeaderboardW w) (1 * time.Hour)).
  set (w0 := api.after w srv top 0 _).
  assert (Hclock : api.clock env (api.clock_reads w0)
                   = api.clock env (api.clock_reads w)).
  { unfold w0, api.after. cbn. rewrite Nat.add_0_r. reflexivity. }
  assert (Hsrv : api.ShouldRefreshResponse (api.clock env (api.clock_reads w0))
                   (api.serverResponseW w0) = true).
  { rewrite Hclock. apply Init_stale; [|exact Hnow].
    unfold time.minDuration, time.maxDuration, time.Second. lia. }
  assert (Htop : api.ShouldRefreshResponse (api.clock env (api.clock_reads w0))
                   (api.playTimeLeaderboardW w0) = true).
  { rewrite Hclock. apply Init_stale; [|exact Hnow].
    unfold time.minDuration, time.maxDuration, time.Hour, time.Second. lia. }
  split.
  - rewrite (StatusCb_refresh_run env r w0 Hsrv). cbn zeta.
    rewrite added_after, !topics_app, topics_StatusCb_loop, topics_WriteJson_events.
    cbn. rewrite app_nil_r. reflexivity.
  - rewrite (PlayerLeaderboardCb_refresh_run env r w0 Hjob Htop). cbn zeta.
    rewrite added_after, !lookups_app, lookups_leaderboard_loop. reflexivity.
Qed.

(** ** The status page script *)

Lemma GetShuttleMode_cases (m : string) :
  In (m, web.GetShuttleMode m)
    [ (web.SHUTTLE_IGNITING, "IGN"); (web.SHUTTLE_RECALL, "RCL");
      (web.SHUTTLE_CALL, "ETA"); (web.SHUTTLE_DOCKED, "ETD");
      (web.SHUTTLE_ESCAPE, "ESC"); (web.SHUTTLE_STRANDED, "ERR");
      (web.SHUTTLE_RECHARGING, "RCH"); (web.SHUTTLE_PREARRIVAL, "LDN");
      (web.SHUTTLE_DISABLED, "DIS"); (web.SHUTTLE_ENDGAME, "END") ]
  \/ (web.GetShuttleMode m = ""
      /\ ~ In m [ web.SHUTTLE_IGNITING; web.SHUTTLE_RECALL; web.SHUTTLE_CALL;
                  web.SHUTTLE_DOCKED; web.SHUTTLE_ESCAPE; web.SHUTTLE_STRANDED;
                  web.SHUTTLE_RECHARGING; web.SHUTTLE_PREARRIVAL;
                  web.SHUTTLE_DISABLED; web.SHUTTLE_ENDGAME ]).
Proof.
  unfold web.GetShuttleMode.
  destruct (String.eqb_spec m web.SHUTTLE_IGNITING) as [->|N1]; [left; cbn; tauto|].
  destruct (String.eqb_spec m web.SHUTTLE_RECALL) as [->|N2]; [left; cbn; tauto|].
  destruct (String.eqb_spec m web.SHUTTLE_CALL) as [->|N3]; [left; cbn; tauto|].
  destruct (String.eqb_spec m web.SHUTTLE_DOCKED) as [->|N4]; [left; cbn; tauto|].
  destruct (String.eqb_spec m web.SHUTTLE_ESCAPE) as [->|N5]; [left; cbn; tauto|].
  destruct (String.eqb_spec m web.SHUTTLE_STRANDED) as [->|N6]; [left; cbn; tauto|].
  destruct (String.eqb_spec m web.SHUTTLE_RECHARGING) as [->|N7]; [left; cbn; tauto|].
  destruct (String.eqb_spec m web.SHUTTLE_PREARRIVAL) as [->|N8]; [left; cbn; tauto|].
  destruct (String.eqb_spec m web.SHUTTLE_DISABLED) as [->|N9]; [left; cbn; tauto|].
  destruct (String.eqb_spec m "endgame: game over") as [->|N10]; [left; cbn; tauto|].
  right. split; [reflexivity|].
  cbn. intros H.
  repeat (destruct H as [H|H]; [symmetry in H; contradiction|]).
  exact H.
Qed.

(** The shuttle codes: every mode of the table has a code of three
    letters, different modes have different codes, and every other text
    (such as "idle") has the empty code. *)
Theorem GetShuttleMode_codes (m1 m2 : string) :
  (web.GetShuttleMode m1 = "" \/ String.length (web.GetShuttleMode m1) = 3%nat)
  /\ (web.GetShuttleMode m1 = web.GetShuttleMode m2 ->
      web.GetShuttleMode m1 <> "" -> m1 = m2)
  /\ (web.GetShuttleMode m1 <> ""
      <-> In m1 [ web.SHUTTLE_IGNITING; web.SHUTTLE_RECALL; web.SHUTTLE_CALL;
                  web.SHUTTLE_DOCKED; web.SHUTTLE_ESCAPE; web.SHUTTLE_STRANDED;
                  web.SHUTTLE_RECHARGING; web.SHUTTLE_PREARRIVAL;
                  web.SHUTTLE_DISABLED; web.SHUTTLE_ENDGAME ]).
Proof.
  destruct (GetShuttleMode_cases m1) as [H1|[E1 N1]].
  2:{ rewrite E1. split; [left; reflexivity|].
      split; [congruence|]. split; [congruence | contradiction]. }
  assert (Hcode : String.length (web.GetShuttleMode m1) = 3%nat
                  /\ web.GetShuttleMode m1 <> "").
  { cbn in H1.
    repeat (destruct H1 as [H1|H1];
            [injection H1 as Em _; subst m1; split; [reflexivity|discriminate]|]).
    contradiction. }
  destruct Hcode as [Hlen Hne].
  split; [right; exact Hlen|].
  split.
  - intros Heq _.
    destruct (GetShuttleMode_cases m2) as [H2|[E2 _]]; [|congruence].
    rewrite <- Heq in H2. clear Heq Hlen Hne.
    cbn in H1, H2.
    repeat (destruct H1 as [H1|H1];
            [injection H1 as Em _; subst m1|]); try contradiction;
      vm_compute in H2;
      repeat (destruct H2 as [H2|H2];
              [first [ injection H2; intros; subst; reflexivity | discriminate H2 ]|]);
      contradiction.
  - split; [intros _|intros _; exact Hne].
    cbn in H1 |- *.
    repeat (destruct H1 as [H1|H1]; [injection H1 as Em _; subst m1; tauto|]).
    contradiction.
Qed.

(** The game state names: each of the states 0 to 4 has a name, the
    names differ, and every other number has the empty name. *)
Theorem GetGameState_names (s1 s2 : Z) :
  (web.GetGameState s1 <> "" <-> 0 <= s1 <= 4)
  /\ (web.GetGameState s1 = web.GetGameState s2 ->
      web.GetGameState s1 <> "" -> s1 = s2).
Proof.
  assert (Hcases : forall s,
             (0 <= s <= 4
              /\ In (s, web.GetGameState s)
                   [ (0, web.GetGameState 0); (1, web.GetGameState 1);
                     (2, web.GetGameState 2); (3, web.GetGameState 3);
                     (4, web.GetGameState 4) ])
             \/ (~ 0 <= s <= 4 /\ web.GetGameState s = "")).
  { intros s.
    destruct (Z.eq_dec s 0) as [->|]; [left; split; [lia|cbn; tauto]|].
    destruct (Z.eq_dec s 1) as [->|]; [left; split; [lia|cbn; tauto]|].
    destruct (Z.eq_dec s 2) as [->|]; [left; split; [lia|cbn; tauto]|].
    destruct (Z.eq_dec s 3) as [->|]; [left; split; [lia|cbn; tauto]|].
    destruct (Z.eq_dec s 4) as [->|]; [left; split; [lia|cbn; tauto]|].
    right. split; [lia|].
    unfold web.GetGameState, web.GAME_STATE_STARTUP, web.GAME_STATE_PREGAME,
      web.GAME_STATE_SETTING_UP, web.GAME_STATE_PLAYING, web.GAME_STATE_FINISHED.
    repeat match goal with
           | |- context [s =? ?x] => destruct (Z.eqb_spec s x); [lia|]
           end.
    reflexivity. }
  destruct (Hcases s1) as [[R1 H1]|[R1 E1]].
  2:{ rewrite E1. split; [split; [congruence|contradiction]|congruence]. }
  assert (Hne : web.GetGameState s1 <> "").
  { cbn in H1.
    repeat (destruct H1 as [H1|H1];
            [injection H1 as Es _; subst s1; vm_compute; discriminate|]).
    contradiction. }
  split; [split; [intros _; exact R1 | intros _; exact Hne]|].
  intros Heq _.
  destruct (Hcases s2) as [[R2 H2]|[R2 E2]]; [|congruence].
  rewrite <- Heq in H2. clear Heq Hne.
  cbn in H1, H2.
  repeat (destruct H1 as [H1|H1]; [injection H1 as Es _; subst s1|]);
    try contradiction;
    vm_compute in H2;
    repeat (destruct H2 as [H2|H2];
            [first [ injection H2; intros; subst; reflexivity | discriminate H2 ]|]);
    contradiction.
Qed.

Lemma string_length_append (s t : string) :
  String.length (s +:+ t) = (String.length s + String.length t)%nat.
Proof.
  induction s as [|c s IH]; [reflexivity|].
  change (String c s +:+ t) with (String c (s +:+ t)).
  cbn [String.length]. rewrite IH. reflexivity.
Qed.

Lemma string_append_assoc (s t u : string) : (s +:+ t) +:+ u = s +:+ (t +:+ u).
Proof.
  induction s as [|c s IH]; [reflexivity|].
  change ((String c s +:+ t) +:+ u) with (String c ((s +:+ t) +:+ u)).
  change (String c s +:+ (t +:+ u)) with (String c (s +:+ (t +:+ u))).
  rewrite IH. reflexivity.
Qed.

Lemma Array_join_zeros (k : nat) :
  web.Array_join (S k) "0" = string_of_list_ascii (repeat "0"%char k).
Proof.
  unfold web.Array_join. induction k as [|k IH]; [reflexivity|].
  change (repeat "" (S (S k))) with ("" :: repeat "" (S k)).
  cbn [String.concat]. cbn [repeat] in IH |- *. rewrite IH. reflexivity.
Qed.

Lemma length_zeros (k : nat) :
  String.length (string_of_list_ascii (repeat "0"%char k)) = k.
Proof. induction k as [|k IH]; simpl; [reflexivity|]. f_equal. exact IH. Qed.

Lemma pad_zeros (n : Z) (width : nat) :
  web.pad n width None
  = string_of_list_ascii
      (repeat "0"%char (width - String.length (web.number_to_string n)))
    +:+ web.number_to_string n.
Proof.
  unfold web.pad.
  destruct (Nat.leb_spec width (String.length (web.number_to_string n))) as [Hle|Hgt].
  - replace (width - String.length (web.number_to_string n))%nat with 0%nat by lia.
    reflexivity.
  - rewrite Nat.add_1_r, Array_join_zeros. reflexivity.
Qed.

Lemma two_digits_upto (k : nat) :
  (k < 100)%nat ->
  String.length (web.pad (Z.of_nat k) 2 None) = 2%nat
  /\ strconv.parse_digits (web.pad (Z.of_nat k) 2 None) = Some (Z.of_nat k).
Proof.
  intros Hk.
  assert (Hall : forallb
                   (fun k => Nat.eqb (String.length (web.pad (Z.of_nat k) 2 None)) 2
                             && match strconv.parse_digits (web.pad (Z.of_nat k) 2 None) with
                                | Some v => v =? Z.of_nat k
                                | None => false
                                end)
                   (seq 0 100) = true) by (vm_compute; reflexivity).
  rewrite forallb_forall in Hall.
  specialize (Hall k). rewrite in_seq in Hall.
  assert (Hin : (0 <= k < 0 + 100)%nat) by lia.
  apply Hall in Hin. apply andb_true_iff in Hin as [Hlen Hval].
  apply Nat.eqb_eq in Hlen. split; [exact Hlen|].
  destruct (strconv.parse_digits (web.pad (Z.of_nat k) 2 None)) as [v|];
    [|discriminate].
  apply Z.eqb_eq in Hval. congruence.
Qed.

Lemma two_digits (n : Z) :
  0 <= n < 100 ->
  String.length (web.pad n 2 None) = 2%nat
  /\ strconv.parse_digits (web.pad n 2 None) = Some n.
Proof.
  intros Hn. rewrite <- (Z2Nat.id n) by lia. apply two_digits_upto. lia.
Qed.

(** [pad] with the default filler puts zeroes in front of the decimal
    digits of the number until the text is [width] long, and leaves a
    number that is already that long as it is: nothing is cut off.  A
    number from 0 to 99 padded to width 2 is two digits that read back
    as the number. *)
Theorem pad_width (n : Z) (width : nat) :
  let digits := web.number_to_string n in
  web.pad n width None
  = string_of_list_ascii (repeat "0"%char (width - String.length digits)) +:+ digits
  /\ String.length (web.pad n width None) = Nat.max width (String.length digits)
  /\ (0 <= n < 100 ->
      String.length (web.pad n 2 None) = 2%nat
      /\ strconv.parse_digits (web.pad n 2 None) = Some n).
Proof.
  cbn zeta. split; [apply pad_zeros|]. split; [|apply two_digits].
  rewrite pad_zeros, string_length_append, length_zeros. lia.
Qed.

Lemma floor_divide (a : Z) (b : positive) :
  web.Math_floor (web.divide a (Z.pos b)) = a / Z.pos b.
Proof.
  unfold web.Math_floor, web.divide, QArith_base.Qdiv, QArith_base.Qmult,
    QArith_base.Qinv, QArith_base.inject_Z, Qround.Qfloor.
  cbn. rewrite Z.mul_1_r. reflexivity.
Qed.

Lemma floor_remainder_60 (s : Z) :
  0 <= s ->
  web.Math_floor (web.remainder (web.divide s 60) 60) = (s / 60) mod 60.
Proof.
  intros Hs.
  unfold web.Math_floor, web.remainder, web.truncate, web.divide.
  unfold QArith_base.Qminus, QArith_base.Qplus, QArith_base.Qopp,
    QArith_base.Qdiv, QArith_base.Qmult, QArith_base.Qinv,
    QArith_base.inject_Z, QArith_base.Qle_bool, Qround.Qfloor.
  cbn.
  destruct (Z.leb_spec 0 (s * 1 * 1)); [|lia].
  cbn.
  replace (s * 1 * 1) with s by lia.
  replace (s * 1) with s by lia.
  change (Z.pos (1 * 1)) with 1.
  change (Z.pos (1 * 60 * 60)) with 3600.
  change (Z.pos (1 * 60 * (1 * 1))) with 60.
  change (Z.pos (1 * 60)) with 60.
  rewrite Z.mul_0_l.
  destruct (Z.leb_spec 0 s); [|lia].
  Z.div_mod_to_equations. lia.
Qed.

(** The clock format, for a number of seconds that is not negative and
    fits in 32 bits (the shuttle timer of the API is an [int32]): the
    text is the days (only from one day on), the hours of the day (only
    from one hour on), the minutes and the seconds, each followed by a
    colon but the last; hours, minutes and seconds are two digits that
    read back as their numbers, and the four numbers add up to the
    seconds given.  Below one hour the text has five characters, below
    one day eight. *)
Theorem secondsToTime_fields (seconds : Z) :
  0 <= seconds < 2 ^ 31 ->
  let d := seconds / 86400 in
  let h := (seconds / 3600) mod 24 in
  let m := (seconds / 60) mod 60 in
  let s := seconds mod 60 in
  web.secondsToTime seconds
  = (if 86400 <=? seconds then web.number_to_string d +:+ ":" else "")
    +:+ ((if 3600 <=? seconds then web.pad h 2 None +:+ ":" else "")
         +:+ (web.pad m 2 None +:+ ":" +:+ web.pad s 2 None))
  /\ seconds = 86400 * d + 3600 * h + 60 * m + s
  /\ Forall (fun x => String.length (web.pad x 2 None) = 2%nat
                      /\ strconv.parse_digits (web.pad x 2 None) = Some x)
       [h; m; s]
  /\ (seconds < 3600 -> String.length (web.secondsToTime seconds) = 5%nat)
  /\ (3600 <= seconds < 86400 ->
      String.length (web.secondsToTime seconds) = 8%nat).
Proof.
  intros [Hs _] d h m s.
  assert (Hh : 0 <= h < 100) by (unfold h; Z.div_mod_to_equations; lia).
  assert (Hm : 0 <= m < 100) by (unfold m; Z.div_mod_to_equations; lia).
  assert (Hsec : 0 <= s < 100) by (unfold s; Z.div_mod_to_equations; lia).
  assert (Htext :
            web.secondsToTime seconds
            = (if 86400 <=? seconds then web.number_to_string d +:+ ":" else "")
              +:+ ((if 3600 <=? seconds then web.pad h 2 None +:+ ":" else "")
                   +:+ (web.pad m 2 None +:+ ":" +:+ web.pad s 2 None))).
  { unfold web.secondsToTime.
    rewrite !floor_divide, floor_remainder_60 by exact Hs.
    unfold web.Math_floor. rewrite Qround.Qfloor_Z.
    rewrite !Z.rem_mod_nonneg by (try lia; apply Z.div_pos; lia).
    rewrite !Z.geb_leb. fold d h m s.
    destruct (86400 <=? seconds), (3600 <=? seconds);
      rewrite ?string_append_assoc; reflexivity. }
  split; [exact Htext|].
  split; [unfold d, h, m, s; Z.div_mod_to_equations; lia|].
  split.
  { repeat (apply List.Forall_cons; [apply two_digits; assumption|]).
    apply List.Forall_nil. }
  destruct (two_digits h Hh) as [Lh _].
  destruct (two_digits m Hm) as [Lm _].
  destruct (two_digits s Hsec) as [Ls _].
  split; intros Hrange; rewrite Htext.
  - destruct (Z.leb_spec 86400 seconds); [lia|].
    destruct (Z.leb_spec 3600 seconds); [lia|].
    rewrite !string_length_append, Lm, Ls. reflexivity.
  - destruct (Z.leb_spec 86400 seconds); [lia|].
    destruct (Z.leb_spec 3600 seconds); [|lia].
    rewrite !string_length_append, Lh, Lm, Ls. reflexivity.
Qed.

Lemma secondsToTime_text_short (seconds : Z) :
  0 <= seconds -> seconds < 3600 ->
  web.secondsToTime seconds
  = web.pad ((seconds / 60) mod 60) 2 None +:+ ":" +:+ web.pad (seconds mod 60) 2 None.
Proof.
  intros Hs Hlt. unfold web.secondsToTime.
  rewrite !floor_divide, floor_remainder_60 by exact Hs.
  unfold web.Math_floor. rewrite Qround.Qfloor_Z.
  rewrite !Z.rem_mod_nonneg by (try lia; apply Z.div_pos; lia).
  rewrite !Z.geb_leb.
  destruct (Z.leb_spec 86400 seconds); [lia|].
  destruct (Z.leb_spec 3600 seconds); [lia|].
  reflexivity.
Qed.

Lemma secondsToTime_text_long (seconds : Z) :
  0 <= seconds -> 3600 <= seconds ->
  (String.length (web.secondsToTime seconds) <> 5)%nat.
Proof.
  intros Hs Hge. unfold web.secondsToTime.
  rewrite !Z.geb_leb.
  destruct (Z.leb_spec 3600 seconds); [|lia].
  rewrite !floor_divide, floor_remainder_60 by exact Hs.
  unfold web.Math_floor. rewrite Qround.Qfloor_Z.
  rewrite !Z.rem_mod_nonneg by (try lia; apply Z.div_pos; lia).
  assert (Hh : 0 <= (seconds / 3600) mod 24 < 100) by (Z.div_mod_to_equations; lia).
  assert (Hm : 0 <= (seconds / 60) mod 60 < 100) by (Z.div_mod_to_equations; lia).
  assert (Hsec : 0 <= seconds mod 60 < 100) by (Z.div_mod_to_equations; lia).
  destruct (two_digits _ Hh) as [Lh _].
  destruct (two_digits _ Hm) as [Lm _].
  destruct (two_digits _ Hsec) as [Ls _].
  rewrite !string_length_append, Lh, Lm, Ls. cbn [String.length]. lia.
Qed.

(** [GetShuttleTime] shows no time for a stranded or a disabled shuttle,
    and the clock format of the time left for every other mode; the
    clock format of a time that is not negative is never the text it
    shows for no time. *)
Theorem GetShuttleTime_no_time (time_left : Z) (mode : string) :
  0 <= time_left ->
  (mode = web.SHUTTLE_STRANDED \/ mode = web.SHUTTLE_DISABLED ->
   web.GetShuttleTime time_left mode = "--:--")
  /\ (mode <> web.SHUTTLE_STRANDED -> mode <> web.SHUTTLE_DISABLED ->
      web.GetShuttleTime time_left mode = web.secondsToTime time_left)
  /\ (web.GetShuttleTime time_left mode = "--:--"
      <-> mode = web.SHUTTLE_STRANDED \/ mode = web.SHUTTLE_DISABLED).
Proof.
  intros Ht.
  assert (Hclock : web.secondsToTime time_left <> "--:--").
  { intros E.
    destruct (Z.lt_ge_cases time_left 3600) as [Hlt|Hge].
    - (* five characters: the first two are digits *)
      pose proof (secondsToTime_text_short time_left Ht Hlt) as Htext.
      rewrite Htext in E.
      assert (Hm : 0 <= (time_left / 60) mod 60 < 100)
        by (Z.div_mod_to_equations; lia).
      destruct (two_digits _ Hm) as [Lm Pm].
      destruct (web.pad ((time_left / 60) mod 60) 2 None) as [|c1 [|c2 [|c3 rest]]];
        try discriminate Lm.
      change (String c1 (String c2 "") +:+ ?x) with (String c1 (String c2 x)) in E.
      injection E as -> -> _. discriminate Pm.
    - assert (Hlen : (String.length (web.secondsToTime time_left) <> 5)%nat).
      { apply secondsToTime_text_long; assumption. }
      rewrite E in Hlen. apply Hlen. reflexivity. }
  unfold web.GetShuttleTime.
  destruct (String.eqb_spec mode web.SHUTTLE_STRANDED) as [E1|N1]; cbn [orb].
  { split; [reflexivity|]. split; [congruence|].
    split; [intros _; left; exact E1 | reflexivity]. }
  destruct (String.eqb_spec mode web.SHUTTLE_DISABLED) as [E2|N2].
  { split; [reflexivity|]. split; [congruence|].
    split; [intros _; right; exact E2 | reflexivity]. }
  split; [intros [H|H]; congruence|].
  split; [reflexivity|].
  split; [intros H; contradiction | intros [H|H]; congruence].
Qed.

(** ** The claims on concrete inputs *)

#[local] Existing Instance examples.text_float32.

Lemma refresh_builds_in_place_witness :
  let r := examples.request "" "" in
  let w := examples.warm in
  let c1 := api.set_LastAccess (api.serverResponseW w) (examples.the_clock 1) in
  let reader := examples.arriving_at (api.set_Var c1 []) in
  api.serverResponseW_stores
    (api.added w (api.run (api.StatusCb examples.env_down r) w))
  = [ c1; api.set_Var c1 [];
      api.set_Var c1 [api.base_status examples.server_A] ]
  /\ api.written
       (api.added reader (api.run (api.StatusCb examples.env_down r) reader))
     = [api.success (api.BodyServers [])]
  /\ api.run (api.StatusCb examples.env_down r) examples.settled
     = api.after examples.settled (api.serverResponseW examples.settled)
         (api.playTimeLeaderboardW examples.settled) 1
         [api.EvWriteJson
            (api.success (api.BodyServers [api.base_status examples.server_A]))].
Proof.
  intros r w c1 reader.
  assert (H : api.ShouldRefreshResponse
                (api.clock examples.env_down (api.clock_reads w))
                (api.serverResponseW w) = true
              /\ api.ShouldRefreshResponse
                   (api.clock examples.env_down (api.clock_reads reader))
                   (api.set_Var c1 []) = false
              /\ api.ShouldRefreshResponse
                   (api.clock examples.env_down (api.clock_reads examples.settled))
                   (api.serverResponseW examples.settled) = false).
  { repeat split; vm_compute; reflexivity. }
  destruct H as (H1 & H2 & H3).
  pose proof (refresh_builds_in_place examples.env_down r w) as Hw.
  pose proof (refresh_builds_in_place examples.env_down r examples.settled) as Hs.
  cbn zeta in Hw, Hs.
  destruct Hw as (Hstale & _). destruct Hs as (_ & Hfresh & _).
  destruct (Hstale H1) as (_ & Hstores & Hreader).
  split; [rewrite Hstores; reflexivity|].
  split.
  - destruct (Hreader (api.set_Var c1 []) r reader) as (_ & Hwritten & _).
    + right. left. reflexivity.
    + reflexivity.
    + exact H2.
    + rewrite Hwritten. reflexivity.
  - rewrite (Hfresh H3). reflexivity.
Defined.

(** C1 (as stated, refuted).  The status cache holds the complete list
    of an earlier refresh; a request starts a refresh.  The entry as it
    is after the second store of that refresh — the new time stamp, the
    list emptied — is one of the states before the refresh's last store,
    and a second request that arrives at it is answered with the empty
    list, not with the previous list. *)
Lemma StatusCb_mid_refresh_counterexample :
  let r := examples.request "" "" in
  let refresh := api.run (api.StatusCb examples.env_down r) examples.warm in
  let c := api.set_Var
             (api.set_LastAccess (api.serverResponseW examples.warm)
                (examples.the_clock 1)) [] in
  In c (removelast (api.serverResponseW_stores (api.trace refresh)))
  /\ api.written
       (api.trace (api.run (api.StatusCb examples.env_down r) (examples.arriving_at c)))
     = [api.success (api.BodyServers [])]
  /\ api.Var (api.serverResponseW examples.warm) = [examples.old_record]
  /\ [examples.old_record] <> [].
Proof.
  cbn zeta. split; [|split; [|split]].
  - vm_compute. right. left. reflexivity.
  - vm_compute. reflexivity.
  - reflexivity.
  - discriminate.
Qed.

Lemma StatusCb_one_record_per_server_witness :
  let r := examples.request "" "" in
  let result :=
    api.Var (api.serverResponseW
               (api.run (api.StatusCb examples.env_ABC r) examples.initial)) in
  length result = 3%nat
  /\ map api.Name result = ["A"; "B"; "C"]
  /\ map api.ServerStatus_ result = [0; 1; 0]
  /\ map api.RoundID result = [0; 7; 0]
  /\ map api.ErrorMessage result
     = ["Server is down"; "Server B is down"; "Server C is down"].
Proof.
  intros r result.
  assert (H : api.ShouldRefreshResponse
                (api.clock examples.env_ABC (api.clock_reads examples.initial))
                (api.serverResponseW examples.initial) = true)
    by (vm_compute; reflexivity).
  destruct (StatusCb_one_record_per_server examples.env_ABC r examples.initial H)
    as (Halone & Hmap & Hlen & _).
  rewrite Halone in Hmap, Hlen. cbn [snd] in Hmap, Hlen.
  split; [exact Hlen|].
  unfold result. rewrite Hmap. repeat split; vm_compute; reflexivity.
Defined.

(** C5 (as stated, refuted).  Three servers are configured and two
    requests find the status cache stale at the same time: both pass
    the check before either sets the last access, both empty the list,
    and both run the loop.  When both are done the list holds six
    records, and they are not in configuration order. *)
Lemma StatusCb_interleaved_counterexample :
  let done :=
    api.StatusCb_interleaved examples.env_ABC (examples.both_refresh 3)
      (api.PcCheck, api.PcCheck) examples.initial in
  done.1 = (api.PcDone, api.PcDone)
  /\ length (config.Servers (api.GetConfig examples.env_ABC)) = 3%nat
  /\ length (api.Var (api.serverResponseW done.2)) = 6%nat
  /\ map api.Name (api.Var (api.serverResponseW done.2))
     = ["A"; "A"; "B"; "B"; "C"; "C"].
Proof.
  cbn zeta. repeat split; vm_compute; reflexivity.
Qed.



Lemma PlayerLeaderboardCb_cache_policy_witness :
  let r_job := examples.request "s3cret" "job=Doctor" in
  let r_plain := examples.request "" "" in
  api.run (api.PlayerLeaderboardCb examples.env_down r_job) examples.settled
  = api.after examples.settled (api.serverResponseW examples.settled)
      (api.playTimeLeaderboardW examples.settled) 0
      [ api.EvDb (db.QGetTopMinutes "Doctor");
        api.EvWriteJson
          (api.success
             (api.BodyRoleTimes
                (map api.copy_RoleTime
                   (db.GetTopMinutes (api.database examples.env_down) "Doctor")))) ]
  /\ api.lookups
       (drop (length (api.trace examples.settled))
          (api.trace
             (api.run (api.PlayerLeaderboardCb examples.env_down r_plain)
                examples.settled)))
     = [].
Proof.
  intros r_job r_plain.
  assert (H : url.Get (api.Query r_job) "job" <> ""
              /\ api.Header_token r_job
                 = config.Secret (api.GetConfig examples.env_down)
              /\ url.Get (api.Query r_plain) "job" = "").
  { split; [vm_compute; discriminate|split; vm_compute; reflexivity]. }
  destruct H as (H1 & H2 & H3).
  destruct (PlayerLeaderboardCb_cache_policy examples.env_down r_job r_plain
              examples.settled H1 H2 H3) as (Hjob & _ & Hlookups & _).
  split; [exact Hjob | exact Hlookups].
Defined.

(** C8 (as stated, refuted).  A leaderboard request for the job Doctor
    that carries no token: no database lookup is made, the bad-auth
    envelope is written. *)
Lemma PlayerLeaderboardCb_job_counterexample :
  let r := examples.request "" "job=Doctor" in
  let done := api.run (api.PlayerLeaderboardCb examples.env_down r) examples.initial in
  url.Get (api.Query r) "job" = "Doctor"
  /\ api.lookups (api.trace done) = []
  /\ api.written (api.trace done) = [api.bad_auth].
Proof.
  cbn zeta. repeat split; vm_compute; reflexivity.
Qed.

Lemma PlayerLeaderboardCb_token_check_witness :
  let r_job := examples.request "guess" "job=Doctor" in
  let r_plain := examples.request "" "" in
  let served :=
    api.run (api.PlayerLeaderboardCb examples.env_down r_plain) examples.initial in
  api.run (api.PlayerLeaderboardCb examples.env_down r_job) examples.initial
  = api.after examples.initial (api.serverResponseW examples.initial)
      (api.playTimeLeaderboardW examples.initial) 0
      [api.EvWriteJson api.bad_auth]
  /\ api.run (api.PlayerLeaderboardCb examples.env_down
                {| api.Header_token := "guess";
                   api.RawQuery := api.RawQuery r_plain |}) examples.initial
     = served
  /\ api.written (api.added examples.initial served)
     = [api.success
          (api.BodyRoleTimes
             [ {| db.ByondKey := Some "alice"; db.Minutes := Some 120 |};
               {| db.ByondKey := Some "bob"; db.Minutes := Some 45 |} ])].
Proof.
  intros r_job r_plain served.
  assert (H : url.Get (api.Query r_job) "job" <> ""
              /\ api.Header_token r_job
                 <> config.Secret (api.GetConfig examples.env_down)
              /\ url.Get (api.Query r_plain) "job" = "").
  { split; [vm_compute; discriminate|split; [vm_compute; discriminate|]].
    vm_compute; reflexivity. }
  destruct H as (H1 & H2 & H3).
  destruct (PlayerLeaderboardCb_token_check examples.env_down r_job r_plain
              "guess" examples.initial H1 H2 H3)
    as (Hdenied & _ & _ & _ & Hplain & Hwritten & Hrows).
  split; [exact Hdenied|]. split; [exact Hplain|].
  fold served in Hwritten, Hrows. rewrite Hwritten, Hrows. reflexivity.
Defined.

Lemma BanCheckCb_without_id_or_ckey_witness :
  let r := examples.request "s3cret" "name=someone" in
  api.run (api.BanCheckCb examples.env_down r) examples.initial = examples.initial
  /\ api.written
       (drop (length (api.trace examples.initial))
          (api.trace (api.run (api.BanCheckCb examples.env_down r) examples.initial)))
     = [].
Proof.
  intros r.
  assert (H : api.Header_token r = config.Secret (api.GetConfig examples.env_down)
              /\ url.Has (api.Query r) "id" = false
              /\ url.Has (api.Query r) "ckey" = false).
  { repeat split; vm_compute; reflexivity. }
  destruct H as (H1 & H2 & H3).
  destruct (BanCheckCb_without_id_or_ckey examples.env_down r examples.initial H1 H2 H3)
    as (Hsame & _ & Hwritten).
  split; [exact Hsame | exact Hwritten].
Defined.

(** ** The further properties on concrete inputs *)

Lemma Topic_silent_remote_witness :
  byond.Topic (examples.answering []) "127.0.0.1:1337" "?status"
  = (None, byond.TopicTypeNull, None).
Proof.
  apply (Topic_silent_remote (examples.answering []) "127.0.0.1:1337" "?status"
           {| byond.respond := fun _ => [] |}); reflexivity.
Defined.

Lemma Topic_exchange_zero_fill_witness :
  byond.Topic_exchange [byond.response_header 0x83 4 ++ [x06; x61]]
  = (None, byond.TopicTypeString, Some [x61; x00; x00]).
Proof.
  assert (Hsize : 0 <= 4 < 65536) by lia.
  assert (Hpart : [x06; x61] <> []) by discriminate.
  exact (proj2 (Topic_exchange_zero_fill 0x83 4 [x06; x61] [] Hsize Hpart)).
Defined.

Lemma ShouldRefreshResponse_monotone_witness :
  api.ShouldRefreshResponse (examples.the_clock 5)
    (api.serverResponseW examples.warm) = true.
Proof.
  apply (ShouldRefreshResponse_monotone (api.serverResponseW examples.warm)
           (examples.the_clock 0) (examples.the_clock 5)).
  - vm_compute. discriminate.
  - vm_compute. reflexivity.
Defined.

Lemma ShouldRefreshResponse_no_cooldown_witness :
  api.ShouldRefreshResponse time.unixEpoch (api.serverResponseW api.start) = true.
Proof.
  apply (ShouldRefreshResponse_no_cooldown (api.serverResponseW api.start)
           time.unixEpoch).
  - vm_compute. discriminate.
  - vm_compute. discriminate.
Defined.

Lemma StatusCb_answers_once_witness :
  let r := examples.request "" "" in
  let down := api.run (api.StatusCb examples.env_down r) examples.initial in
  let inf :=
    api.run (api.StatusCb (examples.env_answering "time_dilation_current=inf") r)
      examples.initial in
  api.written (api.added examples.initial down)
  = [api.success (api.BodyServers [api.base_status examples.server_A])]
  /\ api.ServerStatus_encodable
       (api.server_status (examples.env_answering "time_dilation_current=inf")
          examples.server_A) = false
  /\ api.written (api.added examples.initial inf) = [].
Proof.
  intros r down inf.
  destruct (StatusCb_answers_once examples.env_down r examples.initial)
    as (Hdown & _).
  destruct (StatusCb_answers_once
              (examples.env_answering "time_dilation_current=inf") r
              examples.initial) as (Hinf & _).
  split; [|split].
  - unfold down. rewrite Hdown. vm_compute. reflexivity.
  - vm_compute. reflexivity.
  - unfold inf. rewrite Hinf. vm_compute. reflexivity.
Defined.

Lemma StatusCb_second_request_cached_witness :
  let r := examples.request "" "" in
  let w1 := api.run (api.StatusCb examples.env_down r) examples.warm in
  let w2 := api.run (api.StatusCb examples.env_down r) w1 in
  api.topics (api.added w1 w2) = []
  /\ api.written (api.added w1 w2) = api.written (api.added examples.warm w1)
  /\ api.serverResponseW w2 = api.serverResponseW w1.
Proof.
  intros r w1 w2.
  assert (H : api.ShouldRefreshResponse
                (api.clock examples.env_down (api.clock_reads examples.warm))
                (api.serverResponseW examples.warm) = true
              /\ api.Cooldown (api.serverResponseW examples.warm) <= time.maxDuration
              /\ 0 <= api.clock examples.env_down (S (S (api.clock_reads examples.warm)))
                      - api.clock examples.env_down (S (api.clock_reads examples.warm))
                   < api.Cooldown (api.serverResponseW examples.warm)).
  { split; [vm_compute; reflexivity|].
    split; [vm_compute; discriminate|].
    split; [vm_compute; discriminate | vm_compute; reflexivity]. }
  destruct H as (H1 & H2 & H3).
  exact (StatusCb_second_request_cached examples.env_down r r examples.warm H1 H2 H3).
Defined.

Lemma PlayerLeaderboardCb_rows_unchanged_witness :
  let r := examples.request "s3cret" "job=Doctor" in
  let w' := api.run (api.PlayerLeaderboardCb examples.env_down r) examples.initial in
  api.written (api.added examples.initial w')
  = [api.success
       (api.BodyRoleTimes
          (db.GetTopMinutes (api.database examples.env_down) "Doctor"))].
Proof.
  intros r w'.
  assert (H : In (db.QGetTopMinutes "Doctor")
                (api.lookups (api.added examples.initial w')))
    by (vm_compute; left; reflexivity).
  exact (proj1 (PlayerLeaderboardCb_rows_unchanged examples.env_down r
                  examples.initial "Doctor" H)).
Defined.

Lemma BanCheckCb_id_first_witness :
  let r := examples.request "s3cret" "id=abc&ckey=someone" in
  let r_long := examples.request "s3cret" "id=99999999999999999999x" in
  api.lookups (api.added examples.initial
                 (api.run (api.BanCheckCb examples.env_down r) examples.initial))
  = [db.QGetBanByID 0]
  /\ api.lookups (api.added examples.initial
                    (api.run (api.BanCheckCb examples.env_down r_long)
                       examples.initial))
     = [db.QGetBanByID (-1)].
Proof.
  intros r r_long.
  assert (H : api.Header_token r = config.Secret (api.GetConfig examples.env_down)
              /\ url.Has (api.Query r) "id" = true
              /\ (strconv.Atoi (url.Get (api.Query r) "id")).2
                 = Some strconv.ErrSyntax
              /\ api.Header_token r_long
                 = config.Secret (api.GetConfig examples.env_down)
              /\ url.Has (api.Query r_long) "id" = true)
    by (repeat split; vm_compute; reflexivity).
  destruct H as (H1 & H2 & H3 & H4 & H5).
  destruct (BanCheckCb_id_first examples.env_down r examples.initial H1 H2)
    as (Hlookup & _ & Hzero & _).
  destruct (BanCheckCb_id_first examples.env_down r_long examples.initial H4 H5)
    as (Hlong & _).
  split.
  - rewrite Hlookup, (Hzero H3). reflexivity.
  - rewrite Hlong. reflexivity.
Defined.

Lemma BanCheckCb_by_ckey_witness :
  let r := examples.request "s3cret" "ckey=someone" in
  api.lookups (api.added examples.initial
                 (api.run (api.BanCheckCb examples.env_down r) examples.initial))
  = [db.QGetBan (url.Get (api.Query r) "ckey")].
Proof.
  intros r.
  assert (H : api.Header_token r = config.Secret (api.GetConfig examples.env_down)
              /\ url.Has (api.Query r) "id" = false
              /\ url.Has (api.Query r) "ckey" = true)
    by (repeat split; vm_compute; reflexivity).
  destruct H as (H1 & H2 & H3).
  exact (proj1 (BanCheckCb_by_ckey examples.env_down r examples.initial H1 H2 H3)).
Defined.

Lemma InitV1_first_requests_witness :
  let r := examples.request "" "" in
  let w0 := api.run api.InitV1 api.start in
  api.topics (api.added w0 (api.run (api.StatusCb examples.env_down r) w0))
  = map (fun server => (config.Address server, "?status"))
      (config.Servers (api.GetConfig examples.env_down))
  /\ api.lookups
       (api.added w0 (api.run (api.PlayerLeaderboardCb examples.env_down r) w0))
     = [db.QGetTopMinutes "Living"].
Proof.
  intros r w0.
  assert (H : time.unixEpoch
              <= api.clock examples.env_down (api.clock_reads api.start)
              /\ url.Get (api.Query r) "job" = "")
    by (split; [vm_compute; discriminate | vm_compute; reflexivity]).
  destruct H as (H1 & H2).
  destruct (InitV1_first_requests examples.env_down r api.start H1 H2)
    as (_ & _ & _ & _ & Htopics & Hlookups).
  split; [exact Htopics | exact Hlookups].
Defined.

Lemma secondsToTime_fields_witness :
  web.secondsToTime 3725 = "01:02:05"
  /\ String.length (web.secondsToTime 3725) = 8%nat.
Proof.
  assert (H : 0 <= 3725 < 2 ^ 31) by lia.
  destruct (secondsToTime_fields 3725 H) as (Htext & _ & _ & _ & Hlen).
  split; [rewrite Htext; reflexivity | apply Hlen; lia].
Defined.

Lemma GetShuttleTime_no_time_witness :
  web.GetShuttleTime 90 "stranded" = "--:--"
  /\ web.GetShuttleTime 90 "called" = "01:30".
Proof.
  assert (H : 0 <= 90) by lia.
  destruct (GetShuttleTime_no_time 90 "stranded" H) as (Hnone & _ & _).
  destruct (GetShuttleTime_no_time 90 "called" H) as (_ & Hclock & _).
  split.
  - apply Hnone. left. reflexivity.
  - rewrite Hclock by discriminate. reflexivity.
Defined.
